(** * Food analyzer: response normalisation, safe access and rendering

    A shallow embedding of the pure parts of [app2.py] and [app.py]:
    the clean-up and parsing of the model's reply, the nested accessor
    [safe_get], the macronutrient chart, the daily-value percentages, the
    allergen block of the details tab and the per-upload session cache.

    Conventions.  A Python [str] is a [string]; every [ascii] stands for the
    code point with the same number, so the texts covered are those whose
    code points, written out or escaped, are below 256.  A Python [int] is a [Z], a Python [float] is
    a binary64 value of [spec_float].  A call that may raise returns a
    [result]. *)

From Stdlib Require Import ZArith NArith List String Ascii Bool Lia.
From Stdlib Require Import Floats.SpecFloat.
From Stdlib Require Import Numbers.DecimalString Numbers.DecimalN Numbers.DecimalZ.
Import ListNotations.

Local Open Scope string_scope.
Local Open Scope Z_scope.

(** ** Python [str] methods used by the sources *)

Module PyStr.

(** The double quote and the line feed, which a literal cannot hold. *)
Definition dquote : ascii := "034"%char.
Definition newline : ascii := "010"%char.

(** [q s] is [s] with every apostrophe replaced by a double quote: a way
    to write JSON texts as literals. *)
Fixpoint q (s : string) : string :=
  match s with
  | EmptyString => EmptyString
  | String c r => String (if Ascii.eqb c "'" then dquote else c) (q r)
  end.

(** [str.isspace] on one code point below 256: TAB..CR, FS..US, space,
    NEL and the no-break space. *)
Definition is_space (c : ascii) : bool :=
  let n := N_of_ascii c in
  ((9 <=? n) && (n <=? 13) || (28 <=? n) && (n <=? 32)
   || (n =? 133) || (n =? 160))%N.

(** Removal of the leading, and of the trailing, characters of a class. *)
Fixpoint lstrip_by (p : ascii -> bool) (s : string) : string :=
  match s with
  | EmptyString => EmptyString
  | String c r => if p c then lstrip_by p r else s
  end.

Fixpoint rstrip_by (p : ascii -> bool) (s : string) : string :=
  match s with
  | EmptyString => EmptyString
  | String c r =>
      match rstrip_by p r with
      | EmptyString => if p c then EmptyString else String c EmptyString
      | r' => String c r'
      end
  end.

Definition strip_by (p : ascii -> bool) (s : string) : string :=
  rstrip_by p (lstrip_by p s).

(** [s.strip()] *)
Definition strip (s : string) : string := strip_by is_space s.

(** [s[n:]] for [n >= 0] *)
Fixpoint drop (n : nat) (s : string) : string :=
  match n, s with
  | O, _ => s
  | S _, EmptyString => EmptyString
  | S n', String _ r => drop n' r
  end.

(** [s[:n]] for [n >= 0] *)
Fixpoint take (n : nat) (s : string) : string :=
  match n, s with
  | O, _ => EmptyString
  | S _, EmptyString => EmptyString
  | S n', String c r => String c (take n' r)
  end.

(** [s[:-n]]: a negative stop counts from the end and is clamped at 0. *)
Definition drop_last (n : nat) (s : string) : string :=
  take (String.length s - n) s.

(** [s[a:b]] for [0 <= a] and [0 <= b] *)
Definition slice (a b : Z) (s : string) : string :=
  take (Z.to_nat (b - a)) (drop (Z.to_nat a) s).

(** [s.startswith(p)] *)
Fixpoint startswith (p s : string) : bool :=
  match p, s with
  | EmptyString, _ => true
  | String _ _, EmptyString => false
  | String a p', String b s' => Ascii.eqb a b && startswith p' s'
  end.

(** [s.endswith(p)] *)
Definition endswith (p s : string) : bool :=
  (String.length p <=? String.length s)%nat
  && String.eqb (drop (String.length s - String.length p) s) p.

Fixpoint find_from (c : ascii) (s : string) (i : Z) : Z :=
  match s with
  | EmptyString => -1
  | String d r => if Ascii.eqb d c then i else find_from c r (i + 1)
  end.

(** [s.find(c)] for a one-character [c]: the lowest index, or -1. *)
Definition find (c : ascii) (s : string) : Z := find_from c s 0.

Fixpoint rfind_from (c : ascii) (s : string) (i : Z) : Z :=
  match s with
  | EmptyString => -1
  | String d r =>
      let j := rfind_from c r (i + 1) in
      if j =? -1 then (if Ascii.eqb d c then i else -1) else j
  end.

(** [s.rfind(c)] for a one-character [c]: the highest index, or -1. *)
Definition rfind (c : ascii) (s : string) : Z := rfind_from c s 0.

(** [c in s] for a one-character [c] *)
Fixpoint contains (c : ascii) (s : string) : bool :=
  match s with
  | EmptyString => false
  | String d r => Ascii.eqb d c || contains c r
  end.

(** Every character of [s] is of the class [p]. *)
Fixpoint all_in (p : ascii -> bool) (s : string) : Prop :=
  match s with
  | EmptyString => True
  | String c r => p c = true /\ all_in p r
  end.

(** [c in s], as a proposition *)
Fixpoint occurs (c : ascii) (s : string) : Prop :=
  match s with
  | EmptyString => False
  | String d r => d = c \/ occurs c r
  end.

End PyStr.

(** ** Python [float]: binary64 arithmetic, rounding to nearest even *)

Module PyFloat.

Definition prec : Z := 53.
Definition emax : Z := 1024.

Definition float : Type := spec_float.

(** An integer as an unrounded operand of the operations below. *)
Definition exact (z : Z) : float :=
  match z with
  | Z0 => S754_zero false
  | Zpos p => S754_finite false p 0
  | Zneg p => S754_finite true p 0
  end.

(** The binary64 value nearest to the integer [z]. *)
Definition of_Z (z : Z) : float := binary_normalize prec emax z 0 false.

Definition div (x y : float) : float := SFdiv prec emax x y.
Definition mul (x y : float) : float := SFmul prec emax x y.

Definition is_nan (x : float) : bool :=
  match x with S754_nan => true | _ => false end.

Definition is_inf (x : float) : bool :=
  match x with S754_infinity _ => true | _ => false end.

(** [x > 0] *)
Definition gt_zero (x : float) : bool := SFltb (S754_zero false) x.

(** The integer part of a finite value, towards zero. *)
Definition trunc (x : float) : option Z :=
  match x with
  | S754_zero _ => Some 0
  | S754_finite s m e => Some (cond_Zopp s (Z.shiftl (Zpos m) e))
  | S754_infinity _ | S754_nan => None
  end.

(** The binary64 value nearest to [(-1)^neg * m * 10^e], for [0 <= m]:
    what reading a decimal literal gives.  Too large a value gives an
    infinity, too small a one a zero. *)
Definition of_decimal (neg : bool) (m e : Z) : float :=
  match m with
  | Z0 => S754_zero neg
  | _ =>
      let sm := cond_Zopp neg m in
      if 0 <=? e then binary_normalize prec emax (sm * 10 ^ e) 0 false
      else div (exact sm) (exact (10 ^ (- e)))
  end.

End PyFloat.


(** ** Values and exceptions *)

(** What [json.loads] can return: [None], [bool], [int], [float], [str],
    [list] and [dict] with [str] keys.  A [dict] is the list of its items in
    insertion order, with distinct keys. *)
#[warnings="-register-all"]
Inductive pyval : Type :=
| PNone
| PBool (b : bool)
| PInt (z : Z)
| PFloat (f : PyFloat.float)
| PStr (s : string)
| PList (l : list pyval)
| PDict (d : list (string * pyval)).

(** The exception classes the modelled code can meet. *)
Inductive exn : Type :=
| TypeError | ValueError | KeyError | IndexError | OverflowError
| ZeroDivisionError | AttributeError | JSONDecodeError.

Definition exn_eqb (a b : exn) : bool :=
  match a, b with
  | TypeError, TypeError | ValueError, ValueError | KeyError, KeyError
  | IndexError, IndexError | OverflowError, OverflowError
  | ZeroDivisionError, ZeroDivisionError
  | AttributeError, AttributeError
  | JSONDecodeError, JSONDecodeError => true
  | _, _ => false
  end.

(** [isinstance(e, cls)]: [JSONDecodeError] is a subclass of [ValueError]. *)
Definition exn_isa (e cls : exn) : bool :=
  exn_eqb e cls
  || match e, cls with JSONDecodeError, ValueError => true | _, _ => false end.

(** The outcome of a call: a value, or a raised exception. *)
Inductive result (A : Type) : Type :=
| Ret (a : A)
| Raise (e : exn).
Arguments Ret {A} a.
Arguments Raise {A} e.

Definition bind {A B : Type} (m : result A) (k : A -> result B) : result B :=
  match m with
  | Ret a => k a
  | Raise e => Raise e
  end.

Notation "x <- m ;; k" := (bind m (fun x => k))
  (at level 61, m at next level, right associativity).

(** [try: body except (classes): handler] *)
Definition try_except {A : Type} (body : result A) (classes : list exn)
    (handler : result A) : result A :=
  match body with
  | Ret a => Ret a
  | Raise e => if existsb (exn_isa e) classes then handler else Raise e
  end.

(** ** Built-in functions *)

Module Builtins.
Import PyStr.

(** [isinstance(v, (int, float))]; a [bool] is an [int]. *)
Definition is_number (v : pyval) : bool :=
  match v with
  | PBool _ | PInt _ | PFloat _ => true
  | _ => false
  end.

Definition is_list (v : pyval) : bool :=
  match v with PList _ => true | _ => false end.

Definition is_dict (v : pyval) : bool :=
  match v with PDict _ => true | _ => false end.

Definition is_str (v : pyval) : bool :=
  match v with PStr _ => true | _ => false end.

(** [v > 0] for a number [v] *)
Definition number_gt_zero (v : pyval) : bool :=
  match v with
  | PBool b => b
  | PInt z => 0 <? z
  | PFloat f => PyFloat.gt_zero f
  | _ => false
  end.

Definition is_digit (c : ascii) : bool :=
  let n := N_of_ascii c in ((48 <=? n) && (n <=? 57))%N.

Definition digit_val (c : ascii) : Z := Z.of_N (N_of_ascii c) - 48.

(** ASCII lower case of a letter *)
Definition lower (c : ascii) : ascii :=
  let n := N_of_ascii c in
  if ((65 <=? n) && (n <=? 90))%N then ascii_of_N (n + 32) else c.

Fixpoint lower_str (s : string) : string :=
  match s with
  | EmptyString => EmptyString
  | String c r => String (lower c) (lower_str r)
  end.

(** The blanks [int] and [float] skip around a numeral: TAB..CR and
    space, and the two blanks above 127. *)
Definition numeral_space (c : ascii) : bool :=
  let n := N_of_ascii c in
  ((9 <=? n) && (n <=? 13) || (n =? 32) || (n =? 133) || (n =? 160))%N.

Definition read_sign (s : string) : bool * string :=
  match s with
  | String "-" r => (true, r)
  | String "+" r => (false, r)
  | _ => (false, s)
  end.

(** A run of digits in which single underscores may separate digits.
    [acc] is the value read so far and [cnt] the number of digits read so
    far; the result has the value, the number of digits and the rest. *)
Fixpoint read_digits (s : string) (acc : Z) (cnt : nat) : Z * nat * string :=
  match s with
  | EmptyString => (acc, cnt, s)
  | String c r =>
      if is_digit c then read_digits r (acc * 10 + digit_val c) (S cnt)
      else if Ascii.eqb c "_" then
        match cnt, r with
        | S _, String d _ =>
            if is_digit d then read_digits r acc cnt else (acc, cnt, s)
        | _, _ => (acc, cnt, s)
        end
      else (acc, cnt, s)
  end.

(** [int(s)] for a [str]: the integer, or [None] for [ValueError].  The
    number of digits is not limited. *)
Definition int_of_str (s : string) : option Z :=
  let '(neg, r) := read_sign (strip_by numeral_space s) in
  match read_digits r 0 0 with
  | (z, S _, EmptyString) => Some (cond_Zopp neg z)
  | _ => None
  end.

(** [float(s)] for a [str]: the number, or [None] for [ValueError]. *)
Definition float_of_str (s : string) : option PyFloat.float :=
  let '(neg, r) := read_sign (strip_by numeral_space s) in
  let w := lower_str r in
  if String.eqb w "inf" || String.eqb w "infinity" then
    Some (S754_infinity neg)
  else if String.eqb w "nan" then Some S754_nan
  else
    let '(ipart, ni, r1) := read_digits r 0 0 in
    let '(m, nf, r2) :=
      match r1 with
      | String "." r1' => read_digits r1' ipart 0
      | _ => (ipart, 0%nat, r1)
      end in
    match (ni + nf)%nat with
    | O => None
    | S _ =>
        match r2 with
        | EmptyString => Some (PyFloat.of_decimal neg m (- Z.of_nat nf))
        | String c r3 =>
            if Ascii.eqb (lower c) "e" then
              let '(eneg, r4) := read_sign r3 in
              match read_digits r4 0 0 with
              | (ex, S _, EmptyString) =>
                  Some (PyFloat.of_decimal neg m
                          (cond_Zopp eneg ex - Z.of_nat nf))
              | _ => None
              end
            else None
        end
    end.

(** [int(v)] *)
Definition py_int (v : pyval) : result pyval :=
  match v with
  | PBool b => Ret (PInt (if b then 1 else 0))
  | PInt z => Ret (PInt z)
  | PFloat f =>
      match PyFloat.trunc f with
      | Some z => Ret (PInt z)
      | None => Raise (if PyFloat.is_nan f then ValueError else OverflowError)
      end
  | PStr s =>
      match int_of_str s with
      | Some z => Ret (PInt z)
      | None => Raise ValueError
      end
  | PNone | PList _ | PDict _ => Raise TypeError
  end.

(** [float(v)] *)
Definition py_float (v : pyval) : result pyval :=
  match v with
  | PBool b => Ret (PFloat (PyFloat.of_Z (if b then 1 else 0)))
  | PInt z =>
      let f := PyFloat.of_Z z in
      if PyFloat.is_inf f then Raise OverflowError else Ret (PFloat f)
  | PFloat f => Ret (PFloat f)
  | PStr s =>
      match float_of_str s with
      | Some f => Ret (PFloat f)
      | None => Raise ValueError
      end
  | PNone | PList _ | PDict _ => Raise TypeError
  end.

(** The value stored under [k], if any. *)
Fixpoint dict_find (d : list (string * pyval)) (k : string) : option pyval :=
  match d with
  | [] => None
  | (k', v) :: r => if String.eqb k' k then Some v else dict_find r k
  end.

(** [d.get(k, default)] *)
Definition dict_get_default (d : list (string * pyval)) (k : string)
    (default : pyval) : pyval :=
  match dict_find d k with
  | Some v => v
  | None => default
  end.

(** [d.get(k)]: [None] when the key is absent. *)
Definition dict_get (d : list (string * pyval)) (k : string) : pyval :=
  dict_get_default d k PNone.

Definition as_int (v : pyval) : option Z :=
  match v with
  | PBool b => Some (if b then 1 else 0)
  | PInt z => Some z
  | _ => None
  end.

(** The operand of a float operation: a [float], or an [int] converted. *)
Definition as_float (v : pyval) : result PyFloat.float :=
  match v with
  | PFloat f => Ret f
  | PBool _ | PInt _ => r <- py_float v ;;
      match r with PFloat f => Ret f | _ => Raise TypeError end
  | _ => Raise TypeError
  end.

Definition is_zero (f : PyFloat.float) : bool :=
  match f with S754_zero _ => true | _ => false end.

(** [a / b] on numbers.  Two integers give the float nearest to the exact
    quotient. *)
Definition py_truediv (a b : pyval) : result pyval :=
  match as_int a, as_int b with
  | Some x, Some y =>
      if y =? 0 then Raise ZeroDivisionError
      else
        let f := PyFloat.div (PyFloat.exact x) (PyFloat.exact y) in
        if PyFloat.is_inf f then Raise OverflowError else Ret (PFloat f)
  | _, _ =>
      x <- as_float a ;;
      y <- as_float b ;;
      if is_zero y then Raise ZeroDivisionError
      else Ret (PFloat (PyFloat.div x y))
  end.

(** [a * b] on numbers *)
Definition py_mul (a b : pyval) : result pyval :=
  match as_int a, as_int b with
  | Some x, Some y => Ret (PInt (x * y))
  | _, _ =>
      x <- as_float a ;;
      y <- as_float b ;;
      Ret (PFloat (PyFloat.mul x y))
  end.

(** [str(n)] for a natural number: its decimal digits. *)
Definition str_of_N (n : N) : string :=
  NilEmpty.string_of_uint (N.to_uint n).

(** [d[k] = v]: the item is replaced in place, or added at the end. *)
Fixpoint dict_set (d : list (string * pyval)) (k : string) (v : pyval)
    : list (string * pyval) :=
  match d with
  | [] => [(k, v)]
  | (k', v') :: r =>
      if String.eqb k' k then (k', v) :: r else (k', v') :: dict_set r k v
  end.

End Builtins.

(** ** [json.loads] *)

Module Json.
Import PyStr Builtins.

(** What a scanning function gives: a value with the text that follows
    it, a refusal of the text, or the exhaustion of its fuel. *)
Inductive outcome (A : Type) : Type :=
| Parsed (a : A)
| Invalid
| Starved.
Arguments Parsed {A} a.
Arguments Invalid {A}.
Arguments Starved {A}.

(** The blanks of JSON: space, TAB, LF and CR. *)
Definition json_ws (c : ascii) : bool :=
  let n := N_of_ascii c in
  ((n =? 32) || (n =? 9) || (n =? 10) || (n =? 13))%N.

Definition skip_ws (s : string) : string := lstrip_by json_ws s.

Definition hex_val (c : ascii) : option N :=
  let n := N_of_ascii c in
  if ((48 <=? n) && (n <=? 57))%N then Some (n - 48)%N
  else if ((97 <=? n) && (n <=? 102))%N then Some (n - 87)%N
  else if ((65 <=? n) && (n <=? 70))%N then Some (n - 55)%N
  else None.

Definition hex4 (a b c d : ascii) : option N :=
  match hex_val a, hex_val b, hex_val c, hex_val d with
  | Some x, Some y, Some z, Some w =>
      Some (((x * 16 + y) * 16 + z) * 16 + w)%N
  | _, _, _, _ => None
  end.

(** The character a one-letter escape stands for. *)
Definition unescape (e : ascii) : option ascii :=
  if Ascii.eqb e dquote then Some dquote
  else if Ascii.eqb e "\" then Some "\"%char
  else if Ascii.eqb e "/" then Some "/"%char
  else if Ascii.eqb e "b" then Some "008"%char
  else if Ascii.eqb e "f" then Some "012"%char
  else if Ascii.eqb e "n" then Some "010"%char
  else if Ascii.eqb e "r" then Some "013"%char
  else if Ascii.eqb e "t" then Some "009"%char
  else None.

Definition prepend (c : ascii) (x : option (string * string))
    : option (string * string) :=
  match x with
  | Some (body, rest) => Some (String c body, rest)
  | None => None
  end.

(** The body of a string literal, from after its opening quote, in
    strict mode: the decoded text and what follows the closing quote.
    An escape [\uXXXX] is decoded when it denotes a code point below
    256; the others lie outside the alphabet and are refused. *)
Fixpoint scanstring (s : string) : option (string * string) :=
  match s with
  | EmptyString => None
  | String c r =>
      if Ascii.eqb c dquote then Some (EmptyString, r)
      else if Ascii.eqb c "\" then
        match r with
        | String "u" (String h1 (String h2 (String h3 (String h4 r')))) =>
            match hex4 h1 h2 h3 h4 with
            | Some n =>
                if (n <? 256)%N then prepend (ascii_of_N n) (scanstring r')
                else None
            | None => None
            end
        | String e r' =>
            match unescape e with
            | Some d => prepend d (scanstring r')
            | None => None
            end
        | EmptyString => None
        end
      else if (N_of_ascii c <? 32)%N then None
      else prepend c (scanstring r)
  end.

(** A run of decimal digits. *)
Fixpoint read_plain_digits (s : string) (acc : Z) (cnt : nat)
    : Z * nat * string :=
  match s with
  | EmptyString => (acc, cnt, s)
  | String c r =>
      if is_digit c then read_plain_digits r (acc * 10 + digit_val c) (S cnt)
      else (acc, cnt, s)
  end.

(** The integer part of a number: a zero, or a run of digits that does
    not start with a zero. *)
Definition scan_int_part (r : string) : option (Z * string) :=
  match r with
  | String "0" r0 => Some (0, r0)
  | String c _ =>
      if is_digit c then
        let '(z, _, r0) := read_plain_digits r 0 0 in Some (z, r0)
      else None
  | EmptyString => None
  end.

(** The fraction, taken only when a digit follows the point: the digits
    read so far with those of the fraction, and the number of the latter. *)
Definition scan_frac (ip : Z) (r0 : string) : Z * nat * string :=
  match r0 with
  | String "." r0' =>
      match read_plain_digits r0' ip 0 with
      | (_, O, _) => (ip, 0%nat, r0)
      | res => res
      end
  | _ => (ip, 0%nat, r0)
  end.

(** The exponent, taken only when a digit follows the letter and the
    sign: its value and whether there is one. *)
Definition scan_exp (r1 : string) : Z * bool * string :=
  match r1 with
  | String c r1' =>
      if Ascii.eqb c "e" || Ascii.eqb c "E" then
        let '(eneg, r1'') :=
          match r1' with
          | String "-" t => (true, t)
          | String "+" t => (false, t)
          | _ => (false, r1')
          end in
        match read_plain_digits r1'' 0 0 with
        | (_, O, _) => (0, false, r1)
        | (e, S _, t) => (cond_Zopp eneg e, true, t)
        end
      else (0, false, r1)
  | EmptyString => (0, false, r1)
  end.

(** The longest prefix that is a number: an optional minus sign, an
    integer part, then an optional fraction and an optional exponent.  The
    value is an [int] when both are missing and a [float] otherwise. *)
Definition scan_number (s : string) : option (pyval * string) :=
  let '(neg, r) :=
    match s with
    | String "-" r => (true, r)
    | _ => (false, s)
    end in
  match scan_int_part r with
  | None => None
  | Some (ip, r0) =>
      let '(m, nf, r1) := scan_frac ip r0 in
      let '(ex, has_exp, r2) := scan_exp r1 in
      match nf, has_exp with
      | O, false => Some (PInt (cond_Zopp neg ip), r2)
      | _, _ =>
          Some (PFloat (PyFloat.of_decimal neg m (ex - Z.of_nat nf)), r2)
      end
  end.

(** The scanner: one value at the head of the text.  [object_loop] runs
    from after the opening quote of a key, [array_loop] from the start of
    an item; both carry what was read so far. *)
Fixpoint scan_once (fuel : nat) (s : string) {struct fuel}
    : outcome (pyval * string) :=
  match fuel with
  | O => Starved
  | S n =>
      match s with
      | EmptyString => Invalid
      | String c r =>
          if Ascii.eqb c dquote then
            match scanstring r with
            | Some (body, rest) => Parsed (PStr body, rest)
            | None => Invalid
            end
          else if Ascii.eqb c "{" then
            match skip_ws r with
            | String c1 r1 =>
                if Ascii.eqb c1 "}" then Parsed (PDict [], r1)
                else if Ascii.eqb c1 dquote then object_loop n r1 []
                else Invalid
            | EmptyString => Invalid
            end
          else if Ascii.eqb c "[" then
            match skip_ws r with
            | String c1 r1 =>
                if Ascii.eqb c1 "]" then Parsed (PList [], r1)
                else array_loop n (String c1 r1) []
            | EmptyString => array_loop n EmptyString []
            end
          else if startswith "null" s then Parsed (PNone, drop 4 s)
          else if startswith "true" s then Parsed (PBool true, drop 4 s)
          else if startswith "false" s then Parsed (PBool false, drop 5 s)
          else
            match scan_number s with
            | Some res => Parsed res
            | None =>
                if startswith "NaN" s then
                  Parsed (PFloat S754_nan, drop 3 s)
                else if startswith "Infinity" s then
                  Parsed (PFloat (S754_infinity false), drop 8 s)
                else if startswith "-Infinity" s then
                  Parsed (PFloat (S754_infinity true), drop 9 s)
                else Invalid
            end
      end
  end

with object_loop (fuel : nat) (s : string) (acc : list (string * pyval))
    {struct fuel} : outcome (pyval * string) :=
  match fuel with
  | O => Starved
  | S n =>
      match scanstring s with
      | None => Invalid
      | Some (k, r) =>
          match skip_ws r with
          | String c1 r1 =>
              if Ascii.eqb c1 ":" then
                match scan_once n (skip_ws r1) with
                | Parsed (v, r2) =>
                    let acc' := dict_set acc k v in
                    match skip_ws r2 with
                    | String c2 r3 =>
                        if Ascii.eqb c2 "}" then Parsed (PDict acc', r3)
                        else if Ascii.eqb c2 "," then
                          match skip_ws r3 with
                          | String c3 r4 =>
                              if Ascii.eqb c3 dquote
                              then object_loop n r4 acc'
                              else Invalid
                          | EmptyString => Invalid
                          end
                        else Invalid
                    | EmptyString => Invalid
                    end
                | Invalid => Invalid
                | Starved => Starved
                end
              else Invalid
          | EmptyString => Invalid
          end
      end
  end

with array_loop (fuel : nat) (s : string) (acc : list pyval)
    {struct fuel} : outcome (pyval * string) :=
  match fuel with
  | O => Starved
  | S n =>
      match scan_once n s with
      | Parsed (v, r) =>
          let acc' := (acc ++ [v])%list in
          match skip_ws r with
          | String c1 r1 =>
              if Ascii.eqb c1 "]" then Parsed (PList acc', r1)
              else if Ascii.eqb c1 "," then array_loop n (skip_ws r1) acc'
              else Invalid
          | EmptyString => Invalid
          end
      | Invalid => Invalid
      | Starved => Starved
      end
  end.

(** Fuel that no text exhausts: every call consumes a character. *)
Definition fuel_for (s : string) : nat := S (2 * String.length s).

(** [json.loads(s)]: one value, blanks allowed around it and nothing
    else; [JSONDecodeError] otherwise.  The depth of nesting is not
    limited. *)
Definition loads (s : string) : result pyval :=
  match scan_once (fuel_for s) (skip_ws s) with
  | Parsed (v, r) =>
      match skip_ws r with
      | EmptyString => Ret v
      | _ => Raise JSONDecodeError
      end
  | Invalid | Starved => Raise JSONDecodeError
  end.

End Json.

Import Builtins.

(** ** [safe_get] (app2.py) *)

(** One step of a key path: a [str] key or an [int] index. *)
Inductive key : Type :=
| KStr (s : string)
| KInt (i : Z).

(** The [keys] argument: a list of steps, or one step that is not a list. *)
Inductive keys_arg : Type :=
| OneKey (k : key)
| KeyList (ks : list key).

(** [temp[i]] on a list, for [0 <= i] *)
Definition list_getitem (l : list pyval) (i : Z) : result pyval :=
  match nth_error l (Z.to_nat i) with
  | Some v => Ret v
  | None => Raise IndexError
  end.

(** [temp.get(key)] on a dict; its keys are [str], so an [int] is absent. *)
Definition dict_get_key (d : list (string * pyval)) (k : key) : pyval :=
  match k with
  | KStr s => dict_get d s
  | KInt _ => PNone
  end.

(** How the [for] loop of [safe_get] ends: by a [return], or by running
    out of keys with [temp] bound. *)
Inductive loop_exit : Type :=
| Returned (v : pyval)
| Finished (temp : pyval).

Fixpoint safe_get_loop (temp : pyval) (keys : list key) (default : pyval)
    : result loop_exit :=
  match keys with
  | [] => Ret (Finished temp)
  | key :: rest =>
      match temp, key with
      | PNone, _ => Ret (Returned default)
      | PList l, KInt i =>
          if (0 <=? i) && (i <? Z.of_nat (List.length l)) then
            t <- list_getitem l i ;; safe_get_loop t rest default
          else Ret (Returned default)
      | PDict d, _ => safe_get_loop (dict_get_key d key) rest default
      | _, _ => Ret (Returned default)
      end
  end.

(** The statements after the loop: a number is returned as it is, anything
    else goes through [int], then [float], and is returned as it is when
    both raise [ValueError] or [TypeError]. *)
Definition coerce (temp : pyval) : result pyval :=
  if is_number temp then Ret temp
  else
    try_except (py_int temp) [ValueError; TypeError]
      (try_except (py_float temp) [ValueError; TypeError] (Ret temp)).

(** [safe_get(data, keys, default)].  Every path through the body of the
    outer [try] ends in a [return], so the statement that follows the
    [try], [return temp if temp is not None else default], is never
    reached and has no counterpart here. *)
Definition safe_get (data : pyval) (keys : keys_arg) (default : pyval)
    : result pyval :=
  let keys := match keys with OneKey k => [k] | KeyList ks => ks end in
  try_except
    (x <- safe_get_loop data keys default ;;
     match x with
     | Returned v => Ret v
     | Finished temp => coerce temp
     end)
    [KeyError; TypeError; IndexError]
    (Ret default).

(** ** [create_macro_pie_chart] (app2.py) *)

(** The arguments of [go.Pie] that depend on the data, and the fixed ones. *)
Record pie_chart : Type := {
  pie_labels : list string;
  pie_values : list pyval;
  pie_hole : PyFloat.float;
  pie_pull : list pyval;
  pie_marker_colors : list string;
  pie_textinfo : string;
  pie_title : string
}.

Fixpoint enumerate_from {A : Type} (i : nat) (l : list A) : list (nat * A) :=
  match l with
  | [] => []
  | x :: r => (i, x) :: enumerate_from (S i) r
  end.

Definition enumerate {A : Type} (l : list A) : list (nat * A) :=
  enumerate_from 0 l.

Definition macro_labels : list string := ["Carbohydrates"; "Protein"; "Fat"].

(** The loop that replaces every non-number by 0. *)
Definition numeric_values_of (values : list pyval) : list pyval :=
  map (fun v => if is_number v then v else PInt 0) values.

(** [create_macro_pie_chart(macros)]: [None], or the figure. *)
Definition create_macro_pie_chart (macros : pyval) : result (option pie_chart) :=
  let labels := macro_labels in
  c <- safe_get macros (OneKey (KStr "carbohydrates")) (PInt 0) ;;
  p <- safe_get macros (OneKey (KStr "protein")) (PInt 0) ;;
  f <- safe_get macros (OneKey (KStr "fat")) (PInt 0) ;;
  let values := [c; p; f] in
  let numeric_values := numeric_values_of values in
  let valid_labels :=
    map snd
      (filter (fun il => number_gt_zero (nth (fst il) numeric_values PNone))
         (enumerate labels)) in
  let valid_values := filter number_gt_zero numeric_values in
  match valid_values with
  | [] => Ret None
  | _ =>
      Ret (Some {|
        pie_labels := valid_labels;
        pie_values := valid_values;
        pie_hole := PyFloat.of_decimal false 3 (-1);
        pie_pull :=
          map (fun v => if number_gt_zero v
                        then PFloat (PyFloat.of_decimal false 5 (-2))
                        else PInt 0) valid_values;
        pie_marker_colors := ["#1f77b4"; "#ff7f0e"; "#2ca02c"];
        pie_textinfo := "percent+label";
        pie_title := "Estimated Macronutrient Distribution (grams)"
      |})
  end.

(** ** The analysis call and its outcome *)

(** The failures an analysis reports, by the message it returns:
    "Received an empty response from the model", "Failed to parse the
    model's response as JSON" ("was not valid JSON" in app.py),
    "Connection Error", "Timeout Error", "Model Not Found Error",
    "Request Error", "An unexpected error occurred" and "Internal error:
    Analysis triggered but no image data found in session state". *)
Inductive analysis_error : Type :=
| EmptyResponse
| MalformedJson
| ConnectionFailure
| Timeout
| ModelNotFound
| TransportError
| UnexpectedError
| InternalError.

(** What [analyze_image_with_ollama] returns: the parsed value, the error
    and the raw output, each possibly [None]. *)
Definition analysis : Type :=
  (option pyval * option analysis_error * option string)%type.

(** What [requests.post], [raise_for_status] and [response.json()] can
    give between them. *)
Inductive transport : Type :=
| ConnectionFailed
| TimedOut
| HttpStatusError (status_code : Z)
| RequestFailed
| Replied (response_data : pyval).

Definition STD_DAILY_CARBS_G : Z := 275.
Definition STD_DAILY_PROTEIN_G : Z := 50.
Definition STD_DAILY_FAT_G : Z := 78.

Module App2.
Import PyStr.

(** The removal of a leading [```json] and of a trailing [```], and of
    the blanks then left at both ends. *)
Definition strip_fences (ollama_output_str : string) : string :=
  let s1 :=
    if startswith "```json" ollama_output_str
    then drop 7 ollama_output_str else ollama_output_str in
  let s2 := if endswith "```" s1 then drop_last 3 s1 else s1 in
  strip s2.

(** The text handed to the parser: from the first opening brace to the
    last closing one when there are both in this order, else all of it. *)
Definition json_candidate (ollama_output_str : string) : string :=
  let json_start := find "{" ollama_output_str in
  let json_end := rfind "}" ollama_output_str in
  if negb (json_start =? -1) && negb (json_end =? -1)
     && (json_start <? json_end)
  then slice json_start (json_end + 1) ollama_output_str
  else ollama_output_str.

(** The statements of [analyze_image_with_ollama] from the test for an
    empty output on, given the stripped output.  The raw output returned
    is the variable as reassigned by the clean-up. *)
Definition normalize (ollama_output_str : string) : result analysis :=
  if String.eqb ollama_output_str "" then
    Ret (None, Some EmptyResponse, Some ollama_output_str)
  else
    let cleaned := strip_fences ollama_output_str in
    let potential_json_str := json_candidate cleaned in
    try_except
      (parsed_json <- Json.loads potential_json_str ;;
       Ret (Some parsed_json, None, Some cleaned))
      [JSONDecodeError]
      (Ret (None, Some MalformedJson, Some cleaned)).

(** [response_data.get('response', '').strip()], then the above. *)
Definition process_response (response_data : pyval) : result analysis :=
  match response_data with
  | PDict d =>
      match dict_get_default d "response" (PStr "") with
      | PStr text => normalize (strip text)
      | _ => Raise AttributeError
      end
  | _ => Raise AttributeError
  end.

(** [analyze_image_with_ollama(image_bytes)], over the behaviour [post]
    of the endpoint. *)
Definition analyze_image_with_ollama (post : string -> transport)
    (image_bytes : string) : analysis :=
  match post image_bytes with
  | ConnectionFailed => (None, Some ConnectionFailure, None)
  | TimedOut => (None, Some Timeout, None)
  | HttpStatusError status_code =>
      if status_code =? 404 then (None, Some ModelNotFound, None)
      else (None, Some TransportError, None)
  | RequestFailed => (None, Some TransportError, None)
  | Replied response_data =>
      match process_response response_data with
      | Ret a => a
      | Raise _ => (None, Some UnexpectedError, None)
      end
  end.

(** *** The session cache *)

Record uploaded_file : Type := {
  file_name : string;
  file_size : N;
  file_value : string
}.

Record session_state : Type := {
  analysis_result : option pyval;
  error_message : option analysis_error;
  raw_output : option string;
  uploaded_file_id : option string;
  image_bytes : option string
}.

Definition initial_state : session_state :=
  {| analysis_result := None; error_message := None; raw_output := None;
     uploaded_file_id := None; image_bytes := None |}.

(** [f"{uploaded_file.name}-{uploaded_file.size}"] *)
Definition file_id (u : uploaded_file) : string :=
  file_name u ++ "-" ++ str_of_N (file_size u).

Definition same_id (id : string) (cached : option string) : bool :=
  match cached with
  | Some c => String.eqb id c
  | None => false
  end.

(** The upload block: the state after it and [run_analysis]. *)
Definition on_upload (st : session_state) (uploaded : option uploaded_file)
    : session_state * bool :=
  match uploaded with
  | Some u =>
      let current_file_id := file_id u in
      if negb (same_id current_file_id (uploaded_file_id st)) then
        ({| uploaded_file_id := Some current_file_id;
            image_bytes := Some (file_value u);
            analysis_result := None;
            error_message := None;
            raw_output := None |}, true)
      else (st, false)
  | None => (st, false)
  end.

(** One run of the script up to the display area: the session state it
    leaves and the images it sent for analysis. *)
Definition rerun (analyze : string -> analysis) (st : session_state)
    (uploaded : option uploaded_file) : session_state * list string :=
  let '(st1, run_analysis) := on_upload st uploaded in
  if run_analysis then
    match image_bytes st1 with
    | Some ((String _ _) as bytes) =>
        let '(result_data, error_msg, raw_response) := analyze bytes in
        ({| uploaded_file_id := uploaded_file_id st1;
            image_bytes := image_bytes st1;
            analysis_result := result_data;
            error_message := error_msg;
            raw_output := raw_response |}, [bytes])
    | _ =>
        ({| uploaded_file_id := uploaded_file_id st1;
            image_bytes := image_bytes st1;
            analysis_result := None;
            error_message := Some InternalError;
            raw_output := None |}, [])
    end
  else (st1, []).

(** *** The display surface *)

(** The calls made on Streamlit.  A text built from the data by an
    f-string is kept as the data it is built from. *)
Inductive st_call : Type :=
| st_markdown (body : string)
| st_markdown_bullets (items : list pyval)
| st_warning (body : string)
| st_write (v : pyval)
| st_text (body : string)
| st_progress (value : Z) (shown : pyval).

(** [x if isinstance(x, (int, float)) else 0] *)
Definition number_or_zero (x : pyval) : pyval :=
  if is_number x then x else PInt 0.

(** [(val / STD) * 100 if STD > 0 else 0] *)
Definition daily_value_pct (val : pyval) (std : Z) : result pyval :=
  if 0 <? std then
    quot <- py_truediv val (PInt std) ;; py_mul quot (PInt 100)
  else Ret (PInt 0).

(** [min(int(pct), 100)] *)
Definition progress_value (pct : pyval) : result Z :=
  i <- py_int pct ;;
  match i with
  | PInt z => Ret (Z.min z 100)
  | _ => Raise TypeError
  end.

(** The texts shown, without their leading emoji. *)
Definition allergen_warning : string :=
  "Allergen list is based on visual cues & typical recipes. It's not exhaustive and doesn't account for cross-contamination. Always verify if you have allergies.".

Definition no_allergens : string :=
  "No obvious potential allergens identified visually or data unavailable.".

(** The allergen block of the details tab. *)
Definition render_allergens (data : pyval) : result (list st_call) :=
  allergens <-
    safe_get data (OneKey (KStr "potential_allergens")) (PList []) ;;
  let header :=
    st_markdown "**Potential Allergens (Visual/Typical Estimate):**" in
  match allergens with
  | PList ((_ :: _) as items) =>
      Ret [header; st_markdown_bullets items; st_warning allergen_warning]
  | PStr (String _ _) => Ret [header; st_write allergens]
  | _ => Ret [header; st_write (PStr no_allergens)]
  end.

End App2.

Module App1.
Import PyStr.

(** The same statements in app.py: no clean-up, and no raw output unless
    parsing fails. *)
Definition normalize (ollama_output_str : string) : result analysis :=
  if String.eqb ollama_output_str "" then
    Ret (None, Some EmptyResponse, None)
  else
    try_except
      (parsed_json <- Json.loads ollama_output_str ;;
       Ret (Some parsed_json, None, None))
      [JSONDecodeError]
      (Ret (None, Some MalformedJson, Some ollama_output_str)).

Definition process_response (response_data : pyval) : result analysis :=
  match response_data with
  | PDict d =>
      match dict_get_default d "response" (PStr "") with
      | PStr text => normalize (strip text)
      | _ => Raise AttributeError
      end
  | _ => Raise AttributeError
  end.

Definition analyze_image_with_ollama (post : string -> transport)
    (image_bytes : string) : analysis :=
  match post image_bytes with
  | ConnectionFailed => (None, Some ConnectionFailure, None)
  | TimedOut => (None, Some Timeout, None)
  | HttpStatusError _ | RequestFailed => (None, Some TransportError, None)
  | Replied response_data =>
      match process_response response_data with
      | Ret a => a
      | Raise _ => (None, Some UnexpectedError, None)
      end
  end.

End App1.

(** ** Vocabulary of the statements *)

(** The text of an object whose braces enclose [body]. *)
Definition object_text (body : string) : string :=
  String "{" (body ++ "}").

(** [wrapped body t]: the text [t] holds the object text [{body}] with no
    opening brace before it and no closing brace after it. *)
Definition wrapped (body t : string) : Prop :=
  exists a b,
    t = a ++ String "{" (body ++ String "}" b)
    /\ ~ PyStr.occurs "{" a /\ ~ PyStr.occurs "}" b.

(** The reply of the specification's scenario: an object inside a
    [```json] fence. *)
Definition fenced_pizza : string :=
  "```json" ++ String PyStr.newline ""
  ++ PyStr.q "{'food_name':'Pizza','estimated_macronutrients_g':{'carbohydrates':80,'protein':20,'fat':30}}"
  ++ String PyStr.newline "```".

Definition pizza_record : pyval :=
  PDict [("food_name", PStr "Pizza");
         ("estimated_macronutrients_g",
          PDict [("carbohydrates", PInt 80); ("protein", PInt 20);
                 ("fat", PInt 30)])].

(** What [safe_get] makes of the value a path ends on: a [str] that [int]
    accepts becomes that integer, one that only [float] accepts becomes
    that float, and every other value stays as it is. *)
Definition coerced (v : pyval) : pyval :=
  match v with
  | PStr s =>
      match int_of_str s with
      | Some z => PInt z
      | None =>
          match float_of_str s with
          | Some f => PFloat f
          | None => v
          end
      end
  | _ => v
  end.

(** The path a [keys] argument stands for. *)
Definition path_of (keys : keys_arg) : list key :=
  match keys with OneKey k => [k] | KeyList ks => ks end.

(** [reaches data keys v]: every step of [keys] finds a container of its
    kind and an item in it, and the path ends on [v]. *)
Inductive reaches : pyval -> list key -> pyval -> Prop :=
| reaches_end (v : pyval) : reaches v [] v
| reaches_index (l : list pyval) (i : Z) (v : pyval) (ks : list key)
    (w : pyval) :
    0 <= i -> nth_error l (Z.to_nat i) = Some v -> reaches v ks w ->
    reaches (PList l) (KInt i :: ks) w
| reaches_key (d : list (string * pyval)) (k : string) (v : pyval)
    (ks : list key) (w : pyval) :
    dict_find d k = Some v -> reaches v ks w ->
    reaches (PDict d) (KStr k :: ks) w.

(** [blocked data keys]: a step of [keys] cannot be taken, because what it
    is applied to is [None] (an absent or null item reached by the steps
    before), is not a container, is a list asked for a [str] key, or is a
    list too short for the index. *)
Inductive blocked : pyval -> list key -> Prop :=
| blocked_none (k : key) (ks : list key) : blocked PNone (k :: ks)
| blocked_scalar (v : pyval) (k : key) (ks : list key) :
    is_list v = false -> is_dict v = false -> blocked v (k :: ks)
| blocked_list_key (l : list pyval) (s : string) (ks : list key) :
    blocked (PList l) (KStr s :: ks)
| blocked_range (l : list pyval) (i : Z) (ks : list key) :
    ~ (0 <= i < Z.of_nat (List.length l)) ->
    blocked (PList l) (KInt i :: ks)
| blocked_under_index (l : list pyval) (i : Z) (v : pyval) (ks : list key) :
    0 <= i -> nth_error l (Z.to_nat i) = Some v -> blocked v ks ->
    blocked (PList l) (KInt i :: ks)
| blocked_under_key (d : list (string * pyval)) (k : key) (ks : list key) :
    blocked (dict_get_key d k) ks -> blocked (PDict d) (k :: ks).

(** A number that is not below zero; a NaN is not one. *)
Definition nonneg_number (v : pyval) : bool :=
  match v with
  | PBool _ => true
  | PInt z => 0 <=? z
  | PFloat (S754_zero _) | PFloat (S754_finite false _ _)
  | PFloat (S754_infinity false) => true
  | _ => false
  end.

(** A float that is not below zero, or a NaN. *)
Definition not_negative (f : PyFloat.float) : Prop :=
  match f with
  | S754_finite true _ _ | S754_infinity true => False
  | _ => True
  end.

(** A float whose sign bit is clear, or a NaN. *)
Definition sign_clear (f : PyFloat.float) : Prop :=
  match f with
  | S754_zero true | S754_finite true _ _ | S754_infinity true => False
  | _ => True
  end.

Definition macro_keys : list string := ["carbohydrates"; "protein"; "fat"].

(** The value a record stores for a field: [None] when the key is missing,
    or when the record is not a dict. *)
Definition field_of (macros : pyval) (k : string) : pyval :=
  match macros with
  | PDict d => dict_get d k
  | _ => PNone
  end.

(** The amount the chart uses for a macro: the stored value as coerced by
    the accessor when that is a number, and 0 otherwise. *)
Definition macro_amount (macros : pyval) (k : string) : pyval :=
  let v := coerced (field_of macros k) in
  if is_number v then v else PInt 0.



(** A stored value that is a number above zero. *)
Definition positive_number (v : pyval) : bool :=
  is_number v && number_gt_zero v.

(** The slices of the chart: the labels paired with the amounts, where
    the amount is above zero. *)
Definition slices (macros : pyval) : list (string * pyval) :=
  filter (fun lv => number_gt_zero (snd lv))
    (combine macro_labels (map (macro_amount macros) macro_keys)).

(** A text that [int] or [float] accepts. *)
Definition reads_as_number (s : string) : bool :=
  match int_of_str s, float_of_str s with
  | None, None => false
  | _, _ => true
  end.

(** The outcome of the analysis block for the bytes of a new upload, and
    the images it sends: the analysis of the bytes, or the internal error
    when there are none. *)
Definition analysis_attempt (analyze : string -> analysis) (bytes : string)
    : analysis * list string :=
  match bytes with
  | EmptyString => ((None, Some InternalError, None), [])
  | _ => (analyze bytes, [bytes])
  end.

(** The session state made of an upload and of the outcome of its
    analysis, and of nothing else. *)
Definition state_of_upload (u : App2.uploaded_file) (a : analysis)
    : App2.session_state :=
  {| App2.uploaded_file_id := Some (App2.file_id u);
     App2.image_bytes := Some (App2.file_value u);
     App2.analysis_result := fst (fst a);
     App2.error_message := snd (fst a);
     App2.raw_output := snd a |}.

(** [consumes o s]: the scanning outcome [o] on the text [s] is not an
    exhaustion, and a value comes with a rest shorter than [s]. *)
Definition consumes (o : Json.outcome (pyval * string)) (s : string) : Prop :=
  o <> Json.Starved
  /\ forall (v : pyval) (r : string),
       o = Json.Parsed (v, r) -> (String.length r < String.length s)%nat.

(** ** The pages: what is displayed, and the other tabs *)

Module Pages.

(** [bool(v)]: what an [if] makes of a value. *)
Definition truthy (v : pyval) : bool :=
  match v with
  | PNone => false
  | PBool b => b
  | PInt z => negb (z =? 0)
  | PFloat f => negb (is_zero f)
  | PStr s => negb (String.eqb s "")
  | PList l => match l with [] => false | _ => true end
  | PDict d => match d with [] => false | _ => true end
  end.

(** What the display area of app2.py shows for a session state: nothing,
    the invitation to upload, the error with the raw output when there is
    some, the result tabs, or the notice that results are awaited. *)
Inductive page : Type :=
| page_blank
| page_upload_prompt
| page_error (err : analysis_error) (raw_shown : option string)
| page_results (data : pyval)
| page_awaiting.

Definition display_area (st : App2.session_state) : page :=
  match App2.image_bytes st with
  | Some (String _ _) =>
      match App2.error_message st with
      | Some err =>
          page_error err
            match App2.raw_output st with
            | Some ((String _ _) as raw) => Some raw
            | _ => None
            end
      | None =>
          match App2.analysis_result st with
          | Some data => if truthy data then page_results data else page_awaiting
          | None => page_awaiting
          end
      end
  | _ =>
      match App2.uploaded_file_id st with
      | Some (String _ _) => page_blank
      | _ => page_upload_prompt
      end
  end.

(** The summary tab: the values put after the four labels, and the notes
    shown in the information box, if any. *)
Record summary_view : Type := {
  shown_food_name : pyval;
  shown_cuisine_type : pyval;
  shown_serving_size : pyval;
  shown_confidence : pyval;
  shown_notes : option pyval
}.

Definition summary_tab (data : pyval) : result summary_view :=
  food_name <- safe_get data (OneKey (KStr "food_name")) (PStr "N/A") ;;
  cuisine <- safe_get data (OneKey (KStr "cuisine_type")) (PStr "N/A") ;;
  serving <-
    safe_get data (OneKey (KStr "estimated_serving_size_g")) (PStr "N/A") ;;
  confidence <-
    safe_get data (OneKey (KStr "confidence_level")) (PStr "N/A") ;;
  notes <-
    safe_get data (OneKey (KStr "notes"))
      (PStr "No additional notes provided.") ;;
  Ret {| shown_food_name := food_name;
         shown_cuisine_type := cuisine;
         shown_serving_size := serving;
         shown_confidence := confidence;
         shown_notes := if truthy notes then Some notes else None |}.

Definition no_ingredients : string :=
  "No specific ingredients listed or data unavailable.".

(** The ingredient block of the details tab. *)
Definition render_ingredients (data : pyval) : result (list App2.st_call) :=
  let header := App2.st_markdown "**Detailed Ingredients (Estimated):**" in
  ingredients <-
    safe_get data (OneKey (KStr "detailed_ingredients")) (PList []) ;;
  match ingredients with
  | PList ((_ :: _) as items) =>
      Ret [header; App2.st_markdown_bullets items]
  | _ => Ret [header; App2.st_write (PStr no_ingredients)]
  end.

(** The macronutrient part of the nutrients tab: the value read for the
    section, and whether the section is shown ([isinstance(macros, dict)])
    or replaced by the warning. *)
Definition macros_section (data : pyval) : result (option pyval) :=
  macros <-
    safe_get data (OneKey (KStr "estimated_macronutrients_g")) (PDict []) ;;
  Ret (if is_dict macros then Some macros else None).

(** The macronutrient block of the nutrients tab, entered with a [macros]
    that is a dict: the three amounts shown, the chart when there is one,
    and the progress bars.  The three percentages are computed before the
    first bar is drawn. *)
Record macros_view : Type := {
  shown_amounts : list pyval;
  shown_chart : option pie_chart;
  shown_bars : list App2.st_call
}.

Definition macros_block (macros : pyval) : result macros_view :=
  carb <- safe_get macros (OneKey (KStr "carbohydrates")) (PInt 0) ;;
  prot <- safe_get macros (OneKey (KStr "protein")) (PInt 0) ;;
  fat <- safe_get macros (OneKey (KStr "fat")) (PInt 0) ;;
  let carb_val := App2.number_or_zero carb in
  let prot_val := App2.number_or_zero prot in
  let fat_val := App2.number_or_zero fat in
  pie_fig <- create_macro_pie_chart macros ;;
  carb_pct <- App2.daily_value_pct carb_val STD_DAILY_CARBS_G ;;
  prot_pct <- App2.daily_value_pct prot_val STD_DAILY_PROTEIN_G ;;
  fat_pct <- App2.daily_value_pct fat_val STD_DAILY_FAT_G ;;
  carb_bar <- App2.progress_value carb_pct ;;
  prot_bar <- App2.progress_value prot_pct ;;
  fat_bar <- App2.progress_value fat_pct ;;
  Ret {| shown_amounts := [carb_val; prot_val; fat_val];
         shown_chart := pie_fig;
         shown_bars :=
           [App2.st_text "Carbs:"; App2.st_progress carb_bar carb_pct;
            App2.st_text "Protein:"; App2.st_progress prot_bar prot_pct;
            App2.st_text "Fat:"; App2.st_progress fat_bar fat_pct] |}.

(** Successive runs of the script of app2.py, one per upload state: the
    session state left and the images sent for analysis, in order. *)
Fixpoint runs (analyze : string -> analysis) (st : App2.session_state)
    (uploads : list (option App2.uploaded_file))
    : App2.session_state * list string :=
  match uploads with
  | [] => (st, [])
  | uploaded :: rest =>
      let '(st1, calls1) := App2.rerun analyze st uploaded in
      let '(st2, calls2) := runs analyze st1 rest in
      (st2, (calls1 ++ calls2)%list)
  end.

(** What app.py shows for an upload: the invitation, the error with the raw
    response when there is some, the parsed result, or the report of an
    unknown issue; and the images it sent for analysis.  The script first
    shows the image, outside any [try]: [st_image] tells whether Streamlit
    accepts the bytes, and when it raises the script stops there. *)
Inductive page1 : Type :=
| page1_upload_prompt
| page1_stopped
| page1_error (err : analysis_error) (raw_shown : option string)
| page1_success (data : pyval)
| page1_unknown_issue.

Definition app1_run (st_image : string -> bool)
    (analyze : string -> analysis)
    (uploaded : option App2.uploaded_file) : page1 * list string :=
  match uploaded with
  | Some u =>
      let image_bytes := App2.file_value u in
      if st_image image_bytes then
        let '(result_data, error_msg, raw_output) := analyze image_bytes in
        (match error_msg with
         | Some err =>
             page1_error err
               match raw_output with
               | Some ((String _ _) as raw) => Some raw
               | _ => None
               end
         | None =>
             match result_data with
             | Some data =>
                 if truthy data then page1_success data
                 else page1_unknown_issue
             | None => page1_unknown_issue
             end
         end, [image_bytes])
      else (page1_stopped, [])
  | None => (page1_upload_prompt, [])
  end.

End Pages.

(** ** Vocabulary of the further statements *)

(** The text both applications work on: the response of a reply that is
    a dict, stripped; none when the endpoint fails, and when the reply is
    no dict or holds a response that is no [str]. *)
Definition reply_text (t : transport) : option string :=
  match t with
  | Replied (PDict d) =>
      match dict_get_default d "response" (PStr "") with
      | PStr text => Some (PyStr.strip text)
      | _ => None
      end
  | _ => None
  end.

(** The failures reported without a raw output: those of the transport,
    and the unexpected ones. *)
Definition transport_failure (e : analysis_error) : bool :=
  match e with
  | ConnectionFailure | Timeout | ModelNotFound | TransportError
  | UnexpectedError => true
  | _ => false
  end.

(** A session state in which the cached fields are those of one upload and
    of the outcome of the analysis of its bytes, or in which nothing is
    cached. *)
Definition coherent (analyze : string -> analysis)
    (st : App2.session_state) : Prop :=
  st = App2.initial_state
  \/ exists u : App2.uploaded_file,
       st = state_of_upload u
              (fst (analysis_attempt analyze (App2.file_value u))).

(** A reply of the endpoint that is a dict in which the response is a
    [str] or is missing. *)
Definition has_response_text (response_data : pyval) : bool :=
  match response_data with
  | PDict d =>
      match dict_find d "response" with
      | Some (PStr _) | None => true
      | Some _ => false
      end
  | _ => false
  end.

(** The text has an opening brace, and a closing brace after the first
    opening one: the test of [json_candidate]. *)
Definition brace_pair (s : string) : bool :=
  negb (PyStr.find "{" s =? -1) && negb (PyStr.rfind "}" s =? -1)
  && (PyStr.find "{" s <? PyStr.rfind "}" s).

(** The three references, in the order of the bars. *)
Definition daily_references : list Z :=
  [STD_DAILY_CARBS_G; STD_DAILY_PROTEIN_G; STD_DAILY_FAT_G].

(** [value / reference] in the words of the specification: the float
    nearest to the quotient of two integers, and the quotient of the
    floats when the value is a float. *)
Definition spec_quotient (value : pyval) (reference : Z) : PyFloat.float :=
  match value with
  | PBool b =>
      PyFloat.div (PyFloat.exact (if b then 1 else 0)) (PyFloat.exact reference)
  | PInt z => PyFloat.div (PyFloat.exact z) (PyFloat.exact reference)
  | PFloat g => PyFloat.div g (PyFloat.of_Z reference)
  | _ => S754_nan
  end.

(** [value / reference * 100] *)
Definition spec_percentage (value : pyval) (reference : Z) : PyFloat.float :=
  PyFloat.mul (spec_quotient value reference) (PyFloat.of_Z 100).

(** What a progress bar is given: the percentage cut to an integer and
    capped at 100, with the percentage itself as the text; nothing when the
    percentage is a NaN or an infinity. *)
Definition spec_bar (value : pyval) (reference : Z) : option (Z * pyval) :=
  match PyFloat.trunc (spec_percentage value reference) with
  | Some t => Some (Z.min t 100, PFloat (spec_percentage value reference))
  | None => None
  end.

(** The progress bars the nutrients block draws. *)
Definition bars_shown (macros : pyval) : result (list App2.st_call) :=
  view <- Pages.macros_block macros ;; Ret (Pages.shown_bars view).

(** The integers from 0 to [n]. *)
Definition upto (n : Z) : list Z := map Z.of_nat (seq 0 (S (Z.to_nat n))).

(** * Properties *)

(** ** Facts about texts *)

Module StrFacts.
Import PyStr.

Lemma append_assoc (a b c : string) : (a ++ b) ++ c = a ++ (b ++ c).
Proof. induction a as [|x a IH]; simpl; [reflexivity | now rewrite IH]. Qed.

Lemma length_append (a b : string) :
  String.length (a ++ b) = (String.length a + String.length b)%nat.
Proof. induction a as [|x a IH]; simpl; [reflexivity | now rewrite IH]. Qed.

Lemma occurs_append (c : ascii) (a b : string) :
  occurs c (a ++ b) <-> occurs c a \/ occurs c b.
Proof.
  induction a as [|x a IH]; simpl; [tauto | rewrite IH; tauto].
Qed.

Lemma contains_occurs (c : ascii) (s : string) :
  contains c s = false -> ~ occurs c s.
Proof.
  induction s as [|d s IH]; simpl; [tauto|].
  intros H; apply orb_false_elim in H as [Hd Hs].
  apply Ascii.eqb_neq in Hd. intros [E | O]; [exact (Hd E) | exact (IH Hs O)].
Qed.

(** A prefix free of [c] cannot reach beyond the first [c]. *)
Lemma prefix_cut (c : ascii) (x t a r : string) :
  x ++ t = a ++ String c r ->
  ~ occurs c x ->
  exists a', a = x ++ a' /\ t = a' ++ String c r.
Proof.
  revert a; induction x as [|d x IH]; intros a E Hx; simpl in *.
  - exists a; split; [reflexivity | exact E].
  - destruct a as [|e a]; simpl in E; injection E as Ede Et.
    + exfalso; apply Hx; left; exact Ede.
    + subst e.
      destruct (IH a Et) as [a' [Ha Ht]]; [tauto|].
      exists a'; split; [now rewrite Ha | exact Ht].
Qed.

(** A suffix free of [c] cannot reach before the last [c]. *)
Lemma suffix_cut (c : ascii) (y t x b : string) :
  t ++ x = y ++ String c b ->
  ~ occurs c x ->
  exists b', b = b' ++ x /\ t = y ++ String c b'.
Proof.
  revert t; induction y as [|e y IH]; intros t E Hx; simpl in *.
  - destruct t as [|d t]; simpl in E.
    + exfalso; apply Hx; rewrite E; left; reflexivity.
    + injection E as Ed Et; subst d.
      exists t; split; [now rewrite Et | reflexivity].
  - destruct t as [|d t]; simpl in E.
    + exfalso; apply Hx; rewrite E; right.
      apply occurs_append; right; left; reflexivity.
    + injection E as Ed Et; subst d.
      destruct (IH t Et Hx) as [b' [Hb Ht]].
      exists b'; split; [exact Hb | now rewrite Ht].
Qed.

(** A text made of a class holds no character outside the class. *)
Lemma all_in_no_occurrence (p : ascii -> bool) (c : ascii) (s : string) :
  p c = false -> all_in p s -> ~ occurs c s.
Proof.
  intros Hc; induction s as [|d s IH]; simpl; [tauto|].
  intros [Hd Hs] [E | O]; [subst d; congruence | exact (IH Hs O)].
Qed.

Lemma lstrip_by_split (p : ascii -> bool) (s : string) :
  exists x, s = x ++ lstrip_by p s /\ all_in p x.
Proof.
  induction s as [|c s [x [E A]]]; simpl.
  - exists ""; split; [reflexivity | exact I].
  - destruct (p c) eqn:Hc.
    + exists (String c x); simpl; split; [now rewrite <- E | tauto].
    + exists ""; split; [reflexivity | exact I].
Qed.

Lemma rstrip_by_split (p : ascii -> bool) (s : string) :
  exists x, s = rstrip_by p s ++ x /\ all_in p x.
Proof.
  induction s as [|c s [x [E A]]]; simpl.
  - exists ""; split; [reflexivity | exact I].
  - destruct (rstrip_by p s) as [|d r] eqn:Hr.
    + destruct (p c) eqn:Hc.
      * exists (String c x); simpl in *; split; [now rewrite <- E | tauto].
      * exists x; simpl in *; split; [now rewrite <- E | exact A].
    + exists x; simpl in *; split; [now rewrite <- E | exact A].
Qed.

Lemma startswith_split (p s : string) :
  startswith p s = true -> s = p ++ drop (String.length p) s.
Proof.
  revert s; induction p as [|a p IH]; intros s H; simpl in *.
  - reflexivity.
  - destruct s as [|b s]; [discriminate|].
    apply andb_prop in H as [Hab Hp].
    apply Ascii.eqb_eq in Hab; subst b.
    now rewrite <- (IH s Hp).
Qed.

Lemma take_drop (n : nat) (s : string) : s = take n s ++ drop n s.
Proof.
  revert s; induction n as [|n IH]; intros s; simpl; [reflexivity|].
  destruct s as [|c s]; simpl; [reflexivity | now rewrite <- IH].
Qed.

Lemma endswith_split (p s : string) :
  endswith p s = true ->
  s = take (String.length s - String.length p) s ++ p.
Proof.
  unfold endswith; intros H.
  apply andb_prop in H as [_ H]; apply String.eqb_eq in H.
  pose proof (take_drop (String.length s - String.length p) s) as T.
  rewrite H in T; exact T.
Qed.

Lemma drop_append (a t : string) : drop (String.length a) (a ++ t) = t.
Proof. induction a as [|c a IH]; simpl; [reflexivity | exact IH]. Qed.

Lemma take_append (a t : string) : take (String.length a) (a ++ t) = a.
Proof. induction a as [|c a IH]; simpl; [reflexivity | now rewrite IH]. Qed.

Lemma find_from_first (c : ascii) (a r : string) (i : Z) :
  ~ occurs c a ->
  find_from c (a ++ String c r) i = i + Z.of_nat (String.length a).
Proof.
  revert i; induction a as [|d a IH]; intros i Ha; simpl in *.
  - rewrite Ascii.eqb_refl; lia.
  - destruct (Ascii.eqb d c) eqn:E.
    + apply Ascii.eqb_eq in E; tauto.
    + rewrite IH by tauto. lia.
Qed.

Lemma rfind_from_absent (c : ascii) (b : string) (i : Z) :
  ~ occurs c b -> rfind_from c b i = -1.
Proof.
  revert i; induction b as [|d b IH]; intros i Hb; simpl in *.
  - reflexivity.
  - rewrite IH by tauto; simpl.
    destruct (Ascii.eqb d c) eqn:E; [|reflexivity].
    apply Ascii.eqb_eq in E; tauto.
Qed.

Lemma rfind_from_last (c : ascii) (y b : string) (i : Z) :
  0 <= i ->
  ~ occurs c b ->
  rfind_from c (y ++ String c b) i = i + Z.of_nat (String.length y).
Proof.
  revert i; induction y as [|d y IH]; intros i Hi Hb; simpl.
  - rewrite rfind_from_absent by exact Hb; simpl.
    rewrite Ascii.eqb_refl; lia.
  - rewrite IH by (lia || exact Hb).
    destruct (i + 1 + Z.of_nat (String.length y) =? -1) eqn:E; [lia | lia].
Qed.

End StrFacts.


(** ** The extraction of the JSON candidate *)

Module Extraction.
Import PyStr StrFacts App2.

Lemma wrapped_chop_prefix (body x t : string) :
  wrapped body (x ++ t) -> ~ occurs "{" x -> wrapped body t.
Proof.
  intros [a [b [E [Ha Hb]]]] Hx.
  destruct (prefix_cut _ _ _ _ _ E Hx) as [a' [Ea Et]].
  exists a', b; repeat split; [exact Et | | exact Hb].
  intros O; apply Ha; rewrite Ea; apply occurs_append; now right.
Qed.

Lemma wrapped_chop_suffix (body t x : string) :
  wrapped body (t ++ x) -> ~ occurs "}" x -> wrapped body t.
Proof.
  intros [a [b [E [Ha Hb]]]] Hx.
  assert (E' : t ++ x = (a ++ String "{" body) ++ String "}" b)
    by (rewrite E, append_assoc; reflexivity).
  destruct (suffix_cut _ _ _ _ _ E' Hx) as [b' [Eb Et]].
  exists a, b'; repeat split; [| exact Ha |].
  - rewrite Et, append_assoc; reflexivity.
  - intros O; apply Hb; rewrite Eb; apply occurs_append; now left.
Qed.

Lemma wrapped_strip (body t : string) :
  wrapped body t -> wrapped body (strip t).
Proof.
  intros H; unfold strip, strip_by.
  destruct (lstrip_by_split is_space t) as [x [Ex Ax]].
  assert (H1 : wrapped body (lstrip_by is_space t)).
  { apply (wrapped_chop_prefix body x); [rewrite <- Ex; exact H|].
    now apply (all_in_no_occurrence is_space). }
  destruct (rstrip_by_split is_space (lstrip_by is_space t)) as [y [Ey Ay]].
  apply (wrapped_chop_suffix body _ y); [rewrite <- Ey; exact H1|].
  now apply (all_in_no_occurrence is_space).
Qed.

Lemma wrapped_strip_fences (body t : string) :
  wrapped body t -> wrapped body (strip_fences t).
Proof.
  intros H; unfold strip_fences.
  apply wrapped_strip.
  assert (H1 : wrapped body
                 (if startswith "```json" t then drop 7 t else t)).
  { destruct (startswith "```json" t) eqn:S; [|exact H].
    apply startswith_split in S; simpl String.length in S.
    apply (wrapped_chop_prefix body "```json"); [rewrite <- S; exact H|].
    simpl; intuition discriminate. }
  set (s1 := if startswith "```json" t then drop 7 t else t) in *.
  destruct (endswith "```" s1) eqn:S; [|exact H1].
  apply endswith_split in S; simpl String.length in S.
  apply (wrapped_chop_suffix body _ "```"); unfold drop_last.
  - rewrite <- S; exact H1.
  - simpl; intuition discriminate.
Qed.

Lemma wrapped_nonempty (body t : string) :
  wrapped body t -> String.eqb t "" = false.
Proof.
  intros [a [b [E _]]]; subst t.
  destruct a; reflexivity.
Qed.

Lemma wrapped_candidate (body t : string) :
  wrapped body t -> json_candidate t = object_text body.
Proof.
  intros [a [b [E [Ha Hb]]]]; unfold json_candidate, find, rfind.
  assert (F : find_from "{" t 0 = Z.of_nat (String.length a))
    by (rewrite E, find_from_first by exact Ha; lia).
  assert (R : rfind_from "}" t 0
              = Z.of_nat (String.length a) + 1
                + Z.of_nat (String.length body)).
  { replace t with ((a ++ String "{" body) ++ String "}" b)
      by (rewrite E, append_assoc; reflexivity).
    rewrite rfind_from_last by (lia || exact Hb).
    rewrite length_append; simpl String.length; lia. }
  rewrite F, R.
  replace (negb (Z.of_nat (String.length a) =? -1)) with true
    by (symmetry; apply negb_true_iff, Z.eqb_neq; lia).
  replace (negb (Z.of_nat (String.length a) + 1
                 + Z.of_nat (String.length body) =? -1)) with true
    by (symmetry; apply negb_true_iff, Z.eqb_neq; lia).
  replace (Z.of_nat (String.length a)
           <? Z.of_nat (String.length a) + 1
              + Z.of_nat (String.length body)) with true
    by (symmetry; apply Z.ltb_lt; lia).
  simpl andb; cbv iota; unfold slice.
  rewrite Nat2Z.id.
  replace (Z.to_nat (Z.of_nat (String.length a) + 1
                     + Z.of_nat (String.length body) + 1
                     - Z.of_nat (String.length a)))
    with (String.length (object_text body))
    by (unfold object_text; simpl; rewrite length_append; simpl; lia).
  rewrite E, drop_append.
  change (String "{" (body ++ String "}" b))
    with (String "{" (body ++ ("}" ++ b))).
  rewrite <- append_assoc.
  change (String "{" ((body ++ "}") ++ b)) with (object_text body ++ b).
  apply take_append.
Qed.

Lemma wrapped_intro (p body s : string) :
  ~ occurs "{" p -> ~ occurs "}" s ->
  wrapped body (p ++ object_text body ++ s).
Proof.
  intros Hp Hs; exists p, s; repeat split; [| exact Hp | exact Hs].
  unfold object_text; simpl; now rewrite append_assoc.
Qed.

End Extraction.

(** ** The response normalizer *)

(** C1, as amended.  When the text before the object holds no opening brace
    and the text after it no closing brace, the clean-up of app2.py leaves
    exactly the object text as the candidate, and the normalizer returns
    what the strict parser makes of that object, with no error. *)
Theorem normalize_parses_wrapped_object (p body s : string) (v : pyval) :
  PyStr.contains "{" p = false ->
  PyStr.contains "}" s = false ->
  Json.loads (object_text body) = Ret v ->
  App2.json_candidate
    (App2.strip_fences (PyStr.strip (p ++ object_text body ++ s)))
  = object_text body
  /\ App2.normalize (PyStr.strip (p ++ object_text body ++ s))
     = Ret (Some v, None,
            Some (App2.strip_fences
                    (PyStr.strip (p ++ object_text body ++ s)))).
Proof.
  intros Hp Hs Hv.
  assert (W : wrapped body (p ++ object_text body ++ s))
    by (apply Extraction.wrapped_intro; now apply StrFacts.contains_occurs).
  apply Extraction.wrapped_strip in W.
  pose proof (Extraction.wrapped_nonempty _ _ W) as NE.
  apply Extraction.wrapped_strip_fences in W.
  pose proof (Extraction.wrapped_candidate _ _ W) as C.
  split; [exact C|].
  unfold App2.normalize. rewrite NE, C, Hv. reflexivity.
Qed.

(** An object inside a markdown fence. *)
Lemma normalize_parses_wrapped_object_witness :
  PyStr.contains "{" ("```json" ++ String PyStr.newline "") = false
  /\ PyStr.contains "}" (String PyStr.newline "```") = false
  /\ Json.loads (object_text (PyStr.q "'food_name':'Pizza'"))
     = Ret (PDict [("food_name", PStr "Pizza")])
  /\ App2.normalize
       (PyStr.strip
          (("```json" ++ String PyStr.newline "")
           ++ object_text (PyStr.q "'food_name':'Pizza'")
           ++ String PyStr.newline "```"))
     = Ret (Some (PDict [("food_name", PStr "Pizza")]), None,
            Some (object_text (PyStr.q "'food_name':'Pizza'"))).
Proof.
  split; [reflexivity|]. split; [reflexivity|]. split; [reflexivity|].
  apply (normalize_parses_wrapped_object
           ("```json" ++ String PyStr.newline "")
           (PyStr.q "'food_name':'Pizza'")
           (String PyStr.newline "```")
           (PDict [("food_name", PStr "Pizza")])); reflexivity.
Defined.

(** C1 as stated fails: a brace in the surrounding text moves the ends of
    the candidate, and the object is not parsed. *)
Lemma normalize_misses_object_after_brace :
  ~ (forall (p body s : string) (v : pyval),
       Json.loads (object_text body) = Ret v ->
       exists raw_output,
         App2.normalize (PyStr.strip (p ++ object_text body ++ s))
         = Ret (Some v, None, raw_output)).
Proof.
  intros H.
  destruct (H "The dish {estimated}: " (PyStr.q "'food_name':'Pizza'") ""
              (PDict [("food_name", PStr "Pizza")]) eq_refl) as [raw E].
  vm_compute in E. discriminate E.
Qed.

(** C6.  When the reply of the endpoint carries a response text that is
    empty, or blank, or no response text at all, the analysis of both
    applications returns the [EmptyResponse] error and no parsed record;
    app2.py returns the empty text as raw output, app.py none. *)
Theorem empty_response_reported (post : string -> transport)
    (image_bytes : string) (d : list (string * pyval)) (text : string) :
  post image_bytes = Replied (PDict d) ->
  dict_get_default d "response" (PStr "") = PStr text ->
  PyStr.strip text = "" ->
  App2.analyze_image_with_ollama post image_bytes
  = (None, Some EmptyResponse, Some "")
  /\ App1.analyze_image_with_ollama post image_bytes
     = (None, Some EmptyResponse, None).
Proof.
  intros Hpost Hget Hstrip.
  unfold App2.analyze_image_with_ollama, App1.analyze_image_with_ollama.
  rewrite Hpost.
  unfold App2.process_response, App1.process_response.
  rewrite Hget, Hstrip. split; reflexivity.
Qed.

(** A reply whose response text is one space and one line feed. *)
Lemma empty_response_reported_witness :
  App2.analyze_image_with_ollama
    (fun _ => Replied (PDict [("response", PStr (String " " (String PyStr.newline "")))]))
    "image"
  = (None, Some EmptyResponse, Some "")
  /\ App1.analyze_image_with_ollama
       (fun _ => Replied (PDict [("response", PStr (String " " (String PyStr.newline "")))]))
       "image"
     = (None, Some EmptyResponse, None).
Proof.
  apply (empty_response_reported _ "image"
           [("response", PStr (String " " (String PyStr.newline "")))]
           (String " " (String PyStr.newline "")));
    reflexivity.
Defined.

(** ** The accessor *)

Module Accessor.

Lemma coerce_ret (v : pyval) : coerce v = Ret (coerced v).
Proof.
  unfold coerce, coerced.
  destruct v as [| b | z | f | s | l | d]; try reflexivity.
  simpl. destruct (int_of_str s); [reflexivity|]. simpl.
  destruct (float_of_str s); reflexivity.
Qed.

Lemma list_getitem_in_range (l : list pyval) (i : Z) :
  0 <= i < Z.of_nat (List.length l) -> exists v, list_getitem l i = Ret v.
Proof.
  intros H; unfold list_getitem.
  destruct (nth_error l (Z.to_nat i)) as [v|] eqn:E; [now exists v|].
  apply nth_error_None in E. lia.
Qed.

(** The loop never raises: the index is checked before it is used. *)
Lemma safe_get_loop_ret (keys : list key) (temp default : pyval) :
  exists x, safe_get_loop temp keys default = Ret x.
Proof.
  revert temp; induction keys as [|k ks IH]; intros temp; simpl.
  - now eexists.
  - destruct temp as [| b | z | f | s | l | d]; destruct k as [s' | i];
      try (now eexists); try apply IH.
    destruct ((0 <=? i) && (i <? Z.of_nat (List.length l))) eqn:G;
      [|now eexists].
    apply andb_prop in G as [G1 G2].
    apply Z.leb_le in G1; apply Z.ltb_lt in G2.
    destruct (list_getitem_in_range l i (conj G1 G2)) as [v Ev].
    rewrite Ev; simpl. apply IH.
Qed.

Lemma safe_get_unfold (data : pyval) (keys : keys_arg) (default : pyval) :
  safe_get data keys default
  = match safe_get_loop data (path_of keys) default with
    | Ret (Returned v) => Ret v
    | Ret (Finished temp) => Ret (coerced temp)
    | Raise e =>
        if existsb (exn_isa e) [KeyError; TypeError; IndexError]
        then Ret default else Raise e
    end.
Proof.
  unfold safe_get. fold (path_of keys).
  destruct (safe_get_loop data (path_of keys) default) as [[v | t] | e];
    simpl; [reflexivity | now rewrite coerce_ret | reflexivity].
Qed.

(** [safe_get] raises nothing, whatever the record and the path. *)
Lemma safe_get_never_raises (data : pyval) (keys : keys_arg)
    (default : pyval) :
  exists v, safe_get data keys default = Ret v.
Proof.
  rewrite safe_get_unfold.
  destruct (safe_get_loop_ret (path_of keys) data default) as [[v | t] E];
    rewrite E; now eexists.
Qed.

(** A dict without the key: the loop ends with [temp] bound to [None],
    which goes through the coercion and is returned. *)
Lemma safe_get_absent_field (d : list (string * pyval)) (k : string)
    (default : pyval) :
  dict_find d k = None ->
  safe_get (PDict d) (OneKey (KStr k)) default = Ret PNone.
Proof.
  intros H. rewrite safe_get_unfold. simpl.
  unfold dict_get, dict_get_default. now rewrite H.
Qed.

Lemma blocked_loop (data : pyval) (keys : list key) (default : pyval) :
  blocked data keys -> safe_get_loop data keys default = Ret (Returned default).
Proof.
  induction 1 as [k ks | v k ks Hl Hd | l s ks | l i ks Hr
                  | l i v ks Hi Hn Hb IH | d k ks Hb IH]; simpl.
  - reflexivity.
  - destruct v; try reflexivity; discriminate.
  - reflexivity.
  - destruct ((0 <=? i) && (i <? Z.of_nat (List.length l))) eqn:G;
      [|reflexivity].
    apply andb_prop in G as [G1 G2].
    apply Z.leb_le in G1; apply Z.ltb_lt in G2. lia.
  - assert (G : (0 <=? i) && (i <? Z.of_nat (List.length l)) = true).
    { apply andb_true_intro; split; [now apply Z.leb_le|].
      apply Z.ltb_lt.
      assert (Z.to_nat i < List.length l)%nat
        by (apply nth_error_Some; congruence).
      lia. }
    rewrite G. unfold list_getitem. rewrite Hn. simpl. exact IH.
  - destruct k; exact IH.
Qed.

Lemma reaches_loop (data : pyval) (keys : list key) (w default : pyval) :
  reaches data keys w -> safe_get_loop data keys default = Ret (Finished w).
Proof.
  induction 1 as [v | l i v ks w Hi Hn Hr IH | d k v ks w Hf Hr IH]; simpl.
  - reflexivity.
  - assert (G : (0 <=? i) && (i <? Z.of_nat (List.length l)) = true).
    { apply andb_true_intro; split; [now apply Z.leb_le|].
      apply Z.ltb_lt.
      assert (Z.to_nat i < List.length l)%nat
        by (apply nth_error_Some; congruence).
      lia. }
    rewrite G. unfold list_getitem. rewrite Hn. simpl. exact IH.
  - unfold dict_get, dict_get_default. rewrite Hf. exact IH.
Qed.

End Accessor.

(** C2, as amended.  The accessor returns the default when a step of the
    path cannot be taken: when it is applied to [None], to a value that is
    not a container, to a list with a [str] key or to a list too short for
    the index.  When every step can be taken and the path ends on a value
    other than [None], the accessor returns that value coerced: a string
    that reads as an integer or as a float becomes that number, whatever
    the field, and every other value is returned unchanged. *)
Theorem safe_get_default_or_coerced (data : pyval) (keys : keys_arg)
    (default : pyval) :
  (blocked data (path_of keys) -> safe_get data keys default = Ret default)
  /\ (forall w : pyval,
        reaches data (path_of keys) w -> w <> PNone ->
        safe_get data keys default = Ret (coerced w)
        /\ (is_str w = false -> coerced w = w)).
Proof.
  split.
  - intros B. rewrite Accessor.safe_get_unfold.
    now rewrite (Accessor.blocked_loop _ _ default B).
  - intros w R _. split.
    + rewrite Accessor.safe_get_unfold.
      now rewrite (Accessor.reaches_loop _ _ _ default R).
    + destruct w; try reflexivity; discriminate.
Qed.

(** A list too short for the index gives the default; a string that reads
    as a float is returned as that float. *)
Lemma safe_get_default_or_coerced_witness :
  safe_get (PDict [("a", PList [PInt 1; PStr " 2.5 "])])
    (KeyList [KStr "a"; KInt 2]) (PStr "N/A") = Ret (PStr "N/A")
  /\ safe_get (PDict [("a", PList [PInt 1; PStr " 2.5 "])])
       (KeyList [KStr "a"; KInt 1]) (PStr "N/A")
     = Ret (PFloat (PyFloat.of_decimal false 25 (-1))).
Proof.
  split.
  - apply (proj1 (safe_get_default_or_coerced
                    (PDict [("a", PList [PInt 1; PStr " 2.5 "])])
                    (KeyList [KStr "a"; KInt 2]) (PStr "N/A"))).
    apply blocked_under_key. apply blocked_range. simpl. lia.
  - apply (proj2 (safe_get_default_or_coerced
                    (PDict [("a", PList [PInt 1; PStr " 2.5 "])])
                    (KeyList [KStr "a"; KInt 1]) (PStr "N/A"))
             (PStr " 2.5 ")).
    + apply (reaches_key _ _ (PList [PInt 1; PStr " 2.5 "])); [reflexivity|].
      apply (reaches_index _ _ (PStr " 2.5 ")); [lia | reflexivity|].
      apply reaches_end.
    + discriminate.
Defined.

(** C2 as stated fails: the accessor knows no declared type, and a string
    field whose value reads as a number is returned as the number, not as
    the original string. *)
Lemma safe_get_coerces_string_field :
  safe_get (PDict [("food_name", PStr "123")]) (OneKey (KStr "food_name"))
    (PStr "N/A") = Ret (PInt 123)
  /\ safe_get (PDict [("food_name", PStr "123")]) (OneKey (KStr "food_name"))
       (PStr "N/A") <> Ret (PStr "123").
Proof.
  split; [reflexivity | vm_compute; discriminate].
Qed.

(** C3 at the failing input: for a record without the queried field the
    accessor raises nothing, but it returns [None], not the default. *)
Theorem safe_get_missing_field_gives_None :
  safe_get (PDict []) (OneKey (KStr "food_name")) (PStr "N/A") = Ret PNone.
Proof. reflexivity. Qed.

(** ** Daily-value percentages *)

Module Percent.

Lemma round_sign_clear (m e : Z) (l : location) :
  sign_clear (binary_round_aux PyFloat.prec PyFloat.emax false m e l).
Proof.
  unfold binary_round_aux.
  destruct (shr_fexp PyFloat.prec PyFloat.emax m e l) as [mrs e'].
  destruct (shr_fexp PyFloat.prec PyFloat.emax _ e' loc_Exact) as [mrs' e''].
  destruct (shr_m mrs'); simpl; [exact I | | exact I].
  destruct (e'' <=? _); exact I.
Qed.

Lemma sign_clear_not_negative (f : PyFloat.float) :
  sign_clear f -> not_negative f.
Proof. destruct f as [[|] | [|] | | [|] m e]; simpl; tauto. Qed.

Lemma div_not_negative (x y : PyFloat.float) :
  not_negative x -> sign_clear y -> not_negative (PyFloat.div x y).
Proof.
  unfold PyFloat.div.
  destruct x as [[|] | [|] | | [|] mx ex];
    destruct y as [[|] | [|] | | [|] my ey];
    simpl; try tauto; intros _ _.
  destruct (SFdiv_core_binary PyFloat.prec PyFloat.emax
              (Z.pos mx) ex (Z.pos my) ey) as [[mz ez] lz].
  apply sign_clear_not_negative, round_sign_clear.
Qed.

Lemma mul_not_negative (x y : PyFloat.float) :
  not_negative x -> sign_clear y -> not_negative (PyFloat.mul x y).
Proof.
  unfold PyFloat.mul.
  destruct x as [[|] | [|] | | [|] mx ex];
    destruct y as [[|] | [|] | | [|] my ey];
    simpl; try tauto; intros _ _.
  apply sign_clear_not_negative, round_sign_clear.
Qed.

Lemma of_Z_sign_clear (z : Z) : 0 <= z -> sign_clear (PyFloat.of_Z z).
Proof.
  intros Hz; unfold PyFloat.of_Z, binary_normalize.
  destruct z as [| p | p]; [exact I | | lia].
  unfold binary_round.
  destruct (shl_align p 0 _) as [mz ez]. apply round_sign_clear.
Qed.

Lemma exact_sign_clear (z : Z) : 0 <= z -> sign_clear (PyFloat.exact z).
Proof. destruct z; simpl; [tauto | tauto | lia]. Qed.

Lemma trunc_not_negative (f : PyFloat.float) (t : Z) :
  not_negative f -> PyFloat.trunc f = Some t -> 0 <= t.
Proof.
  destruct f as [s | s | | [|] m e]; simpl; try discriminate; try tauto.
  - intros _ E; injection E as <-; lia.
  - intros _ E; injection E as <-. simpl. apply Z.shiftl_nonneg. lia.
Qed.

(** The operand a non-negative number gives to a float operation. *)
Lemma as_float_not_negative (v : pyval) (f : PyFloat.float) :
  nonneg_number v = true -> as_float v = Ret f -> not_negative f.
Proof.
  destruct v as [| b | z | g | s | l | d]; simpl; try discriminate.
  - intros _ E; injection E as <-.
    apply sign_clear_not_negative, of_Z_sign_clear. destruct b; lia.
  - intros Hz. apply Z.leb_le in Hz.
    destruct (PyFloat.is_inf (PyFloat.of_Z z)); simpl; [discriminate|].
    intros E; injection E as <-.
    now apply sign_clear_not_negative, of_Z_sign_clear.
  - intros Hg E; injection E as <-.
    destruct g as [sg | [|] | | [|] m e]; simpl in *; try exact I;
      discriminate.
Qed.

Lemma as_float_positive_int (z : Z) (f : PyFloat.float) :
  0 < z -> as_float (PInt z) = Ret f -> sign_clear f.
Proof.
  simpl. destruct (PyFloat.is_inf (PyFloat.of_Z z)); simpl; [discriminate|].
  intros Hz E; injection E as <-. apply of_Z_sign_clear; lia.
Qed.

(** A quotient by a positive integer keeps a non-negative number so. *)
Lemma truediv_not_negative (val : pyval) (std : Z) (quot : pyval) :
  nonneg_number val = true -> 0 < std ->
  py_truediv val (PInt std) = Ret quot ->
  exists f, quot = PFloat f /\ not_negative f.
Proof.
  intros Hv Hs. unfold py_truediv.
  destruct (as_int val) as [x|] eqn:Ex.
  - simpl as_int. cbv iota.
    destruct (std =? 0); [intros E; discriminate E|].
    destruct (PyFloat.is_inf _); [intros E; discriminate E|].
    intros E; injection E as <-. eexists; split; [reflexivity|].
    apply div_not_negative.
    + apply sign_clear_not_negative, exact_sign_clear.
      destruct val as [| b | z | g | s | l | d]; simpl in *; try discriminate;
        injection Ex as <-; [destruct b; lia | now apply Z.leb_le].
    + apply exact_sign_clear; lia.
  - destruct (as_float val) as [x|e] eqn:Fx; simpl;
      [|intros E; discriminate E].
    destruct (PyFloat.is_inf (PyFloat.of_Z std)) eqn:Inf; simpl;
      [intros E; discriminate E|].
    destruct (is_zero (PyFloat.of_Z std)); [intros E; discriminate E|].
    intros E; injection E as <-. eexists; split; [reflexivity|].
    apply div_not_negative.
    + exact (as_float_not_negative _ _ Hv Fx).
    + apply of_Z_sign_clear; lia.
Qed.

End Percent.

(** ** The macronutrient chart *)

Module Chart.

Lemma safe_get_macro (macros : pyval) (k : string) :
  exists r,
    safe_get macros (OneKey (KStr k)) (PInt 0) = Ret r
    /\ (if is_number r then r else PInt 0) = macro_amount macros k.
Proof.
  rewrite Accessor.safe_get_unfold. unfold macro_amount, field_of.
  destruct macros as [| b | z | f | s | l | d]; simpl;
    try (eexists; split; reflexivity).
Qed.




(** The figure is made of the slices, label by label and value by value. *)
Lemma create_macro_pie_chart_slices (macros : pyval) :
  create_macro_pie_chart macros
  = Ret match slices macros with
        | [] => None
        | sl =>
            Some {|
              pie_labels := map fst sl;
              pie_values := map snd sl;
              pie_hole := PyFloat.of_decimal false 3 (-1);
              pie_pull :=
                map (fun v => if number_gt_zero v
                              then PFloat (PyFloat.of_decimal false 5 (-2))
                              else PInt 0) (map snd sl);
              pie_marker_colors := ["#1f77b4"; "#ff7f0e"; "#2ca02c"];
              pie_textinfo := "percent+label";
              pie_title := "Estimated Macronutrient Distribution (grams)"
            |}
        end.
Proof.
  destruct (safe_get_macro macros "carbohydrates") as [c [Ec Hc]].
  destruct (safe_get_macro macros "protein") as [p [Ep Hp]].
  destruct (safe_get_macro macros "fat") as [f [Ef Hf]].
  unfold create_macro_pie_chart. rewrite Ec, Ep, Ef. cbn [bind].
  unfold numeric_values_of, slices, macro_keys, macro_labels, enumerate.
  cbn [map enumerate_from combine]. rewrite Hc, Hp, Hf.
  cbn [filter nth fst snd].
  destruct (number_gt_zero (macro_amount macros "carbohydrates")) eqn:G1;
    destruct (number_gt_zero (macro_amount macros "protein")) eqn:G2;
    destruct (number_gt_zero (macro_amount macros "fat")) eqn:G3;
    reflexivity.
Qed.

Lemma combine_fst_snd {A B : Type} (l : list (A * B)) :
  combine (map fst l) (map snd l) = l.
Proof.
  induction l as [|[a b] l IH]; simpl; [reflexivity | now rewrite IH].
Qed.



End Chart.



(** C10.  The figure holds exactly the macros whose amount, the stored
    value as coerced by the accessor or 0 when that is no number, is above
    zero: its labels and its values are those of the slices in the same
    order, so they stay aligned, and a macro whose amount is 0 is in
    neither list. *)
Theorem chart_labels_follow_values (macros : pyval) (chart : pie_chart) :
  create_macro_pie_chart macros = Ret (Some chart) ->
  combine (pie_labels chart) (pie_values chart) = slices macros
  /\ List.length (pie_labels chart) = List.length (pie_values chart)
  /\ (forall (label : string) (v : pyval),
        In (label, v)
          (combine macro_labels (map (macro_amount macros) macro_keys)) ->
        (In (label, v) (combine (pie_labels chart) (pie_values chart))
         <-> number_gt_zero v = true)).
Proof.
  rewrite Chart.create_macro_pie_chart_slices. intros E.
  assert (L : pie_labels chart = map fst (slices macros)
              /\ pie_values chart = map snd (slices macros)).
  { destruct (slices macros) as [|sl0 sl]; [discriminate E|].
    injection E as <-. split; reflexivity. }
  destruct L as [-> ->]. rewrite Chart.combine_fst_snd.
  split; [reflexivity|]. split; [now rewrite !length_map|].
  intros label v Hin. unfold slices. rewrite filter_In. simpl. tauto.
Qed.

(** Carbohydrate 80, protein 0 and fat given as the text 30: two slices. *)
Lemma chart_labels_follow_values_witness :
  create_macro_pie_chart
    (PDict [("carbohydrates", PInt 80); ("protein", PInt 0);
            ("fat", PStr "30")])
  = Ret (Some {|
      pie_labels := ["Carbohydrates"; "Fat"];
      pie_values := [PInt 80; PInt 30];
      pie_hole := PyFloat.of_decimal false 3 (-1);
      pie_pull := [PFloat (PyFloat.of_decimal false 5 (-2));
                   PFloat (PyFloat.of_decimal false 5 (-2))];
      pie_marker_colors := ["#1f77b4"; "#ff7f0e"; "#2ca02c"];
      pie_textinfo := "percent+label";
      pie_title := "Estimated Macronutrient Distribution (grams)" |})
  /\ combine ["Carbohydrates"; "Fat"] [PInt 80; PInt 30]
     = slices (PDict [("carbohydrates", PInt 80); ("protein", PInt 0);
                      ("fat", PStr "30")]).
Proof.
  split; [reflexivity|].
  apply (chart_labels_follow_values
           (PDict [("carbohydrates", PInt 80); ("protein", PInt 0);
                   ("fat", PStr "30")])
           {| pie_labels := ["Carbohydrates"; "Fat"];
              pie_values := [PInt 80; PInt 30];
              pie_hole := PyFloat.of_decimal false 3 (-1);
              pie_pull := [PFloat (PyFloat.of_decimal false 5 (-2));
                           PFloat (PyFloat.of_decimal false 5 (-2))];
              pie_marker_colors := ["#1f77b4"; "#ff7f0e"; "#2ca02c"];
              pie_textinfo := "percent+label";
              pie_title := "Estimated Macronutrient Distribution (grams)" |}).
  reflexivity.
Defined.

(** ** The allergen block *)

Module Details.

Lemma safe_get_field (data : pyval) (k : string) (default : pyval) :
  safe_get data (OneKey (KStr k)) default
  = Ret match data with
        | PDict d => coerced (dict_get d k)
        | _ => default
        end.
Proof.
  rewrite Accessor.safe_get_unfold.
  destruct data; reflexivity.
Qed.

Lemma coerced_plain_text (s : string) :
  reads_as_number s = false -> coerced (PStr s) = PStr s.
Proof.
  unfold reads_as_number, coerced.
  destruct (int_of_str s); [discriminate|].
  destruct (float_of_str s); [discriminate | reflexivity].
Qed.

End Details.

(** C7, as amended.  The allergen block always returns a rendering.  A
    non-empty list gives a list of items followed by the warning; a
    non-empty text that neither [int] nor [float] accepts, such as "None
    obvious", gives that text; every other value gives the message that
    none was identified: a missing, null or empty value, a number or a
    dict, and also a text that [int] or [float] accepts, which the accessor
    turns into a number before the block looks at it. *)
Theorem allergens_rendered (data : pyval) :
  (forall (item : pyval) (rest : list pyval),
     field_of data "potential_allergens" = PList (item :: rest) ->
     App2.render_allergens data
     = Ret [App2.st_markdown
              "**Potential Allergens (Visual/Typical Estimate):**";
            App2.st_markdown_bullets (item :: rest);
            App2.st_warning App2.allergen_warning])
  /\ (forall (c : ascii) (s : string),
        field_of data "potential_allergens" = PStr (String c s) ->
        reads_as_number (String c s) = false ->
        App2.render_allergens data
        = Ret [App2.st_markdown
                 "**Potential Allergens (Visual/Typical Estimate):**";
               App2.st_write (PStr (String c s))])
  /\ (forall s : string,
        field_of data "potential_allergens" = PStr s ->
        reads_as_number s = true ->
        App2.render_allergens data
        = Ret [App2.st_markdown
                 "**Potential Allergens (Visual/Typical Estimate):**";
               App2.st_write (PStr App2.no_allergens)])
  /\ (field_of data "potential_allergens" = PNone
      \/ field_of data "potential_allergens" = PList []
      \/ field_of data "potential_allergens" = PStr "" ->
      App2.render_allergens data
      = Ret [App2.st_markdown
               "**Potential Allergens (Visual/Typical Estimate):**";
             App2.st_write (PStr App2.no_allergens)])
  /\ (is_list (field_of data "potential_allergens") = false ->
      is_str (field_of data "potential_allergens") = false ->
      App2.render_allergens data
      = Ret [App2.st_markdown
               "**Potential Allergens (Visual/Typical Estimate):**";
             App2.st_write (PStr App2.no_allergens)])
  /\ (exists calls, App2.render_allergens data = Ret calls).
Proof.
  unfold App2.render_allergens. rewrite Details.safe_get_field.
  cbn [bind]. repeat split.
  - intros item rest F. destruct data; try discriminate F.
    simpl in F. rewrite F. reflexivity.
  - intros c s F N. destruct data; try discriminate F.
    simpl in F. rewrite F, (Details.coerced_plain_text _ N). reflexivity.
  - intros s F N. destruct data; try discriminate F.
    simpl in F. rewrite F. revert N. unfold reads_as_number, coerced.
    destruct (int_of_str s); [reflexivity|].
    destruct (float_of_str s); [reflexivity | discriminate].
  - intros [F | [F | F]]; destruct data; try reflexivity;
      simpl in F; rewrite F; reflexivity.
  - intros L S. destruct data as [| b | z | f | s | l | d]; try reflexivity.
    simpl in L, S.
    destruct (dict_get d "potential_allergens"); try discriminate;
      reflexivity.
  - destruct (match data with PDict d => _ | _ => _ end) as
      [| b | z | f | [|c s] | [|i r] | d]; now eexists.
Qed.

(** The sentinel text of the prompt, a list of two allergens, and a record
    without the field. *)
Lemma allergens_rendered_witness :
  App2.render_allergens
    (PDict [("potential_allergens", PList [PStr "Dairy"; PStr "Gluten"])])
  = Ret [App2.st_markdown
           "**Potential Allergens (Visual/Typical Estimate):**";
         App2.st_markdown_bullets [PStr "Dairy"; PStr "Gluten"];
         App2.st_warning App2.allergen_warning]
  /\ App2.render_allergens
       (PDict [("potential_allergens", PStr "None obvious")])
     = Ret [App2.st_markdown
              "**Potential Allergens (Visual/Typical Estimate):**";
            App2.st_write (PStr "None obvious")]
  /\ App2.render_allergens (PDict [("food_name", PStr "Pizza")])
     = Ret [App2.st_markdown
              "**Potential Allergens (Visual/Typical Estimate):**";
            App2.st_write (PStr App2.no_allergens)].
Proof.
  split; [|split].
  - apply (proj1 (allergens_rendered
                    (PDict [("potential_allergens",
                             PList [PStr "Dairy"; PStr "Gluten"])]))).
    reflexivity.
  - apply (proj1 (proj2 (allergens_rendered
                    (PDict [("potential_allergens", PStr "None obvious")])))
             "N"%char "one obvious"); reflexivity.
  - apply (proj1 (proj2 (proj2 (proj2 (allergens_rendered
                    (PDict [("food_name", PStr "Pizza")])))))).
    left; reflexivity.
Defined.

(** C7 as stated fails: not every text is rendered as plain text.  The
    texts "0", "nan" and "Infinity" are turned into numbers by the
    accessor, and the block then shows the message that no allergen was
    identified. *)
Lemma allergens_numeric_text_not_shown :
  App2.render_allergens (PDict [("potential_allergens", PStr "0")])
  = Ret [App2.st_markdown
           "**Potential Allergens (Visual/Typical Estimate):**";
         App2.st_write (PStr App2.no_allergens)]
  /\ App2.render_allergens (PDict [("potential_allergens", PStr "nan")])
     = Ret [App2.st_markdown
              "**Potential Allergens (Visual/Typical Estimate):**";
            App2.st_write (PStr App2.no_allergens)]
  /\ App2.render_allergens
       (PDict [("potential_allergens", PStr "Infinity")])
     = Ret [App2.st_markdown
              "**Potential Allergens (Visual/Typical Estimate):**";
            App2.st_write (PStr App2.no_allergens)].
Proof. repeat split. Qed.

(** ** The session cache *)

Module Session.
Import PyStr StrFacts App2.

Lemma digits_no_dash (d : Decimal.uint) :
  ~ occurs "-" (NilEmpty.string_of_uint d).
Proof.
  induction d; simpl; try tauto;
    intros [E | O]; try discriminate E; tauto.
Qed.

Lemma str_of_N_inj (a b : N) : str_of_N a = str_of_N b -> a = b.
Proof.
  unfold str_of_N; intros E.
  apply DecimalN.Unsigned.to_uint_inj.
  assert (S : Some (N.to_uint a) = Some (N.to_uint b))
    by (rewrite <- !NilEmpty.usu, E; reflexivity).
  now injection S.
Qed.

Lemma append_empty_l (a x : string) : x = a ++ x -> a = "".
Proof.
  intros E. apply (f_equal String.length) in E.
  rewrite length_append in E. destruct a; [reflexivity | simpl in E; lia].
Qed.

Lemma append_cancel_r (a b x : string) : a ++ x = b ++ x -> a = b.
Proof.
  revert b; induction a as [|c a IH]; intros b E; simpl in E.
  - symmetry; exact (append_empty_l _ _ E).
  - destruct b as [|d b]; simpl in E.
    + symmetry in E.
      exfalso. apply (f_equal String.length) in E. simpl in E.
      rewrite length_append in E. lia.
    + injection E as -> E. now rewrite (IH b E).
Qed.

(** A name, a dash and a run of digits split in one way only. *)
Lemma dash_split_unique (n1 n2 s1 s2 : string) :
  ~ occurs "-" s1 -> ~ occurs "-" s2 ->
  n1 ++ "-" ++ s1 = n2 ++ "-" ++ s2 -> n1 = n2 /\ s1 = s2.
Proof.
  intros H1 H2 E.
  assert (E1 : (n1 ++ "-") ++ s1 = n2 ++ String "-" s2)
    by (rewrite append_assoc; exact E).
  assert (E2 : (n2 ++ "-") ++ s2 = n1 ++ String "-" s1)
    by (rewrite append_assoc; symmetry; exact E).
  destruct (suffix_cut _ _ _ _ _ E1 H1) as [b1 [Hb1 Ht1]].
  destruct (suffix_cut _ _ _ _ _ E2 H2) as [b2 [Hb2 Ht2]].
  assert (b1 = "").
  { pose proof (f_equal String.length Hb1) as L1.
    pose proof (f_equal String.length Hb2) as L2.
    rewrite length_append in L1, L2.
    destruct b1; [reflexivity | simpl in L1; lia]. }
  subst b1. simpl in Hb1. split; [|now symmetry].
  apply (append_cancel_r _ _ "-"). exact Ht1.
Qed.

(** The identifier determines the name and the size. *)
Lemma file_id_inj (u u' : uploaded_file) :
  file_id u = file_id u' <->
  file_name u = file_name u' /\ file_size u = file_size u'.
Proof.
  unfold file_id, str_of_N. split.
  - intros E.
    apply dash_split_unique in E; try apply digits_no_dash.
    destruct E as [En Es]. split; [exact En | now apply str_of_N_inj].
  - intros [-> ->]; reflexivity.
Qed.

End Session.



(** ** The parser never runs out of fuel *)

Module JsonFacts.
Import PyStr StrFacts Json.

Local Open Scope nat_scope.

Lemma lstrip_by_length (p : ascii -> bool) (s : string) :
  String.length (lstrip_by p s) <= String.length s.
Proof.
  induction s as [|c s IH]; simpl; [lia|].
  destruct (p c); simpl; lia.
Qed.

Lemma skip_ws_length (s : string) :
  String.length (skip_ws s) <= String.length s.
Proof. apply lstrip_by_length. Qed.

Lemma prepend_some (c : ascii) (x : option (string * string))
    (body rest : string) :
  prepend c x = Some (body, rest) ->
  exists body', x = Some (body', rest).
Proof.
  destruct x as [[b r]|]; simpl; [|discriminate].
  intros E; injection E as _ <-. now eexists.
Qed.

(** A string literal takes at least its closing quote. *)
Lemma scanstring_length (n : nat) (s body rest : string) :
  String.length s <= n ->
  scanstring s = Some (body, rest) ->
  String.length rest < String.length s.
Proof.
  revert s body rest; induction n as [|n IH]; intros s body rest Hn.
  - destruct s; [discriminate | simpl in Hn; lia].
  - destruct s as [|c r]; [discriminate|]. simpl in Hn.
    cbn [scanstring].
    destruct (Ascii.eqb c dquote).
    { intros E; injection E as _ <-. simpl; lia. }
    destruct (Ascii.eqb c "\").
    + destruct r as [|e r']; [discriminate|].
      assert (Plain :
        match unescape e with
        | Some d => prepend d (scanstring r')
        | None => None
        end = Some (body, rest) ->
        String.length rest < String.length (String c (String e r'))).
      { destruct (unescape e); [|discriminate].
        intros E. apply prepend_some in E as [b' E].
        apply IH in E; simpl in *; lia. }
      destruct (Ascii.eqb e "u") eqn:Eu.
      * apply Ascii.eqb_eq in Eu; subst e.
        destruct r' as [|h1 [|h2 [|h3 [|h4 r'']]]]; try exact Plain.
        destruct (hex4 h1 h2 h3 h4); [|discriminate].
        destruct (_ <? _)%N; [|discriminate].
        intros E. apply prepend_some in E as [b' E].
        apply IH in E; simpl in *; lia.
      * assert (e <> "u"%char) by now apply Ascii.eqb_neq.
        destruct e as [[|] [|] [|] [|] [|] [|] [|] [|]];
          try exact Plain; congruence.
    + destruct (_ <? _)%N; [discriminate|].
      intros E. apply prepend_some in E as [b' E].
      apply IH in E; simpl in *; lia.
Qed.

Lemma read_plain_digits_length (s : string) (acc : Z) (cnt : nat)
    (z : Z) (k : nat) (r : string) :
  read_plain_digits s acc cnt = (z, k, r) ->
  String.length r <= String.length s
  /\ (cnt < k -> String.length r < String.length s).
Proof.
  revert acc cnt; induction s as [|c s IH]; intros acc cnt; simpl.
  - intros E; injection E as _ <- <-. simpl; lia.
  - destruct (Builtins.is_digit c).
    + intros E. apply IH in E. lia.
    + intros E; injection E as _ <- <-. simpl; lia.
Qed.

Lemma scan_int_part_length (r r0 : string) (ip : Z) :
  scan_int_part r = Some (ip, r0) -> String.length r0 < String.length r.
Proof.
  unfold scan_int_part. destruct r as [|c r']; [discriminate|].
  assert (Run :
    (if Builtins.is_digit c
     then let '(z, _, r1) := read_plain_digits (String c r') 0 0 in
          Some (z, r1)
     else None) = Some (ip, r0) ->
    String.length r0 < String.length (String c r')).
  { destruct (Builtins.is_digit c) eqn:D; [|discriminate].
    destruct (read_plain_digits (String c r') 0 0) as [[z k] r1] eqn:R.
    intros E; injection E as _ <-.
    pose proof R as R'. simpl in R'. rewrite D in R'.
    apply read_plain_digits_length in R'. simpl; lia. }
  destruct (Ascii.eqb c "0") eqn:E0.
  - apply Ascii.eqb_eq in E0; subst c.
    intros E; injection E as _ <-. simpl; lia.
  - assert (c <> "0"%char) by now apply Ascii.eqb_neq.
    destruct c as [[|] [|] [|] [|] [|] [|] [|] [|]];
      try exact Run; congruence.
Qed.

Lemma scan_frac_length (ip : Z) (r0 : string) (m : Z) (nf : nat)
    (r1 : string) :
  scan_frac ip r0 = (m, nf, r1) -> String.length r1 <= String.length r0.
Proof.
  unfold scan_frac. destruct r0 as [|c r0'].
  - intros E; injection E as _ _ <-; lia.
  - assert (Keep : (ip, 0, String c r0') = (m, nf, r1) ->
                   String.length r1 <= String.length (String c r0'))
      by (intros E; injection E as _ _ <-; lia).
    destruct (Ascii.eqb c ".") eqn:Ec.
    + apply Ascii.eqb_eq in Ec; subst c.
      destruct (read_plain_digits r0' ip 0) as [[z k] t] eqn:R.
      apply read_plain_digits_length in R.
      destruct k; [exact Keep|].
      intros E; injection E as _ _ <-. simpl; lia.
    + assert (c <> "."%char) by now apply Ascii.eqb_neq.
      destruct c as [[|] [|] [|] [|] [|] [|] [|] [|]];
        try exact Keep; congruence.
Qed.

Lemma scan_exp_length (r1 : string) (ex : Z) (has : bool) (r2 : string) :
  scan_exp r1 = (ex, has, r2) -> String.length r2 <= String.length r1.
Proof.
  unfold scan_exp. destruct r1 as [|c r1'].
  - intros E; injection E as _ _ <-; lia.
  - destruct (Ascii.eqb c "e" || Ascii.eqb c "E")%bool;
      [|intros E; injection E as _ _ <-; lia].
    assert (Sign : forall eneg t,
      String.length t <= String.length r1' ->
      match read_plain_digits t 0 0 with
      | (_, O, _) => (0%Z, false, String c r1')
      | (e, S _, t') => (cond_Zopp eneg e, true, t')
      end = (ex, has, r2) ->
      String.length r2 <= String.length (String c r1')).
    { intros eneg t Ht.
      destruct (read_plain_digits t 0 0) as [[z k] t'] eqn:R.
      apply read_plain_digits_length in R.
      destruct k; intros E; injection E as _ _ <-; simpl; lia. }
    destruct r1' as [|d t]; [apply Sign; lia|].
    destruct (Ascii.eqb d "-") eqn:Em;
      [apply Ascii.eqb_eq in Em; subst d; apply Sign; simpl; lia|].
    destruct (Ascii.eqb d "+") eqn:Ep;
      [apply Ascii.eqb_eq in Ep; subst d; apply Sign; simpl; lia|].
    assert (d <> "-"%char) by now apply Ascii.eqb_neq.
    assert (d <> "+"%char) by now apply Ascii.eqb_neq.
    destruct d as [[|] [|] [|] [|] [|] [|] [|] [|]];
      try (apply Sign; simpl; lia); congruence.
Qed.

(** A number takes at least one digit. *)
Lemma scan_number_length (s : string) (v : pyval) (r : string) :
  scan_number s = Some (v, r) -> String.length r < String.length s.
Proof.
  unfold scan_number.
  assert (Body : forall neg t,
    String.length t <= String.length s ->
    match scan_int_part t with
    | None => None
    | Some (ip, r0) =>
        let '(m, nf, r1) := scan_frac ip r0 in
        let '(ex, has_exp, r2) := scan_exp r1 in
        match nf, has_exp with
        | O, false => Some (PInt (cond_Zopp neg ip), r2)
        | _, _ =>
            Some (PFloat (PyFloat.of_decimal neg m (ex - Z.of_nat nf)), r2)
        end
    end = Some (v, r) ->
    String.length r < String.length s).
  { intros neg t Ht.
    destruct (scan_int_part t) as [[ip r0]|] eqn:I; [|discriminate].
    apply scan_int_part_length in I.
    destruct (scan_frac ip r0) as [[m nf] r1] eqn:F.
    apply scan_frac_length in F.
    destruct (scan_exp r1) as [[ex has] r2] eqn:X.
    apply scan_exp_length in X.
    destruct nf; destruct has; intros E; injection E as _ <-; lia. }
  destruct s as [|c s']; [apply Body; lia|].
  destruct (Ascii.eqb c "-") eqn:Em.
  - apply Ascii.eqb_eq in Em; subst c. apply Body; simpl; lia.
  - assert (c <> "-"%char) by now apply Ascii.eqb_neq.
    destruct c as [[|] [|] [|] [|] [|] [|] [|] [|]];
      try (apply Body; simpl; lia); congruence.
Qed.

Lemma drop_prefix_length (p s : string) :
  startswith p s = true ->
  String.length (drop (String.length p) s) + String.length p
  = String.length s.
Proof.
  intros H. apply startswith_split in H.
  rewrite H at 2. rewrite length_append. lia.
Qed.

Lemma consumes_invalid (s : string) : consumes Invalid s.
Proof. split; [discriminate | intros v r E; discriminate E]. Qed.

Lemma consumes_parsed (v : pyval) (r s : string) :
  String.length r < String.length s -> consumes (Parsed (v, r)) s.
Proof.
  intros H; split; [discriminate|].
  intros v' r' E; injection E as _ <-; exact H.
Qed.

Lemma consumes_longer (o : outcome (pyval * string)) (s t : string) :
  consumes o s -> String.length s <= String.length t -> consumes o t.
Proof.
  intros [N C] L; split; [exact N|].
  intros v r E. specialize (C v r E). lia.
Qed.

Lemma consumes_literal (p s : string) (v : pyval) :
  startswith p s = true -> 0 < String.length p ->
  consumes (Parsed (v, drop (String.length p) s)) s.
Proof.
  intros H L. apply consumes_parsed.
  apply drop_prefix_length in H. lia.
Qed.

(** With fuel above twice the length of the text, and one more for the
    loops, no scanning function runs out of it. *)
Lemma scan_fuel (n : nat) :
  (forall s, 2 * String.length s < n -> consumes (scan_once n s) s)
  /\ (forall s acc,
        2 * String.length s + 1 < n -> consumes (object_loop n s acc) s)
  /\ (forall s acc,
        2 * String.length s + 1 < n -> consumes (array_loop n s acc) s).
Proof.
  induction n as [|n [IHs [IHo IHa]]];
    [repeat split; intros; lia|].
  split; [|split].
  - intros s Hn. destruct s as [|c r]; cbn [scan_once];
      [apply consumes_invalid|].
    simpl in Hn.
    destruct (Ascii.eqb c dquote).
    { destruct (scanstring r) as [[b rest]|] eqn:S;
        [|apply consumes_invalid].
      apply consumes_parsed.
      apply (scanstring_length _ _ _ _ (le_n _)) in S. simpl; lia. }
    destruct (Ascii.eqb c "{").
    { pose proof (skip_ws_length r) as W.
      destruct (skip_ws r) as [|c1 r1]; [apply consumes_invalid|].
      simpl in W.
      destruct (Ascii.eqb c1 "}"); [apply consumes_parsed; simpl; lia|].
      destruct (Ascii.eqb c1 dquote); [|apply consumes_invalid].
      apply (consumes_longer _ r1); [apply IHo; lia | simpl; lia]. }
    destruct (Ascii.eqb c "[").
    { pose proof (skip_ws_length r) as W.
      destruct (skip_ws r) as [|c1 r1].
      - apply (consumes_longer _ ""); [apply IHa; simpl; lia | simpl; lia].
      - simpl in W.
        destruct (Ascii.eqb c1 "]"); [apply consumes_parsed; simpl; lia|].
        apply (consumes_longer _ (String c1 r1));
          [apply IHa; simpl; lia | simpl; lia]. }
    destruct (startswith "null" (String c r)) eqn:L1;
      [apply (consumes_literal "null"); [exact L1 | simpl; lia]|].
    destruct (startswith "true" (String c r)) eqn:L2;
      [apply (consumes_literal "true"); [exact L2 | simpl; lia]|].
    destruct (startswith "false" (String c r)) eqn:L3;
      [apply (consumes_literal "false"); [exact L3 | simpl; lia]|].
    destruct (scan_number (String c r)) as [[v rest]|] eqn:N.
    { apply consumes_parsed. now apply scan_number_length in N. }
    destruct (startswith "NaN" (String c r)) eqn:L4;
      [apply (consumes_literal "NaN"); [exact L4 | simpl; lia]|].
    destruct (startswith "Infinity" (String c r)) eqn:L5;
      [apply (consumes_literal "Infinity"); [exact L5 | simpl; lia]|].
    destruct (startswith "-Infinity" (String c r)) eqn:L6;
      [apply (consumes_literal "-Infinity"); [exact L6 | simpl; lia]|].
    apply consumes_invalid.
  - intros s acc Hn. cbn [object_loop].
    destruct (scanstring s) as [[k r]|] eqn:S; [|apply consumes_invalid].
    apply (scanstring_length _ _ _ _ (le_n _)) in S.
    pose proof (skip_ws_length r) as W.
    destruct (skip_ws r) as [|c1 r1]; [apply consumes_invalid|].
    simpl in W.
    destruct (Ascii.eqb c1 ":"); [|apply consumes_invalid].
    pose proof (skip_ws_length r1) as W1.
    destruct (IHs (skip_ws r1)) as [NS CS]; [lia|].
    destruct (scan_once n (skip_ws r1)) as [[v r2]| |];
      [|apply consumes_invalid | congruence].
    specialize (CS v r2 eq_refl).
    pose proof (skip_ws_length r2) as W2.
    destruct (skip_ws r2) as [|c2 r3]; [apply consumes_invalid|].
    simpl in W2.
    destruct (Ascii.eqb c2 "}"); [apply consumes_parsed; lia|].
    destruct (Ascii.eqb c2 ","); [|apply consumes_invalid].
    pose proof (skip_ws_length r3) as W3.
    destruct (skip_ws r3) as [|c3 r4]; [apply consumes_invalid|].
    simpl in W3.
    destruct (Ascii.eqb c3 dquote); [|apply consumes_invalid].
    apply (consumes_longer _ r4); [apply IHo; lia | lia].
  - intros s acc Hn. cbn [array_loop].
    destruct (IHs s) as [NS CS]; [lia|].
    destruct (scan_once n s) as [[v r]| |];
      [|apply consumes_invalid | congruence].
    specialize (CS v r eq_refl).
    pose proof (skip_ws_length r) as W.
    destruct (skip_ws r) as [|c1 r1]; [apply consumes_invalid|].
    simpl in W.
    destruct (Ascii.eqb c1 "]"); [apply consumes_parsed; lia|].
    destruct (Ascii.eqb c1 ","); [|apply consumes_invalid].
    pose proof (skip_ws_length r1) as W1.
    apply (consumes_longer _ (skip_ws r1)); [apply IHa; lia | lia].
Qed.

(** More fuel changes no outcome other than an exhaustion. *)
Lemma scan_more_fuel (n : nat) :
  (forall m s, n <= m -> scan_once n s <> Starved ->
               scan_once m s = scan_once n s)
  /\ (forall m s acc, n <= m -> object_loop n s acc <> Starved ->
                      object_loop m s acc = object_loop n s acc)
  /\ (forall m s acc, n <= m -> array_loop n s acc <> Starved ->
                      array_loop m s acc = array_loop n s acc).
Proof.
  induction n as [|n [IHs [IHo IHa]]];
    [repeat split; intros; simpl in *; congruence|].
  split; [|split].
  - intros m s L. destruct m as [|m]; [lia|]. apply le_S_n in L.
    cbn [scan_once]. destruct s as [|c r]; [reflexivity|].
    destruct (Ascii.eqb c dquote); [reflexivity|].
    destruct (Ascii.eqb c "{").
    { destruct (skip_ws r) as [|c1 r1]; [reflexivity|].
      destruct (Ascii.eqb c1 "}"); [reflexivity|].
      destruct (Ascii.eqb c1 dquote); [|reflexivity].
      now apply IHo. }
    destruct (Ascii.eqb c "[").
    { destruct (skip_ws r) as [|c1 r1]; [now apply IHa|].
      destruct (Ascii.eqb c1 "]"); [reflexivity | now apply IHa]. }
    reflexivity.
  - intros m s acc L. destruct m as [|m]; [lia|]. apply le_S_n in L.
    cbn [object_loop].
    destruct (scanstring s) as [[k r]|]; [|reflexivity].
    destruct (skip_ws r) as [|c1 r1]; [reflexivity|].
    destruct (Ascii.eqb c1 ":"); [|reflexivity].
    destruct (scan_once n (skip_ws r1)) as [[v r2]| |] eqn:S;
      [| intros _ | congruence].
    + rewrite (IHs m _ L) by congruence. rewrite S.
      destruct (skip_ws r2) as [|c2 r3]; [reflexivity|].
      destruct (Ascii.eqb c2 "}"); [reflexivity|].
      destruct (Ascii.eqb c2 ","); [|reflexivity].
      destruct (skip_ws r3) as [|c3 r4]; [reflexivity|].
      destruct (Ascii.eqb c3 dquote); [|reflexivity].
      now apply IHo.
    + rewrite (IHs m _ L) by congruence. now rewrite S.
  - intros m s acc L. destruct m as [|m]; [lia|]. apply le_S_n in L.
    cbn [array_loop].
    destruct (scan_once n s) as [[v r]| |] eqn:S;
      [| intros _ | congruence].
    + rewrite (IHs m _ L) by congruence. rewrite S.
      destruct (skip_ws r) as [|c1 r1]; [reflexivity|].
      destruct (Ascii.eqb c1 "]"); [reflexivity|].
      destruct (Ascii.eqb c1 ","); [|reflexivity].
      now apply IHa.
    + rewrite (IHs m _ L) by congruence. now rewrite S.
Qed.

(** [loads] gives every text the fuel its scan needs. *)
Lemma loads_not_starved (s : string) :
  scan_once (fuel_for s) (skip_ws s) <> Starved.
Proof.
  apply (proj1 (scan_fuel (fuel_for s))).
  pose proof (skip_ws_length s). unfold fuel_for. lia.
Qed.


(** The verdict of [loads] is that of the scan with any larger fuel. *)
Lemma loads_fuel_enough (s : string) (m : nat) :
  fuel_for s <= m ->
  scan_once m (skip_ws s) = scan_once (fuel_for s) (skip_ws s).
Proof.
  intros L. apply (proj1 (scan_more_fuel (fuel_for s))); [exact L|].
  apply loads_not_starved.
Qed.

End JsonFacts.

(** * Further properties *)

(** ** The accessor, again *)

Module AccessorMore.

Lemma coerced_settled (v : pyval) : coerced (coerced v) = coerced v.
Proof.
  destruct v as [| b | z | f | s | l | d]; try reflexivity.
  simpl.
  destruct (int_of_str s) eqn:I; [reflexivity|].
  destruct (float_of_str s) eqn:F; [reflexivity|].
  simpl. now rewrite I, F.
Qed.

Lemma reaches_loop_app (data : pyval) (keys more : list key)
    (w default : pyval) :
  reaches data keys w ->
  safe_get_loop data (keys ++ more) default = safe_get_loop w more default.
Proof.
  induction 1 as [v | l i v ks w Hi Hn Hr IH | d k v ks w Hf Hr IH]; simpl.
  - reflexivity.
  - assert (G : (0 <=? i) && (i <? Z.of_nat (List.length l)) = true).
    { apply andb_true_intro; split; [now apply Z.leb_le|].
      apply Z.ltb_lt.
      assert (Z.to_nat i < List.length l)%nat
        by (apply nth_error_Some; congruence).
      lia. }
    rewrite G. unfold list_getitem. rewrite Hn. simpl. exact IH.
  - unfold dict_get, dict_get_default. rewrite Hf. exact IH.
Qed.

(** The loop returns nothing but the default. *)
Lemma loop_returns_default (ks : list key) (data default v : pyval) :
  safe_get_loop data ks default = Ret (Returned v) -> v = default.
Proof.
  revert data; induction ks as [|k ks IH]; intros data; simpl;
    [discriminate|].
  destruct data as [| b | z | f | s | l | d]; destruct k as [s' | i];
    try (intros E; injection E as <-; reflexivity); try apply IH.
  destruct ((0 <=? i) && (i <? Z.of_nat (List.length l)));
    [|intros E; injection E as <-; reflexivity].
  unfold list_getitem.
  destruct (nth_error l (Z.to_nat i)); simpl; [apply IH | discriminate].
Qed.

End AccessorMore.

(** X1.  [safe_get] raises nothing, whatever the record, the path and the
    default; and what it returns is the default or a value the coercion
    leaves as it is: never a string that [int] or [float] accepts. *)
Theorem safe_get_returns_settled_value (data : pyval) (keys : keys_arg)
    (default : pyval) :
  exists v : pyval,
    safe_get data keys default = Ret v
    /\ (v = default \/ coerced v = v)
    /\ (forall s : string,
          v = PStr s -> v = default \/ reads_as_number s = false).
Proof.
  rewrite Accessor.safe_get_unfold.
  destruct (Accessor.safe_get_loop_ret (path_of keys) data default)
    as [[v | t] E]; rewrite E.
  - exists v. split; [reflexivity|].
    assert (v = default)
      by exact (AccessorMore.loop_returns_default _ _ _ _ E).
    split; [now left | intros s _; now left].
  - exists (coerced t). split; [reflexivity|].
    split; [right; apply AccessorMore.coerced_settled|].
    intros s Hs. right.
    pose proof (AccessorMore.coerced_settled t) as C. rewrite Hs in C.
    unfold reads_as_number. simpl in C.
    destruct (int_of_str s); [discriminate C|].
    destruct (float_of_str s); [discriminate C | reflexivity].
Qed.

(** X2.  When the steps before the last lead to a dict and the last step
    asks it for a key that is missing or holds null, [safe_get] returns
    [None], whatever the default. *)
Theorem safe_get_None_at_path_end (data : pyval) (keys : list key)
    (d : list (string * pyval)) (k : string) (default : pyval) :
  reaches data keys (PDict d) ->
  dict_get d k = PNone ->
  safe_get data (KeyList (keys ++ [KStr k])) default = Ret PNone.
Proof.
  intros R G. rewrite Accessor.safe_get_unfold. simpl path_of.
  rewrite (AccessorMore.reaches_loop_app _ _ [KStr k] _ default R).
  simpl. now rewrite G.
Qed.

(** A record whose macronutrient dict has no protein entry, read with the
    default 0. *)
Lemma safe_get_None_at_path_end_witness :
  reaches
    (PDict [("estimated_macronutrients_g", PDict [("fat", PInt 30)])])
    [KStr "estimated_macronutrients_g"] (PDict [("fat", PInt 30)])
  /\ dict_get [("fat", PInt 30)] "protein" = PNone
  /\ safe_get
       (PDict [("estimated_macronutrients_g", PDict [("fat", PInt 30)])])
       (KeyList ([KStr "estimated_macronutrients_g"] ++ [KStr "protein"]))
       (PInt 0)
     = Ret PNone.
Proof.
  assert (R : reaches
    (PDict [("estimated_macronutrients_g", PDict [("fat", PInt 30)])])
    [KStr "estimated_macronutrients_g"] (PDict [("fat", PInt 30)])).
  { apply (reaches_key _ _ (PDict [("fat", PInt 30)])); [reflexivity|].
    apply reaches_end. }
  split; [exact R|]. split; [reflexivity|].
  apply (safe_get_None_at_path_end _ _ [("fat", PInt 30)] "protein" (PInt 0) R).
  reflexivity.
Defined.

(** ** The chart, again *)

Module ChartMore.

Lemma slices_values_positive (macros : pyval) :
  Forall (fun lv => number_gt_zero (snd lv) = true) (slices macros).
Proof.
  unfold slices. apply Forall_forall. intros lv H.
  apply filter_In in H. tauto.
Qed.

Lemma amount_is_number (macros : pyval) (k : string) :
  is_number (macro_amount macros k) = true.
Proof.
  unfold macro_amount.
  destruct (is_number (coerced (field_of macros k))) eqn:N;
    [exact N | reflexivity].
Qed.

Lemma slices_empty_iff (macros : pyval) :
  slices macros = [] <->
  forallb (fun k => negb (number_gt_zero (macro_amount macros k))) macro_keys
  = true.
Proof.
  unfold slices, macro_keys, macro_labels.
  cbn [map combine filter snd forallb].
  destruct (number_gt_zero (macro_amount macros "carbohydrates"));
    destruct (number_gt_zero (macro_amount macros "protein"));
    destruct (number_gt_zero (macro_amount macros "fat"));
    simpl; split; (reflexivity || discriminate).
Qed.

End ChartMore.

(** X3.  [create_macro_pie_chart] raises nothing, whatever it is given,
    and returns [None] exactly when none of the three amounts is above
    zero, that is when no stored value is, once coerced, a number above
    zero: a value below zero and a NaN are dropped as a zero is. *)
Theorem chart_omitted_exactly_without_positive_amount (macros : pyval) :
  (exists r, create_macro_pie_chart macros = Ret r)
  /\ (create_macro_pie_chart macros = Ret None <->
      forallb (fun k => negb (number_gt_zero (macro_amount macros k)))
        macro_keys = true)
  /\ (forall k : string,
        number_gt_zero (macro_amount macros k)
        = positive_number (coerced (field_of macros k))).
Proof.
  rewrite Chart.create_macro_pie_chart_slices.
  split; [now eexists|]. split.
  - rewrite <- ChartMore.slices_empty_iff.
    destruct (slices macros); split; congruence.
  - intros k. unfold macro_amount, positive_number.
    destruct (is_number (coerced (field_of macros k))); reflexivity.
Qed.

(** X4.  A figure has between one and three slices; its labels are the
    three labels with some left out, in their order; each of its values is
    a number above zero; and every slice is pulled out by 0.05, the other
    value of the expression being never used. *)
Theorem chart_figure_shape (macros : pyval) (chart : pie_chart) :
  create_macro_pie_chart macros = Ret (Some chart) ->
  (1 <= List.length (pie_values chart) <= 3)%nat
  /\ Forall (fun v => is_number v = true /\ number_gt_zero v = true)
       (pie_values chart)
  /\ (exists keep : list bool,
        List.length keep = 3%nat
        /\ pie_labels chart
           = map snd (filter fst (combine keep macro_labels)))
  /\ pie_pull chart
     = map (fun _ => PFloat (PyFloat.of_decimal false 5 (-2)))
         (pie_values chart)
  /\ pie_marker_colors chart = ["#1f77b4"; "#ff7f0e"; "#2ca02c"].
Proof.
  rewrite Chart.create_macro_pie_chart_slices. intros E.
  unfold slices, macro_keys, macro_labels in E.
  cbn [map combine filter snd] in E.
  pose proof (ChartMore.amount_is_number macros "carbohydrates") as N1.
  pose proof (ChartMore.amount_is_number macros "protein") as N2.
  pose proof (ChartMore.amount_is_number macros "fat") as N3.
  destruct (number_gt_zero (macro_amount macros "carbohydrates")) eqn:G1;
    destruct (number_gt_zero (macro_amount macros "protein")) eqn:G2;
    destruct (number_gt_zero (macro_amount macros "fat")) eqn:G3;
    try discriminate E; injection E as <-; cbn [pie_values pie_labels
      pie_pull pie_marker_colors map fst snd List.length];
    rewrite ?G1, ?G2, ?G3;
    (split; [lia|]);
    (split; [repeat constructor; assumption|]);
    (split; [|split; reflexivity]).
  - exists [true; true; true]; split; reflexivity.
  - exists [true; true; false]; split; reflexivity.
  - exists [true; false; true]; split; reflexivity.
  - exists [true; false; false]; split; reflexivity.
  - exists [false; true; true]; split; reflexivity.
  - exists [false; true; false]; split; reflexivity.
  - exists [false; false; true]; split; reflexivity.
Qed.

(** Carbohydrate -5, protein 20 and fat NaN: one slice. *)
Lemma chart_figure_shape_witness :
  create_macro_pie_chart
    (PDict [("carbohydrates", PInt (-5)); ("protein", PInt 20);
            ("fat", PFloat S754_nan)])
  = Ret (Some {|
      pie_labels := ["Protein"];
      pie_values := [PInt 20];
      pie_hole := PyFloat.of_decimal false 3 (-1);
      pie_pull := [PFloat (PyFloat.of_decimal false 5 (-2))];
      pie_marker_colors := ["#1f77b4"; "#ff7f0e"; "#2ca02c"];
      pie_textinfo := "percent+label";
      pie_title := "Estimated Macronutrient Distribution (grams)" |})
  /\ (1 <= List.length [PInt 20] <= 3)%nat.
Proof.
  split; [reflexivity|].
  apply (chart_figure_shape
           (PDict [("carbohydrates", PInt (-5)); ("protein", PInt 20);
                   ("fat", PFloat S754_nan)])
           {| pie_labels := ["Protein"];
              pie_values := [PInt 20];
              pie_hole := PyFloat.of_decimal false 3 (-1);
              pie_pull := [PFloat (PyFloat.of_decimal false 5 (-2))];
              pie_marker_colors := ["#1f77b4"; "#ff7f0e"; "#2ca02c"];
              pie_textinfo := "percent+label";
              pie_title := "Estimated Macronutrient Distribution (grams)" |}).
  reflexivity.
Defined.

(** ** The clean-up and the candidate, again *)

Module CandidateMore.
Import PyStr StrFacts App2.

Lemma occurs_contains (c : ascii) (s : string) :
  ~ occurs c s -> contains c s = false.
Proof.
  induction s as [|d s IH]; simpl; [reflexivity|].
  intros H. apply orb_false_intro.
  - apply Ascii.eqb_neq. tauto.
  - apply IH. tauto.
Qed.

Lemma find_from_cases (c : ascii) (s : string) (i : Z) :
  (find_from c s i = -1 /\ ~ occurs c s)
  \/ exists a r,
       s = a ++ String c r /\ ~ occurs c a
       /\ find_from c s i = i + Z.of_nat (String.length a).
Proof.
  revert i; induction s as [|d s IH]; intros i; simpl.
  - left; tauto.
  - destruct (Ascii.eqb d c) eqn:E.
    + apply Ascii.eqb_eq in E; subst d. right.
      exists "", s. simpl. repeat split; [tauto | lia].
    + apply Ascii.eqb_neq in E.
      destruct (IH (i + 1)) as [[F N] | [a [r [Es [N F]]]]].
      * left; split; [exact F | tauto].
      * right. exists (String d a), r. simpl.
        repeat split; [now rewrite <- Es | tauto | lia].
Qed.

Lemma rfind_from_cases (c : ascii) (s : string) (i : Z) :
  0 <= i ->
  (rfind_from c s i = -1 /\ ~ occurs c s)
  \/ exists y b,
       s = y ++ String c b /\ ~ occurs c b
       /\ rfind_from c s i = i + Z.of_nat (String.length y).
Proof.
  revert i; induction s as [|d s IH]; intros i Hi; simpl.
  - left; tauto.
  - destruct (IH (i + 1)) as [[F N] | [y [b [Es [N F]]]]]; [lia | |].
    + rewrite F. simpl.
      destruct (Ascii.eqb d c) eqn:E.
      * apply Ascii.eqb_eq in E; subst d. right.
        exists "", s. simpl. repeat split; [exact N | lia].
      * apply Ascii.eqb_neq in E. left; split; [reflexivity | tauto].
    + right. exists (String d y), b. rewrite F.
      replace (i + 1 + Z.of_nat (String.length y) =? -1) with false
        by (symmetry; apply Z.eqb_neq; lia).
      simpl. repeat split; [now rewrite <- Es | exact N | lia].
Qed.

Lemma append_empty_r (a : string) : a ++ "" = a.
Proof. induction a as [|x a IH]; simpl; [reflexivity | now rewrite IH]. Qed.

(** Two ways of cutting one text: the shorter head is a head of the
    longer. *)
Lemma append_eq_split (a x y z : string) :
  a ++ x = y ++ z ->
  (String.length a <= String.length y)%nat ->
  exists m, y = a ++ m /\ x = m ++ z.
Proof.
  revert y; induction a as [|c a IH]; intros y E L; simpl in *.
  - exists y; split; [reflexivity | exact E].
  - destruct y as [|d y]; simpl in *; [lia|].
    injection E as -> E.
    destruct (IH y E) as [m [Hy Hx]]; [lia|].
    exists m; split; [now rewrite Hy | exact Hx].
Qed.

(** The candidate is the whole text when the test fails; when it holds,
    the text has an object text between a head free of opening braces and
    a tail free of closing ones. *)
Lemma candidate_cases (s : string) :
  (brace_pair s = false /\ json_candidate s = s)
  \/ (brace_pair s = true /\ exists body, wrapped body s).
Proof.
  unfold json_candidate, brace_pair.
  destruct (negb (find "{" s =? -1) && negb (rfind "}" s =? -1)
            && (find "{" s <? rfind "}" s)) eqn:C;
    [right | left; split; reflexivity].
  split; [reflexivity|].
  apply andb_prop in C as [C C3]. apply andb_prop in C as [C1 C2].
  apply negb_true_iff, Z.eqb_neq in C1, C2. apply Z.ltb_lt in C3.
  unfold find, rfind in *.
  destruct (find_from_cases "{" s 0) as [[F _] | [a [r [Ea [Na F]]]]];
    [congruence|].
  destruct (rfind_from_cases "}" s 0 (Z.le_refl 0))
    as [[R _] | [y [b [Ey [Nb R]]]]]; [congruence|].
  assert (E : a ++ String "{" r = y ++ String "}" b) by congruence.
  destruct (append_eq_split _ _ _ _ E) as [m [Hy Hx]]; [lia|].
  destruct m as [|c0 body].
  - rewrite append_empty_r in Hy. subst y. lia.
  - simpl in Hx. injection Hx as <- Hr.
    exists body, a, b. repeat split; [|exact Na | exact Nb].
    now rewrite Ea, Hr.
Qed.

Lemma rstrip_by_settled (p : ascii -> bool) (t : string) :
  rstrip_by p (rstrip_by p t) = rstrip_by p t.
Proof.
  induction t as [|c t IH]; simpl; [reflexivity|].
  destruct (rstrip_by p t) as [|d r] eqn:R.
  - destruct (p c) eqn:Pc; simpl; [reflexivity | now rewrite Pc].
  - cbn [rstrip_by] in IH |- *. rewrite IH. reflexivity.
Qed.

Lemma lstrip_by_head (p : ascii -> bool) (s : string) :
  match lstrip_by p s with
  | EmptyString => True
  | String c _ => p c = false
  end.
Proof.
  induction s as [|c s IH]; simpl; [exact I|].
  destruct (p c) eqn:Pc; [exact IH | exact Pc].
Qed.

Lemma strip_by_settled (p : ascii -> bool) (s : string) :
  strip_by p (strip_by p s) = strip_by p s.
Proof.
  unfold strip_by.
  assert (L : lstrip_by p (rstrip_by p (lstrip_by p s))
              = rstrip_by p (lstrip_by p s)).
  { pose proof (lstrip_by_head p s) as H.
    destruct (lstrip_by p s) as [|c t]; [reflexivity|].
    cbn [rstrip_by].
    destruct (rstrip_by p t); rewrite ?H; simpl; rewrite H; reflexivity. }
  rewrite L. apply rstrip_by_settled.
Qed.

Lemma rstrip_by_length (p : ascii -> bool) (s : string) :
  (String.length (rstrip_by p s) <= String.length s)%nat.
Proof.
  induction s as [|c s IH]; simpl; [lia|].
  destruct (rstrip_by p s); [destruct (p c)|]; simpl in *; lia.
Qed.

Lemma strip_length (s : string) :
  (String.length (strip s) <= String.length s)%nat.
Proof.
  unfold strip, strip_by.
  pose proof (rstrip_by_length is_space (lstrip_by is_space s)).
  pose proof (JsonFacts.lstrip_by_length is_space s). lia.
Qed.

Lemma take_length (n : nat) (s : string) :
  (String.length (take n s) <= String.length s)%nat.
Proof.
  revert s; induction n as [|n IH]; intros s; simpl; [lia|].
  destruct s; simpl; [lia | specialize (IH s); lia].
Qed.

(** The parser raises nothing but [JSONDecodeError]. *)
Lemma loads_raises_decode_error (s : string) (x : exn) :
  Json.loads s = Raise x -> x = JSONDecodeError.
Proof.
  unfold Json.loads.
  destruct (Json.scan_once _ _) as [[v r]| |];
    try (intros E; injection E as <-; reflexivity).
  destruct (Json.skip_ws r); [discriminate|].
  intros E; injection E as <-; reflexivity.
Qed.

Lemma endswith_append (x p : string) : endswith p (x ++ p) = true.
Proof.
  unfold endswith. rewrite length_append.
  replace (String.length x + String.length p - String.length p)%nat
    with (String.length x) by lia.
  rewrite drop_append, String.eqb_refl.
  apply andb_true_intro. split; [apply Nat.leb_le; lia | reflexivity].
Qed.

Lemma drop_last_append (x p : string) :
  drop_last (String.length p) (x ++ p) = x.
Proof.
  unfold drop_last. rewrite length_append.
  replace (String.length x + String.length p - String.length p)%nat
    with (String.length x) by lia.
  apply take_append.
Qed.

(** The clean-up of a text between the two fences. *)
Lemma strip_fences_fenced (t : string) :
  App2.strip_fences ("```json" ++ t ++ "```") = strip t.
Proof.
  unfold App2.strip_fences.
  change (startswith "```json" ("```json" ++ t ++ "```")) with true.
  cbv iota.
  change (drop 7 ("```json" ++ t ++ "```")) with (t ++ "```").
  rewrite endswith_append.
  exact (f_equal strip (drop_last_append t "```")).
Qed.

Lemma strip_fences_plain (s : string) :
  startswith "```json" s = false -> endswith "```" s = false ->
  App2.strip_fences s = strip s.
Proof. intros F E. unfold App2.strip_fences. now rewrite F, E. Qed.

End CandidateMore.

(** X5.  The candidate handed to the parser is the whole text, when the
    text has no opening brace followed by a closing one, and otherwise an
    object text cut out of it, with no opening brace before it and no
    closing brace after it; extracting twice gives what extracting once
    gives. *)
Theorem candidate_whole_or_object (s : string) :
  ((brace_pair s = false /\ App2.json_candidate s = s)
   \/ (brace_pair s = true
       /\ exists a body b : string,
            s = a ++ object_text body ++ b
            /\ PyStr.contains "{" a = false
            /\ PyStr.contains "}" b = false
            /\ App2.json_candidate s = object_text body))
  /\ App2.json_candidate (App2.json_candidate s) = App2.json_candidate s.
Proof.
  destruct (CandidateMore.candidate_cases s) as [[B C] | [B [body W]]].
  - split; [left; split; assumption | now rewrite C, C].
  - pose proof (Extraction.wrapped_candidate _ _ W) as C.
    split.
    + right. split; [exact B|].
      destruct W as [a [b [E [Na Nb]]]].
      exists a, body, b. repeat split.
      * rewrite E. unfold object_text. simpl.
        now rewrite StrFacts.append_assoc.
      * now apply CandidateMore.occurs_contains.
      * now apply CandidateMore.occurs_contains.
      * exact C.
    + rewrite C. apply Extraction.wrapped_candidate.
      exists "", "". repeat split; simpl; tauto.
Qed.

(** X6.  The raw output app2.py returns with a record, with
    [EmptyResponse] or with [MalformedJson] is the reply as cleaned, not
    the reply as received: what stands between the two fences, or the
    reply itself when it has neither, without the blanks at its ends.  It
    is no longer than the reply, and at least seven characters shorter when
    the reply starts with the fence. *)
Theorem raw_output_is_cleaned_reply (s : string) :
  (exists (r : option pyval) (e : option analysis_error),
     App2.normalize s = Ret (r, e, Some (App2.strip_fences s)))
  /\ (forall t : string,
        s = "```json" ++ t ++ "```" -> App2.strip_fences s = PyStr.strip t)
  /\ (PyStr.startswith "```json" s = false ->
      PyStr.endswith "```" s = false ->
      App2.strip_fences s = PyStr.strip s)
  /\ PyStr.strip (App2.strip_fences s) = App2.strip_fences s
  /\ (String.length (App2.strip_fences s) <= String.length s)%nat
  /\ (PyStr.startswith "```json" s = true ->
      (String.length (App2.strip_fences s) + 7 <= String.length s)%nat).
Proof.
  split.
  { unfold App2.normalize.
    destruct (String.eqb s "") eqn:E.
    { apply String.eqb_eq in E; subst s. now exists None, (Some EmptyResponse). }
    destruct (Json.loads (App2.json_candidate (App2.strip_fences s)))
      as [v | x] eqn:L; simpl.
    - now exists (Some v), None.
    - rewrite (CandidateMore.loads_raises_decode_error _ _ L). simpl.
      now exists None, (Some MalformedJson). }
  split; [intros t ->; apply CandidateMore.strip_fences_fenced|].
  split; [apply CandidateMore.strip_fences_plain|].
  unfold App2.strip_fences.
  split; [apply CandidateMore.strip_by_settled|].
  assert (L2 : forall s1,
    (String.length
       (PyStr.strip
          (if PyStr.endswith "```" s1 then PyStr.drop_last 3 s1 else s1))
     <= String.length s1)%nat).
  { intros s1.
    pose proof (CandidateMore.strip_length
      (if PyStr.endswith "```" s1 then PyStr.drop_last 3 s1 else s1)).
    destruct (PyStr.endswith "```" s1); [|lia].
    pose proof (CandidateMore.take_length (String.length s1 - 3) s1).
    unfold PyStr.drop_last in *. lia. }
  destruct (PyStr.startswith "```json" s) eqn:F; cbv iota.
  - pose proof (JsonFacts.drop_prefix_length _ _ F) as L1.
    change (String.length "```json") with 7%nat in L1.
    specialize (L2 (PyStr.drop 7 s)). split; [lia | intros _; lia].
  - specialize (L2 s). split; [lia | discriminate].
Qed.

(** The reply of the scenario: the raw output is the object, without the
    fences and the line ends. *)
Lemma raw_output_is_cleaned_reply_witness :
  App2.strip_fences fenced_pizza
  = PyStr.q "{'food_name':'Pizza','estimated_macronutrients_g':{'carbohydrates':80,'protein':20,'fat':30}}".
Proof.
  rewrite (proj1 (proj2 (raw_output_is_cleaned_reply fenced_pizza))
             (String PyStr.newline
                (PyStr.q "{'food_name':'Pizza','estimated_macronutrients_g':{'carbohydrates':80,'protein':20,'fat':30}}"
                 ++ String PyStr.newline "")) eq_refl).
  reflexivity.
Defined.

(** ** The analysis outcome *)

Module OutcomeMore.

Lemma normalize2_cases (s : string) :
  App2.normalize s = Ret (None, Some EmptyResponse, Some "")
  \/ (exists v,
        Json.loads (App2.json_candidate (App2.strip_fences s)) = Ret v
        /\ App2.normalize s = Ret (Some v, None, Some (App2.strip_fences s)))
  \/ (Json.loads (App2.json_candidate (App2.strip_fences s))
      = Raise JSONDecodeError
      /\ App2.normalize s
         = Ret (None, Some MalformedJson, Some (App2.strip_fences s))).
Proof.
  unfold App2.normalize.
  destruct (String.eqb s "") eqn:E.
  { apply String.eqb_eq in E; subst s. now left. }
  right.
  destruct (Json.loads (App2.json_candidate (App2.strip_fences s)))
    as [v | x] eqn:L.
  - left. exists v. split; reflexivity.
  - right. rewrite (CandidateMore.loads_raises_decode_error _ _ L).
    split; reflexivity.
Qed.

Lemma normalize1_cases (s : string) :
  App1.normalize s = Ret (None, Some EmptyResponse, None)
  \/ (exists v,
        Json.loads s = Ret v
        /\ App1.normalize s = Ret (Some v, None, None))
  \/ (exists c r, s = String c r
        /\ Json.loads s = Raise JSONDecodeError
        /\ App1.normalize s = Ret (None, Some MalformedJson, Some s)).
Proof.
  unfold App1.normalize.
  destruct s as [|c r]; [now left|]. right. simpl String.eqb.
  destruct (Json.loads (String c r)) as [v | x] eqn:L.
  - left. exists v. split; reflexivity.
  - right. rewrite (CandidateMore.loads_raises_decode_error _ _ L).
    exists c, r. repeat split; reflexivity.
Qed.

(** The reply of the endpoint, seen by both applications: no text to
    work on, or the text of the response, stripped. *)
Lemma process_response_cases (response_data : pyval) :
  (has_response_text response_data = false
   /\ App2.process_response response_data = Raise AttributeError
   /\ App1.process_response response_data = Raise AttributeError)
  \/ (has_response_text response_data = true
      /\ exists text,
           App2.process_response response_data
           = App2.normalize (PyStr.strip text)
           /\ App1.process_response response_data
              = App1.normalize (PyStr.strip text)).
Proof.
  unfold has_response_text, App2.process_response, App1.process_response,
    dict_get_default.
  destruct response_data as [| b | z | f | s | l | d];
    try (left; repeat split; reflexivity).
  destruct (dict_find d "response") as [[| b | z | f | s | l | d']|];
    try (left; repeat split; reflexivity);
    right; (split; [reflexivity|]); eexists; split; reflexivity.
Qed.

End OutcomeMore.

(** X7.  app2.py returns no raw output exactly when the failure is one of
    the transport or an unexpected one; app.py returns a raw output
    exactly with [MalformedJson], and then a non-empty one. *)
Theorem raw_output_availability (post : string -> transport)
    (image_bytes : string) :
  (snd (App2.analyze_image_with_ollama post image_bytes) = None <->
   exists err,
     snd (fst (App2.analyze_image_with_ollama post image_bytes)) = Some err
     /\ transport_failure err = true)
  /\ (snd (fst (App1.analyze_image_with_ollama post image_bytes))
      = Some MalformedJson <->
      exists c r,
        snd (App1.analyze_image_with_ollama post image_bytes)
        = Some (String c r))
  /\ (snd (fst (App1.analyze_image_with_ollama post image_bytes))
      <> Some MalformedJson ->
      snd (App1.analyze_image_with_ollama post image_bytes) = None).
Proof.
  unfold App2.analyze_image_with_ollama, App1.analyze_image_with_ollama.
  assert (T : forall e : analysis_error, transport_failure e = true ->
    (@None string = None <-> exists err, Some e = Some err
                                 /\ transport_failure err = true))
    by (intros e He; split; [intros _; now exists e | reflexivity]).
  assert (N : forall e : analysis_error, e <> MalformedJson ->
    (Some e = Some MalformedJson <->
     exists c r, @None string = Some (String c r)))
    by (intros e He; split; [congruence | intros [c [r H]]; discriminate]).
  destruct (post image_bytes) as [| | code | | response_data]; simpl.
  - split; [now apply T|]. split; [apply N; discriminate | reflexivity].
  - split; [now apply T|]. split; [apply N; discriminate | reflexivity].
  - split; [destruct (code =? 404); now apply T|].
    split; [apply N; discriminate | reflexivity].
  - split; [now apply T|]. split; [apply N; discriminate | reflexivity].
  - destruct (OutcomeMore.process_response_cases response_data)
      as [[_ [-> ->]] | [_ [text [-> ->]]]].
    { simpl. split; [now apply T|].
      split; [apply N; discriminate | reflexivity]. }
    split; [|split].
    + destruct (OutcomeMore.normalize2_cases (PyStr.strip text))
        as [-> | [[v [_ ->]] | [_ ->]]]; simpl;
        (split; [discriminate|]); intros [err [E F]];
        try discriminate E; injection E as <-; discriminate F.
    + destruct (OutcomeMore.normalize1_cases (PyStr.strip text))
        as [-> | [[v [_ ->]] | [c [r [-> [_ ->]]]]]]; simpl.
      * split; [discriminate | intros [c [r H]]; discriminate].
      * split; [discriminate | intros [c [r H]]; discriminate].
      * split; [intros _; now exists c, r | reflexivity].
    + destruct (OutcomeMore.normalize1_cases (PyStr.strip text))
        as [-> | [[v [_ ->]] | [c [r [_ [_ ->]]]]]]; simpl;
        try reflexivity. congruence.
Qed.

(** X8.  A reply that is no dict, or a dict in which the response is
    present and is no text, null included, makes both applications report
    an unexpected error, with no record and no raw output; a dict without
    the response makes them report an empty response instead. *)
Theorem reply_without_text_is_unexpected (post : string -> transport)
    (image_bytes : string) (response_data : pyval) :
  post image_bytes = Replied response_data ->
  (has_response_text response_data = false ->
   App2.analyze_image_with_ollama post image_bytes
   = (None, Some UnexpectedError, None)
   /\ App1.analyze_image_with_ollama post image_bytes
      = (None, Some UnexpectedError, None))
  /\ (forall d : list (string * pyval),
        response_data = PDict d ->
        dict_find d "response" = None ->
        App2.analyze_image_with_ollama post image_bytes
        = (None, Some EmptyResponse, Some "")
        /\ App1.analyze_image_with_ollama post image_bytes
           = (None, Some EmptyResponse, None)).
Proof.
  intros P.
  unfold App2.analyze_image_with_ollama, App1.analyze_image_with_ollama.
  rewrite P. split.
  - intros H.
    destruct (OutcomeMore.process_response_cases response_data)
      as [[_ [-> ->]] | [T _]]; [split; reflexivity | congruence].
  - intros d -> F.
    unfold App2.process_response, App1.process_response, dict_get_default.
    rewrite F. split; reflexivity.
Qed.

(** A null response, and a reply without the response. *)
Lemma reply_without_text_is_unexpected_witness :
  (App2.analyze_image_with_ollama
     (fun _ => Replied (PDict [("response", PNone)])) "image"
   = (None, Some UnexpectedError, None)
   /\ App1.analyze_image_with_ollama
        (fun _ => Replied (PDict [("response", PNone)])) "image"
      = (None, Some UnexpectedError, None))
  /\ (App2.analyze_image_with_ollama
        (fun _ => Replied (PDict [("done", PBool true)])) "image"
      = (None, Some EmptyResponse, Some "")
      /\ App1.analyze_image_with_ollama
           (fun _ => Replied (PDict [("done", PBool true)])) "image"
         = (None, Some EmptyResponse, None)).
Proof.
  split.
  - apply (proj1 (reply_without_text_is_unexpected
                    (fun _ => Replied (PDict [("response", PNone)])) "image"
                    (PDict [("response", PNone)]) eq_refl)).
    reflexivity.
  - apply (proj2 (reply_without_text_is_unexpected
                    (fun _ => Replied (PDict [("done", PBool true)])) "image"
                    (PDict [("done", PBool true)]) eq_refl)
             [("done", PBool true)]); reflexivity.
Defined.

(** ** What a parsed value says about the text *)

Module ParsedText.
Import PyStr StrFacts Json JsonFacts.

Lemma rest_refl (s : string) : exists p, s = p ++ s.
Proof. now exists "". Qed.

Lemma rest_trans (s r t : string) :
  (exists p, s = p ++ r) -> (exists q, r = q ++ t) -> exists p, s = p ++ t.
Proof.
  intros [p ->] [q ->]. exists (p ++ q). now rewrite append_assoc.
Qed.

Lemma rest_cons (c : ascii) (s r : string) :
  (exists p, s = p ++ r) -> exists p, String c s = p ++ r.
Proof. intros [p ->]. now exists (String c p). Qed.

Lemma rest_skip_ws (s : string) : exists p, s = p ++ skip_ws s.
Proof.
  destruct (lstrip_by_split json_ws s) as [x [E _]]. now exists x.
Qed.

Lemma rest_drop (n : nat) (s : string) : exists p, s = p ++ drop n s.
Proof. exists (take n s). apply take_drop. Qed.

Lemma scanstring_rest (n : nat) (s body rest : string) :
  (String.length s <= n)%nat ->
  scanstring s = Some (body, rest) ->
  exists p, s = p ++ rest.
Proof.
  revert s body rest; induction n as [|n IH]; intros s body rest Hn.
  - destruct s; [discriminate | simpl in Hn; lia].
  - destruct s as [|c r]; [discriminate|]. simpl in Hn.
    cbn [scanstring].
    destruct (Ascii.eqb c dquote).
    { intros E; injection E as _ <-. now exists (String c ""). }
    destruct (Ascii.eqb c "\").
    + destruct r as [|e r']; [discriminate|].
      assert (Plain :
        match unescape e with
        | Some d => prepend d (scanstring r')
        | None => None
        end = Some (body, rest) ->
        exists p, String c (String e r') = p ++ rest).
      { destruct (unescape e); [|discriminate].
        intros E. apply prepend_some in E as [b' E].
        apply IH in E; [|simpl in *; lia].
        now do 2 apply rest_cons. }
      destruct (Ascii.eqb e "u") eqn:Eu.
      * apply Ascii.eqb_eq in Eu; subst e.
        destruct r' as [|h1 [|h2 [|h3 [|h4 r'']]]]; try exact Plain.
        destruct (hex4 h1 h2 h3 h4); [|discriminate].
        destruct (_ <? _)%N; [|discriminate].
        intros E. apply prepend_some in E as [b' E].
        apply IH in E; [|simpl in *; lia].
        now do 6 apply rest_cons.
      * assert (e <> "u"%char) by now apply Ascii.eqb_neq.
        destruct e as [[|] [|] [|] [|] [|] [|] [|] [|]];
          try exact Plain; congruence.
    + destruct (_ <? _)%N; [discriminate|].
      intros E. apply prepend_some in E as [b' E].
      apply IH in E; [|simpl in *; lia].
      now apply rest_cons.
Qed.

Lemma read_plain_digits_rest (s : string) (acc : Z) (cnt : nat)
    (z : Z) (k : nat) (r : string) :
  read_plain_digits s acc cnt = (z, k, r) -> exists p, s = p ++ r.
Proof.
  revert acc cnt; induction s as [|c s IH]; intros acc cnt; simpl.
  - intros E; injection E as _ _ <-. apply rest_refl.
  - destruct (Builtins.is_digit c).
    + intros E. apply IH in E. now apply rest_cons.
    + intros E; injection E as _ _ <-. apply rest_refl.
Qed.

(** What [scan_number] gives is a number and a rest of the text. *)
Lemma scan_number_rest (s : string) (v : pyval) (r : string) :
  scan_number s = Some (v, r) ->
  Builtins.is_number v = true /\ exists p, s = p ++ r.
Proof.
  unfold scan_number.
  assert (Int : forall t ip r0,
    scan_int_part t = Some (ip, r0) -> exists p, t = p ++ r0).
  { intros t ip r0. unfold scan_int_part.
    destruct t as [|c t']; [discriminate|].
    assert (Run :
      (if Builtins.is_digit c
       then let '(z, _, r1) := read_plain_digits (String c t') 0 0 in
            Some (z, r1)
       else None) = Some (ip, r0) ->
      exists p, String c t' = p ++ r0).
    { destruct (Builtins.is_digit c); [|discriminate].
      destruct (read_plain_digits (String c t') 0 0) as [[z k] r1] eqn:R.
      intros E; injection E as _ <-.
      exact (read_plain_digits_rest _ _ _ _ _ _ R). }
    destruct (Ascii.eqb c "0") eqn:E0.
    - apply Ascii.eqb_eq in E0; subst c.
      intros E; injection E as _ <-. now exists "0".
    - assert (c <> "0"%char) by now apply Ascii.eqb_neq.
      destruct c as [[|] [|] [|] [|] [|] [|] [|] [|]];
        try exact Run; congruence. }
  assert (Frac : forall ip r0 m nf r1,
    scan_frac ip r0 = (m, nf, r1) -> exists p, r0 = p ++ r1).
  { intros ip r0 m nf r1. unfold scan_frac. destruct r0 as [|c r0'].
    - intros E; injection E as _ _ <-. apply rest_refl.
    - assert (Keep : (ip, 0%nat, String c r0') = (m, nf, r1) ->
                     exists p, String c r0' = p ++ r1)
        by (intros E; injection E as _ _ <-; apply rest_refl).
      destruct (Ascii.eqb c ".") eqn:Ec.
      + apply Ascii.eqb_eq in Ec; subst c.
        destruct (read_plain_digits r0' ip 0) as [[z k] t] eqn:R.
        apply read_plain_digits_rest in R.
        destruct k; [exact Keep|].
        intros E; injection E as _ _ <-. now apply rest_cons.
      + assert (c <> "."%char) by now apply Ascii.eqb_neq.
        destruct c as [[|] [|] [|] [|] [|] [|] [|] [|]];
          try exact Keep; congruence. }
  assert (Exp : forall r1 ex has r2,
    scan_exp r1 = (ex, has, r2) -> exists p, r1 = p ++ r2).
  { intros r1 ex has r2. unfold scan_exp. destruct r1 as [|c r1'].
    - intros E; injection E as _ _ <-. apply rest_refl.
    - destruct (Ascii.eqb c "e" || Ascii.eqb c "E")%bool;
        [|intros E; injection E as _ _ <-; apply rest_refl].
      assert (Sign : forall eneg t,
        (exists p, r1' = p ++ t) ->
        match read_plain_digits t 0 0 with
        | (_, O, _) => (0%Z, false, String c r1')
        | (e, S _, t') => (cond_Zopp eneg e, true, t')
        end = (ex, has, r2) ->
        exists p, String c r1' = p ++ r2).
      { intros eneg t Ht.
        destruct (read_plain_digits t 0 0) as [[z k] t'] eqn:R.
        apply read_plain_digits_rest in R.
        destruct k; intros E; injection E as _ _ <-;
          [apply rest_refl|].
        apply rest_cons. exact (rest_trans _ _ _ Ht R). }
      destruct r1' as [|d t]; [apply Sign, rest_refl|].
      destruct (Ascii.eqb d "-") eqn:Em;
        [apply Ascii.eqb_eq in Em; subst d; apply Sign;
         now exists "-"|].
      destruct (Ascii.eqb d "+") eqn:Ep;
        [apply Ascii.eqb_eq in Ep; subst d; apply Sign;
         now exists "+"|].
      assert (d <> "-"%char) by now apply Ascii.eqb_neq.
      assert (d <> "+"%char) by now apply Ascii.eqb_neq.
      destruct d as [[|] [|] [|] [|] [|] [|] [|] [|]];
        try (apply Sign, rest_refl); congruence. }
  assert (Body : forall neg t,
    (exists p, s = p ++ t) ->
    match scan_int_part t with
    | None => None
    | Some (ip, r0) =>
        let '(m, nf, r1) := scan_frac ip r0 in
        let '(ex, has_exp, r2) := scan_exp r1 in
        match nf, has_exp with
        | O, false => Some (PInt (cond_Zopp neg ip), r2)
        | _, _ =>
            Some (PFloat (PyFloat.of_decimal neg m (ex - Z.of_nat nf)), r2)
        end
    end = Some (v, r) ->
    Builtins.is_number v = true /\ exists p, s = p ++ r).
  { intros neg t Ht.
    destruct (scan_int_part t) as [[ip r0]|] eqn:I; [|discriminate].
    apply Int in I.
    destruct (scan_frac ip r0) as [[m nf] r1] eqn:F.
    apply Frac in F.
    destruct (scan_exp r1) as [[ex has] r2] eqn:X.
    apply Exp in X.
    pose proof (rest_trans _ _ _ (rest_trans _ _ _ (rest_trans _ _ _ Ht I) F)
                  X) as R.
    destruct nf; destruct has; intros E; injection E as <- <-;
      (split; [reflexivity | exact R]). }
  destruct s as [|c s']; [apply Body, rest_refl|].
  destruct (Ascii.eqb c "-") eqn:Em.
  - apply Ascii.eqb_eq in Em; subst c. apply Body. now exists "-".
  - assert (c <> "-"%char) by now apply Ascii.eqb_neq.
    destruct c as [[|] [|] [|] [|] [|] [|] [|] [|]];
      try (apply Body, rest_refl); congruence.
Qed.

(** Every value comes with a rest of the text.  Only a text that starts
    with an opening brace gives a dict, which ends on a closing brace;
    only the literal gives [None]. *)
Lemma scan_rest (n : nat) :
  (forall s v r, scan_once n s = Parsed (v, r) ->
     (exists p, s = p ++ r)
     /\ (Builtins.is_dict v = true ->
         exists body, s = object_text body ++ r)
     /\ (v = PNone -> s = "null" ++ r))
  /\ (forall s acc v r, object_loop n s acc = Parsed (v, r) ->
        Builtins.is_dict v = true /\ exists p, s = p ++ String "}" r)
  /\ (forall s acc v r, array_loop n s acc = Parsed (v, r) ->
        Builtins.is_list v = true /\ exists p, s = p ++ r).
Proof.
  induction n as [|n [IHs [IHo IHa]]];
    [repeat split; intros; simpl in *; discriminate|].
  split; [|split].
  - intros s v r. destruct s as [|c t]; cbn [scan_once]; [discriminate|].
    destruct (Ascii.eqb c dquote).
    { destruct (scanstring t) as [[b rest]|] eqn:S; [|discriminate].
      intros E; injection E as <- <-.
      apply (scanstring_rest _ _ _ _ (le_n _)) in S.
      split; [now apply rest_cons | split; discriminate]. }
    destruct (Ascii.eqb c "{") eqn:Ec.
    { apply Ascii.eqb_eq in Ec; subst c.
      destruct (rest_skip_ws t) as [w W].
      destruct (skip_ws t) as [|c1 r1]; [discriminate|].
      assert (Obj :
        Builtins.is_dict v = true ->
        (exists p, r1 = p ++ String "}" r) \/ (c1 = "}"%char /\ r1 = r) ->
        (exists p, String "{" t = p ++ r)
        /\ (Builtins.is_dict v = true ->
            exists body, String "{" t = object_text body ++ r)
        /\ (v = PNone -> String "{" t = "null" ++ r)).
      { intros D H.
        assert (B : exists body, String "{" t = object_text body ++ r).
        { destruct H as [[p ->] | [-> ->]].
          - exists (w ++ String c1 p). rewrite W. unfold object_text.
            simpl. f_equal. rewrite !append_assoc. reflexivity.
          - exists w. rewrite W. unfold object_text. simpl. f_equal.
            now rewrite append_assoc. }
        split; [|split; [intros _; exact B|]].
        - destruct B as [body ->]. now eexists.
        - intros ->. discriminate D. }
      destruct (Ascii.eqb c1 "}") eqn:E1.
      { apply Ascii.eqb_eq in E1. intros E; injection E as <- <-.
        apply Obj; [reflexivity | now right]. }
      destruct (Ascii.eqb c1 dquote); [|discriminate].
      intros O. apply IHo in O as [D O]. apply Obj; [exact D | now left]. }
    destruct (Ascii.eqb c "[").
    { assert (Arr : forall u,
        (exists p, t = p ++ u) ->
        Builtins.is_list v = true /\ (exists p, u = p ++ r) ->
        (exists p, String c t = p ++ r)
        /\ (Builtins.is_dict v = true ->
            exists body, String c t = object_text body ++ r)
        /\ (v = PNone -> String c t = "null" ++ r)).
      { intros u U [L R].
        split; [apply rest_cons; exact (rest_trans _ _ _ U R)|].
        split; [destruct v; discriminate | intros ->; discriminate L]. }
      destruct (rest_skip_ws t) as [w W].
      destruct (skip_ws t) as [|c1 r1].
      - intros A. apply IHa in A. apply (Arr ""); [now exists w | exact A].
      - destruct (Ascii.eqb c1 "]").
        + intros E; injection E as <- <-.
          apply (Arr r1); [|split; [reflexivity | apply rest_refl]].
          rewrite W. exists (w ++ String c1 "").
          now rewrite append_assoc.
        + intros A. apply IHa in A.
          apply (Arr (String c1 r1)); [now exists w | exact A]. }
    destruct (startswith "null" (String c t)) eqn:L0.
    { intros E; injection E as <- <-.
      split; [exact (rest_drop 4 (String c t))|].
      split; [discriminate | intros _].
      exact (startswith_split "null" _ L0). }
    destruct (startswith "true" (String c t));
      [intros E; injection E as <- <-;
       split; [exact (rest_drop 4 (String c t)) | split; discriminate]|].
    destruct (startswith "false" (String c t));
      [intros E; injection E as <- <-;
       split; [exact (rest_drop 5 (String c t)) | split; discriminate]|].
    destruct (scan_number (String c t)) as [[v0 rest]|] eqn:N.
    { intros E; injection E as <- <-.
      apply scan_number_rest in N as [Num R].
      split; [exact R|]. split; [destruct v0; discriminate|].
      intros ->; discriminate Num. }
    destruct (startswith "NaN" (String c t));
      [intros E; injection E as <- <-;
       split; [exact (rest_drop 3 (String c t)) | split; discriminate]|].
    destruct (startswith "Infinity" (String c t));
      [intros E; injection E as <- <-;
       split; [exact (rest_drop 8 (String c t)) | split; discriminate]|].
    destruct (startswith "-Infinity" (String c t));
      [intros E; injection E as <- <-;
       split; [exact (rest_drop 9 (String c t)) | split; discriminate]|].
    discriminate.
  - intros s acc v r. cbn [object_loop].
    destruct (scanstring s) as [[k r0]|] eqn:S; [|discriminate].
    apply (scanstring_rest _ _ _ _ (le_n _)) in S.
    pose proof (rest_skip_ws r0) as W.
    destruct (skip_ws r0) as [|c1 r1]; [discriminate|].
    destruct (Ascii.eqb c1 ":"); [|discriminate].
    pose proof (rest_skip_ws r1) as W1.
    destruct (scan_once n (skip_ws r1)) as [[v0 r2]| |] eqn:V;
      try discriminate.
    apply IHs in V as [V _].
    pose proof (rest_skip_ws r2) as W2.
    assert (R2 : exists p, s = p ++ r2).
    { apply (rest_trans _ _ _ S). apply (rest_trans _ _ _ W).
      apply rest_cons. exact (rest_trans _ _ _ W1 V). }
    destruct (skip_ws r2) as [|c2 r3]; [discriminate|].
    destruct (Ascii.eqb c2 "}") eqn:E2.
    { apply Ascii.eqb_eq in E2; subst c2.
      intros E; injection E as <- <-.
      split; [reflexivity | exact (rest_trans _ _ _ R2 W2)]. }
    destruct (Ascii.eqb c2 ","); [|discriminate].
    pose proof (rest_skip_ws r3) as W3.
    destruct (skip_ws r3) as [|c3 r4]; [discriminate|].
    destruct (Ascii.eqb c3 dquote); [|discriminate].
    intros O. apply IHo in O as [D O]. split; [exact D|].
    apply (rest_trans _ _ _ R2). apply (rest_trans _ _ _ W2).
    apply rest_cons. apply (rest_trans _ _ _ W3). now apply rest_cons.
  - intros s acc v r. cbn [array_loop].
    destruct (scan_once n s) as [[v0 r0]| |] eqn:V; try discriminate.
    apply IHs in V as [V _].
    pose proof (rest_skip_ws r0) as W.
    destruct (skip_ws r0) as [|c1 r1]; [discriminate|].
    destruct (Ascii.eqb c1 "]").
    { intros E; injection E as <- <-. split; [reflexivity|].
      apply (rest_trans _ _ _ V). apply (rest_trans _ _ _ W).
      now exists (String c1 ""). }
    destruct (Ascii.eqb c1 ","); [|discriminate].
    intros A. apply IHa in A as [D R]. split; [exact D|].
    apply (rest_trans _ _ _ V). apply (rest_trans _ _ _ W).
    apply rest_cons. exact (rest_trans _ _ _ (rest_skip_ws r1) R).
Qed.

(** The blanks of JSON are among those [strip] removes. *)
Lemma json_ws_is_space (c : ascii) : json_ws c = true -> is_space c = true.
Proof.
  destruct c as [[|] [|] [|] [|] [|] [|] [|] [|]];
    vm_compute; intros E; try reflexivity; discriminate E.
Qed.

Lemma all_in_weaken (p q : ascii -> bool) (s : string) :
  (forall c, p c = true -> q c = true) -> all_in p s -> all_in q s.
Proof.
  intros H; induction s as [|c s IH]; simpl; [tauto|].
  intros [Pc A]. split; [now apply H | now apply IH].
Qed.

Lemma length_zero_empty (s : string) : String.length s = 0%nat -> s = "".
Proof. destruct s; [reflexivity | discriminate]. Qed.

Lemma rstrip_by_blank (p : ascii -> bool) (w : string) :
  all_in p w -> rstrip_by p w = "".
Proof.
  induction w as [|c w IH]; simpl; [reflexivity|].
  intros [Pc A]. now rewrite (IH A), Pc.
Qed.

Lemma rstrip_by_append_blank (p : ascii -> bool) (a w : string) :
  all_in p w -> rstrip_by p (a ++ w) = rstrip_by p a.
Proof.
  intros A; induction a as [|c a IH]; simpl;
    [now apply rstrip_by_blank | now rewrite IH].
Qed.

(** A text that [strip] leaves as it is has no blank at either end. *)
Lemma stripped_ends (p : ascii -> bool) (s : string) :
  strip_by p s = s ->
  lstrip_by p s = s
  /\ forall a w, s = a ++ w -> all_in p w -> w = "".
Proof.
  intros E.
  assert (L : lstrip_by p s = s).
  { destruct (lstrip_by_split p s) as [x [X _]].
    pose proof (CandidateMore.rstrip_by_length p (lstrip_by p s)) as R.
    unfold strip_by in E. rewrite E in R.
    assert (Z0 : String.length x = 0%nat).
    { pose proof (f_equal String.length X) as F.
      rewrite length_append in F. lia. }
    apply length_zero_empty in Z0. subst x. now symmetry. }
  split; [exact L|].
  intros a w -> A. unfold strip_by in E. rewrite L in E.
  rewrite (rstrip_by_append_blank p a w A) in E.
  pose proof (CandidateMore.rstrip_by_length p a) as R.
  rewrite E, length_append in R.
  apply length_zero_empty. lia.
Qed.

(** On a text without blanks at its ends, [loads] gives a value only
    when the scan takes all of the text. *)
Lemma loads_stripped (s : string) (v : pyval) :
  strip s = s -> loads s = Ret v ->
  scan_once (fuel_for s) s = Parsed (v, "").
Proof.
  intros E. destruct (stripped_ends _ _ E) as [L T].
  unfold loads.
  assert (W : skip_ws s = s).
  { unfold skip_ws. destruct s as [|c t]; [reflexivity|].
    simpl in L |- *. destruct (is_space c) eqn:S.
    - pose proof (lstrip_by_length is_space t) as B.
      rewrite L in B. simpl in B. lia.
    - destruct (json_ws c) eqn:J; [|reflexivity].
      apply json_ws_is_space in J. congruence. }
  rewrite W.
  destruct (scan_once (fuel_for s) s) as [[v0 r]| |] eqn:O;
    try discriminate.
  destruct (skip_ws r) eqn:K; [|discriminate].
  intros V; injection V as <-.
  destruct (proj1 (scan_rest _) _ _ _ O) as [[p P] _].
  destruct (lstrip_by_split json_ws r) as [x [X A]].
  unfold skip_ws in K. rewrite K, CandidateMore.append_empty_r in X.
  subst x.
  rewrite (T p r P (all_in_weaken _ _ _ json_ws_is_space A)).
  reflexivity.
Qed.

(** A dict comes from an object text only. *)
Lemma loads_dict_object_text (s : string) (d : list (string * pyval)) :
  strip s = s -> loads s = Ret (PDict d) ->
  exists body, s = object_text body.
Proof.
  intros E L. apply (loads_stripped _ _ E) in L.
  destruct (proj1 (scan_rest _) _ _ _ L) as [_ [D _]].
  destruct (D eq_refl) as [body B]. exists body.
  now rewrite CandidateMore.append_empty_r in B.
Qed.

(** [None] comes from the literal only. *)
Lemma loads_none_text (s : string) :
  strip s = s -> loads s = Ret PNone -> s = "null".
Proof.
  intros E L. apply (loads_stripped _ _ E) in L.
  destruct (proj1 (scan_rest _) _ _ _ L) as [_ [_ N]].
  exact (N eq_refl).
Qed.

(** What an object text parses to, if it parses, is a dict. *)
Lemma loads_object_text_dict (body : string) (v : pyval) :
  loads (object_text body) = Ret v -> Builtins.is_dict v = true.
Proof.
  unfold loads.
  change (skip_ws (object_text body)) with (object_text body).
  destruct (scan_once _ _) as [[v0 r]| |] eqn:O; try discriminate.
  destruct (skip_ws r); [|discriminate].
  intros V; injection V as <-.
  unfold object_text in O. destruct (fuel_for _) as [|n]; [discriminate|].
  cbn [scan_once] in O.
  change (Ascii.eqb "{" dquote) with false in O.
  change (Ascii.eqb "{" "{") with true in O. cbv iota in O.
  destruct (skip_ws (body ++ "}")) as [|c1 r1]; [discriminate|].
  destruct (Ascii.eqb c1 "}"); [now injection O as <- _|].
  destruct (Ascii.eqb c1 dquote); [|discriminate].
  exact (proj1 (proj1 (proj2 (scan_rest _)) _ _ _ _ O)).
Qed.

Lemma strip_fences_stripped (s : string) :
  strip (App2.strip_fences s) = App2.strip_fences s.
Proof. unfold App2.strip_fences, strip. apply CandidateMore.strip_by_settled. Qed.

Lemma strip_stripped (s : string) : strip (strip s) = strip s.
Proof. apply CandidateMore.strip_by_settled. Qed.

End ParsedText.

(** ** The two applications on one reply *)

Module ReplyMore.
Import PyStr StrFacts.

(** Both applications, over the text of the reply. *)
Lemma analyze_with_text (post : string -> transport) (image_bytes s : string) :
  reply_text (post image_bytes) = Some s ->
  strip s = s
  /\ App2.analyze_image_with_ollama post image_bytes
     = match App2.normalize s with
       | Ret a => a
       | Raise _ => (None, Some UnexpectedError, None)
       end
  /\ App1.analyze_image_with_ollama post image_bytes
     = match App1.normalize s with
       | Ret a => a
       | Raise _ => (None, Some UnexpectedError, None)
       end.
Proof.
  unfold reply_text, App2.analyze_image_with_ollama,
    App1.analyze_image_with_ollama, App2.process_response,
    App1.process_response.
  destruct (post image_bytes) as [| | code | | response_data];
    try discriminate.
  destruct response_data as [| b | z | f | t | l | d]; try discriminate.
  destruct (dict_get_default d "response" (PStr "")); try discriminate.
  intros E; injection E as <-.
  split; [apply ParsedText.strip_stripped | split; reflexivity].
Qed.

Lemma analyze_without_text (post : string -> transport)
    (image_bytes : string) :
  reply_text (post image_bytes) = None ->
  exists e2 e1,
    App2.analyze_image_with_ollama post image_bytes = (None, Some e2, None)
    /\ App1.analyze_image_with_ollama post image_bytes
       = (None, Some e1, None).
Proof.
  unfold reply_text, App2.analyze_image_with_ollama,
    App1.analyze_image_with_ollama, App2.process_response,
    App1.process_response.
  destruct (post image_bytes) as [| | code | | response_data];
    try (intros _; do 2 eexists; split; reflexivity).
  - intros _. destruct (code =? 404); do 2 eexists; split; reflexivity.
  - destruct response_data as [| b | z | f | t | l | d];
      try (intros _; do 2 eexists; split; reflexivity).
    destruct (dict_get_default d "response" (PStr ""));
      try (intros _; do 2 eexists; split; reflexivity).
    discriminate.
Qed.

Lemma no_fence_after_brace (a : string) :
  endswith "```" (a ++ "}") = false.
Proof.
  destruct (endswith "```" (a ++ "}")) eqn:E; [|reflexivity].
  apply endswith_split in E.
  set (y := take _ _) in E.
  apply (suffix_cut "`" y a "}" "``") in E;
    [|simpl; intros [H|[]]; discriminate H].
  destruct E as [b' [B _]].
  destruct b' as [|c1 [|c2 [|c3 b']]]; discriminate B.
Qed.

(** The clean-up leaves an object text without blanks around it as it
    is. *)
Lemma strip_fences_object_text (body : string) :
  strip (object_text body) = object_text body ->
  App2.strip_fences (object_text body) = object_text body.
Proof.
  intros E. unfold App2.strip_fences.
  change (startswith "```json" (object_text body)) with false. cbv iota.
  change (object_text body) with (String "{" body ++ "}") at 1.
  rewrite no_fence_after_brace. exact E.
Qed.

Lemma candidate_object_text (body : string) :
  App2.json_candidate (object_text body) = object_text body.
Proof.
  apply Extraction.wrapped_candidate.
  pose proof (Extraction.wrapped_intro "" body "") as W.
  simpl in W. rewrite CandidateMore.append_empty_r in W.
  apply W; simpl; tauto.
Qed.

Lemma rstrip_by_kept (p : ascii -> bool) (a : string) (c : ascii) :
  p c = false -> rstrip_by p (a ++ String c "") = a ++ String c "".
Proof.
  intros Pc. induction a as [|d a IH]; simpl; [now rewrite Pc|].
  rewrite IH. destruct a; reflexivity.
Qed.

(** An object text between two line ends is what [strip] leaves. *)
Lemma strip_object_lines (body : string) :
  strip (String newline (object_text body ++ String newline ""))
  = object_text body.
Proof.
  unfold strip, strip_by.
  change (lstrip_by is_space
            (String newline (object_text body ++ String newline "")))
    with (object_text body ++ String newline "").
  rewrite ParsedText.rstrip_by_append_blank by (simpl; tauto).
  unfold object_text.
  change (String "{" (body ++ "}")) with (String "{" body ++ "}").
  apply rstrip_by_kept. reflexivity.
Qed.

End ReplyMore.

(** C9.  The two normalizers differ on an object in a [```json] fence.
    The strict parser refuses the text as it stands, so app.py reports it
    as malformed and returns it as the raw output; app2.py removes the
    fence and returns what the object parses to: for the reply of the
    scenario, the pizza record. *)
Theorem normalizers_differ_on_fenced_object :
  PyStr.startswith "```json" fenced_pizza = true
  /\ Json.loads fenced_pizza = Raise JSONDecodeError
  /\ App1.process_response (PDict [("response", PStr fenced_pizza)])
     = Ret (None, Some MalformedJson, Some fenced_pizza)
  /\ App2.process_response (PDict [("response", PStr fenced_pizza)])
     = Ret (Some pizza_record, None,
            Some (PyStr.q "{'food_name':'Pizza','estimated_macronutrients_g':{'carbohydrates':80,'protein':20,'fat':30}}"))
  /\ (forall (body : string) (v : pyval),
        Json.loads (object_text body) = Ret v ->
        App1.normalize
          ("```json"
           ++ String PyStr.newline (object_text body ++ String PyStr.newline "")
           ++ "```")
        = Ret (None, Some MalformedJson,
               Some ("```json"
                     ++ String PyStr.newline
                          (object_text body ++ String PyStr.newline "")
                     ++ "```"))
        /\ App2.normalize
             ("```json"
              ++ String PyStr.newline
                   (object_text body ++ String PyStr.newline "")
              ++ "```")
           = Ret (Some v, None, Some (object_text body))).
Proof.
  split; [reflexivity|]. split; [vm_compute; reflexivity|].
  split; [vm_compute; reflexivity|]. split; [vm_compute; reflexivity|].
  intros body v L. split.
  - reflexivity.
  - unfold App2.normalize.
    change (String.eqb _ "") with false. cbv iota.
    rewrite CandidateMore.strip_fences_fenced, ReplyMore.strip_object_lines.
    rewrite ReplyMore.candidate_object_text, L. reflexivity.
Qed.

(** X9.  Whatever the endpoint does, each application returns an error
    without a value, or no error with the value parsed from the reply:
    never both.  The value is [None], so that the caller is left with
    neither a record nor an error, exactly when the text parsed is the
    literal [null]. *)
Theorem analysis_gives_error_or_parsed_value (post : string -> transport)
    (image_bytes : string) :
  ((exists err raw,
      App2.analyze_image_with_ollama post image_bytes = (None, Some err, raw))
   \/ (exists v raw,
         App2.analyze_image_with_ollama post image_bytes
         = (Some v, None, Some raw)
         /\ Json.loads (App2.json_candidate raw) = Ret v
         /\ (v = PNone <-> raw = "null")))
  /\ ((exists err raw,
         App1.analyze_image_with_ollama post image_bytes
         = (None, Some err, raw))
      \/ (exists v s,
            App1.analyze_image_with_ollama post image_bytes
            = (Some v, None, None)
            /\ reply_text (post image_bytes) = Some s
            /\ Json.loads s = Ret v
            /\ (v = PNone <-> s = "null"))).
Proof.
  destruct (reply_text (post image_bytes)) as [s|] eqn:T.
  2:{ destruct (ReplyMore.analyze_without_text _ _ T) as [e2 [e1 [-> ->]]].
      split; left; now do 2 eexists. }
  destruct (ReplyMore.analyze_with_text _ _ _ T) as [S [-> ->]].
  split.
  - destruct (OutcomeMore.normalize2_cases s) as [-> | [[v [L ->]] | [_ ->]]];
      [left; now do 2 eexists | | left; now do 2 eexists].
    right. exists v, (App2.strip_fences s).
    split; [reflexivity | split; [exact L|]].
    split.
    + intros ->.
      destruct (CandidateMore.candidate_cases (App2.strip_fences s))
        as [[_ C] | [_ [body W]]].
      * rewrite C in L.
        exact (ParsedText.loads_none_text _
                 (ParsedText.strip_fences_stripped s) L).
      * rewrite (Extraction.wrapped_candidate _ _ W) in L.
        apply ParsedText.loads_object_text_dict in L. discriminate L.
    + intros R. rewrite R in L. vm_compute in L. now injection L.
  - destruct (OutcomeMore.normalize1_cases s)
      as [-> | [[v [L ->]] | [c [r [_ [_ ->]]]]]];
      [left; now do 2 eexists | | left; now do 2 eexists].
    right. exists v, s. repeat split; try assumption.
    + intros ->. exact (ParsedText.loads_none_text _ S L).
    + intros ->. vm_compute in L. now injection L.
Qed.

(** X10.  A dict that app.py returns as the record comes from a reply that
    is an object text, and app2.py returns the same dict for it, with the
    text as the raw output: app2.py loses no record of this kind. *)
Theorem dict_record_kept_by_app2 (post : string -> transport)
    (image_bytes : string) (d : list (string * pyval)) :
  fst (fst (App1.analyze_image_with_ollama post image_bytes))
  = Some (PDict d) ->
  exists body,
    reply_text (post image_bytes) = Some (object_text body)
    /\ App2.analyze_image_with_ollama post image_bytes
       = (Some (PDict d), None, Some (object_text body)).
Proof.
  destruct (reply_text (post image_bytes)) as [s|] eqn:T.
  2:{ destruct (ReplyMore.analyze_without_text _ _ T) as [e2 [e1 [_ ->]]].
      discriminate. }
  destruct (ReplyMore.analyze_with_text _ _ _ T) as [S [-> ->]].
  destruct (OutcomeMore.normalize1_cases s)
    as [-> | [[v [L ->]] | [c [r [_ [_ ->]]]]]]; try discriminate.
  simpl. intros E; injection E as ->.
  destruct (ParsedText.loads_dict_object_text _ _ S L) as [body ->].
  exists body. split; [reflexivity|].
  unfold App2.normalize. simpl String.eqb. cbv iota.
  rewrite (ReplyMore.strip_fences_object_text _ S),
    ReplyMore.candidate_object_text, L.
  reflexivity.
Qed.

Lemma dict_record_kept_by_app2_witness :
  fst (fst (App1.analyze_image_with_ollama
              (fun _ => Replied (PDict [("response",
                 PStr (PyStr.q " {'food_name':'Pizza'} "))])) "image"))
  = Some (PDict [("food_name", PStr "Pizza")])
  /\ exists body,
       reply_text (Replied (PDict [("response",
                     PStr (PyStr.q " {'food_name':'Pizza'} "))]))
       = Some (object_text body)
       /\ App2.analyze_image_with_ollama
            (fun _ => Replied (PDict [("response",
               PStr (PyStr.q " {'food_name':'Pizza'} "))])) "image"
          = (Some (PDict [("food_name", PStr "Pizza")]), None,
             Some (object_text body)).
Proof.
  split; [reflexivity|].
  apply (dict_record_kept_by_app2
           (fun _ => Replied (PDict [("response",
              PStr (PyStr.q " {'food_name':'Pizza'} "))])) "image").
  reflexivity.
Defined.

(** X11.  When the cleaned reply has an opening brace and a closing one
    after it, the response processing of app2.py returns a dict or
    reports malformed JSON: every other kind of value, such as a list of
    objects, is lost. *)
Theorem braced_reply_gives_dict_or_malformed (s : string) :
  brace_pair (App2.strip_fences s) = true ->
  (exists d,
     App2.normalize s
     = Ret (Some (PDict d), None, Some (App2.strip_fences s)))
  \/ App2.normalize s
     = Ret (None, Some MalformedJson, Some (App2.strip_fences s)).
Proof.
  intros B.
  destruct (OutcomeMore.normalize2_cases s) as [E | [[v [L ->]] | [_ ->]]];
    [| |now right].
  - unfold App2.normalize in E.
    destruct (String.eqb s "") eqn:Z.
    + apply String.eqb_eq in Z; subst s. vm_compute in B. discriminate B.
    + destruct (Json.loads _) as [v|x]; [|destruct x]; simpl in E;
        discriminate E.
  - left.
    destruct (CandidateMore.candidate_cases (App2.strip_fences s))
      as [[N _] | [_ [body W]]]; [congruence|].
    rewrite (Extraction.wrapped_candidate _ _ W) in L.
    apply ParsedText.loads_object_text_dict in L.
    destruct v; try discriminate L. now eexists.
Qed.

Lemma braced_reply_gives_dict_or_malformed_witness :
  brace_pair (App2.strip_fences (PyStr.q "[{'a':1},{'b':2}]")) = true
  /\ App1.normalize (PyStr.q "[{'a':1},{'b':2}]")
     = Ret (Some (PList [PDict [("a", PInt 1)]; PDict [("b", PInt 2)]]),
            None, None)
  /\ ((exists d,
         App2.normalize (PyStr.q "[{'a':1},{'b':2}]")
         = Ret (Some (PDict d), None,
                Some (App2.strip_fences (PyStr.q "[{'a':1},{'b':2}]"))))
      \/ App2.normalize (PyStr.q "[{'a':1},{'b':2}]")
         = Ret (None, Some MalformedJson,
                Some (App2.strip_fences (PyStr.q "[{'a':1},{'b':2}]")))).
Proof.
  split; [reflexivity|]. split; [reflexivity|].
  apply braced_reply_gives_dict_or_malformed. reflexivity.
Defined.

(** ** The session over many runs *)

Module SessionMore.
Import App2.

Lemma rerun_new (analyze : string -> analysis) (st : session_state)
    (u : uploaded_file) :
  same_id (file_id u) (uploaded_file_id st) = false ->
  rerun analyze st (Some u)
  = (state_of_upload u (fst (analysis_attempt analyze (file_value u))),
     snd (analysis_attempt analyze (file_value u))).
Proof.
  intros H. unfold rerun, on_upload. rewrite H. simpl.
  unfold analysis_attempt, state_of_upload.
  destruct (file_value u) as [|c bytes]; [reflexivity|].
  destruct (analyze (String c bytes)) as [[r e] raw]. reflexivity.
Qed.

Lemma rerun_same (analyze : string -> analysis) (st : session_state)
    (u : uploaded_file) :
  same_id (file_id u) (uploaded_file_id st) = true ->
  rerun analyze st (Some u) = (st, []).
Proof. intros H. unfold rerun, on_upload. now rewrite H. Qed.

Lemma same_id_cached (id : string) (cached : option string) :
  same_id id cached = true <-> cached = Some id.
Proof.
  unfold same_id. destruct cached as [c|]; [|split; discriminate].
  rewrite String.eqb_eq. split; [now intros -> | now intros [= ->]].
Qed.

(** After a run with an upload, the cached identifier is that of the
    upload. *)
Lemma rerun_caches_id (analyze : string -> analysis) (st : session_state)
    (uploaded : option uploaded_file) :
  uploaded_file_id (fst (rerun analyze st uploaded))
  = match uploaded with
    | Some u => Some (file_id u)
    | None => uploaded_file_id st
    end.
Proof.
  destruct uploaded as [u|]; [|reflexivity].
  destruct (same_id (file_id u) (uploaded_file_id st)) eqn:H.
  - rewrite (rerun_same _ _ _ H). simpl. now apply same_id_cached.
  - rewrite (rerun_new _ _ _ H). reflexivity.
Qed.

Lemma runs_step (analyze : string -> analysis) (st : session_state)
    (uploaded : option uploaded_file)
    (rest : list (option uploaded_file)) :
  Pages.runs analyze st (uploaded :: rest)
  = (fst (Pages.runs analyze (fst (rerun analyze st uploaded)) rest),
     (snd (rerun analyze st uploaded)
      ++ snd (Pages.runs analyze (fst (rerun analyze st uploaded)) rest))%list).
Proof.
  cbn [Pages.runs]. destruct (rerun analyze st uploaded) as [st1 c1].
  simpl. destruct (Pages.runs analyze st1 rest). reflexivity.
Qed.

(** The images sent by an analysis attempt: none, or the bytes. *)
Lemma attempt_calls (analyze : string -> analysis) (bytes : string) :
  snd (analysis_attempt analyze bytes)
  = match bytes with EmptyString => [] | _ => [bytes] end.
Proof. destruct bytes; reflexivity. Qed.

Lemma runs_coherent (analyze : string -> analysis)
    (uploads : list (option uploaded_file)) :
  forall st,
    coherent analyze st ->
    coherent analyze (fst (Pages.runs analyze st uploads))
    /\ (List.length (snd (Pages.runs analyze st uploads)) <= List.length uploads)%nat
    /\ Forall (fun bytes =>
                 bytes <> ""
                 /\ exists u, In (Some u) uploads /\ file_value u = bytes)
         (snd (Pages.runs analyze st uploads)).
Proof.
  induction uploads as [|uploaded rest IH]; intros st C.
  - simpl. split; [exact C | split; [lia | constructor]].
  - rewrite runs_step.
    assert (Step :
      coherent analyze (fst (rerun analyze st uploaded))
      /\ (List.length (snd (rerun analyze st uploaded)) <= 1)%nat
      /\ Forall (fun bytes =>
                   bytes <> ""
                   /\ exists u, uploaded = Some u /\ file_value u = bytes)
           (snd (rerun analyze st uploaded))).
    { destruct uploaded as [u|];
        [|split; [exact C | split; [simpl; lia | constructor]]].
      destruct (same_id (file_id u) (uploaded_file_id st)) eqn:H.
      - rewrite (rerun_same _ _ _ H).
        split; [exact C | split; [simpl; lia | constructor]].
      - rewrite (rerun_new _ _ _ H). cbn [fst snd].
        split; [right; now exists u|].
        rewrite attempt_calls.
        destruct (file_value u) as [|c bytes] eqn:V;
          [split; [simpl; lia | constructor]|].
        split; [simpl; lia|].
        constructor; [|constructor].
        split; [discriminate | now exists u]. }
    destruct Step as [C1 [L1 F1]].
    destruct (IH _ C1) as [C2 [L2 F2]].
    cbn [fst snd]. split; [exact C2|].
    split; [rewrite length_app; simpl; lia|].
    apply Forall_app. split.
    + eapply Forall_impl; [|exact F1].
      intros b [N [u [-> V]]]. split; [exact N|].
      exists u. split; [now left | exact V].
    + eapply Forall_impl; [|exact F2].
      intros b [N [u [I V]]]. split; [exact N|].
      exists u. split; [now right | exact V].
Qed.

Lemma runs_initial (analyze : string -> analysis)
    (uploads : list (option uploaded_file)) :
  forall st,
    fst (Pages.runs analyze st uploads) = initial_state <->
    st = initial_state /\ Forall (fun uploaded => uploaded = None) uploads.
Proof.
  induction uploads as [|uploaded rest IH]; intros st.
  - simpl. split; [intros ->; split; [reflexivity | constructor] | tauto].
  - rewrite runs_step. cbn [fst]. rewrite IH. split.
    + intros [E F]. pose proof (rerun_caches_id analyze st uploaded) as I.
      rewrite E in I. destruct uploaded as [u|]; [discriminate I|].
      split; [exact E | now constructor].
    + intros [-> F]. inversion F as [|x l X F']; subst.
      split; [reflexivity | exact F'].
Qed.

End SessionMore.

(** X12.  However many times the script runs, and whatever is uploaded,
    the session either caches nothing, which is so exactly when no run had
    an upload, or holds the identifier and the bytes of one upload with
    the outcome of the analysis of these bytes.  There is at most one
    analysis call per run, each for the non-empty bytes of an upload. *)
Theorem session_holds_one_upload (analyze : string -> analysis)
    (uploads : list (option App2.uploaded_file)) :
  coherent analyze (fst (Pages.runs analyze App2.initial_state uploads))
  /\ (fst (Pages.runs analyze App2.initial_state uploads)
      = App2.initial_state <->
      Forall (fun uploaded => uploaded = None) uploads)
  /\ (List.length (snd (Pages.runs analyze App2.initial_state uploads))
      <= List.length uploads)%nat
  /\ Forall (fun bytes =>
               bytes <> ""
               /\ exists u, In (Some u) uploads
                            /\ App2.file_value u = bytes)
       (snd (Pages.runs analyze App2.initial_state uploads)).
Proof.
  destruct (SessionMore.runs_coherent analyze uploads App2.initial_state)
    as [C [L F]]; [now left|].
  split; [exact C|]. split; [|split; [exact L | exact F]].
  rewrite SessionMore.runs_initial. tauto.
Qed.

(** X13.  After a run with an upload, taking the file away and uploading
    a file of the same name and byte length, whatever its bytes, changes
    nothing and sends nothing: the session keeps the outcome of the first
    file, a failure included. *)
Theorem same_name_and_size_reuses_outcome (analyze : string -> analysis)
    (st : App2.session_state) (u u' : App2.uploaded_file) :
  App2.file_name u = App2.file_name u' ->
  App2.file_size u = App2.file_size u' ->
  Pages.runs analyze st [Some u; None; Some u']
  = Pages.runs analyze st [Some u].
Proof.
  intros En Es.
  assert (I : App2.file_id u = App2.file_id u')
    by (apply Session.file_id_inj; now split).
  rewrite !SessionMore.runs_step. cbn [Pages.runs fst snd].
  pose proof (SessionMore.rerun_caches_id analyze st (Some u)) as C.
  simpl in C.
  assert (R : App2.rerun analyze (fst (App2.rerun analyze st (Some u))) None
              = (fst (App2.rerun analyze st (Some u)), [])) by reflexivity.
  rewrite R. cbn [fst snd].
  rewrite (SessionMore.rerun_same analyze _ u');
    [reflexivity|].
  apply SessionMore.same_id_cached. now rewrite C, I.
Qed.

Lemma same_name_and_size_reuses_outcome_witness :
  Pages.runs (fun _ => (None, Some Timeout, None)) App2.initial_state
    [Some {| App2.file_name := "a.png"; App2.file_size := 3;
             App2.file_value := "abc" |};
     None;
     Some {| App2.file_name := "a.png"; App2.file_size := 3;
             App2.file_value := "xyz" |}]
  = Pages.runs (fun _ => (None, Some Timeout, None)) App2.initial_state
      [Some {| App2.file_name := "a.png"; App2.file_size := 3;
               App2.file_value := "abc" |}].
Proof.
  apply same_name_and_size_reuses_outcome; reflexivity.
Defined.

(** ** What is displayed *)

Module PagesMore.
Import PyStr StrFacts Pages.

(** When each application returns a value: the reply has a text, and the
    text it hands to the parser is accepted. *)
Lemma analyze2_value (post : string -> transport) (image_bytes : string)
    (v : pyval) (raw : option string) :
  App2.analyze_image_with_ollama post image_bytes = (Some v, None, raw) <->
  exists s,
    reply_text (post image_bytes) = Some s
    /\ Json.loads (App2.json_candidate (App2.strip_fences s)) = Ret v
    /\ raw = Some (App2.strip_fences s).
Proof.
  destruct (reply_text (post image_bytes)) as [s|] eqn:T.
  2:{ destruct (ReplyMore.analyze_without_text _ _ T) as [e2 [e1 [-> _]]].
      split; [discriminate | intros [s [E _]]; discriminate E]. }
  destruct (ReplyMore.analyze_with_text _ _ _ T) as [_ [-> _]].
  split.
  - destruct (OutcomeMore.normalize2_cases s) as [-> | [[w [L ->]] | [_ ->]]];
      try discriminate.
    intros E; injection E as <- <-. now exists s.
  - intros [s' [E [L ->]]]. injection E as <-.
    unfold App2.normalize. destruct (String.eqb s "") eqn:Z.
    + apply String.eqb_eq in Z; subst s. vm_compute in L. discriminate L.
    + now rewrite L.
Qed.

Lemma analyze1_value (post : string -> transport) (image_bytes : string)
    (v : pyval) (raw : option string) :
  App1.analyze_image_with_ollama post image_bytes = (Some v, None, raw) <->
  exists s,
    reply_text (post image_bytes) = Some s
    /\ Json.loads s = Ret v /\ raw = None.
Proof.
  destruct (reply_text (post image_bytes)) as [s|] eqn:T.
  2:{ destruct (ReplyMore.analyze_without_text _ _ T) as [e2 [e1 [_ ->]]].
      split; [discriminate | intros [s [E _]]; discriminate E]. }
  destruct (ReplyMore.analyze_with_text _ _ _ T) as [_ [_ ->]].
  split.
  - destruct (OutcomeMore.normalize1_cases s)
      as [-> | [[w [L ->]] | [c [r [_ [_ ->]]]]]]; try discriminate.
    intros E; injection E as <- <-. now exists s.
  - intros [s' [E [L ->]]]. injection E as <-.
    unfold App1.normalize. destruct (String.eqb s "") eqn:Z.
    + apply String.eqb_eq in Z; subst s. vm_compute in L. discriminate L.
    + now rewrite L.
Qed.

(** The outcomes of app2.py: an error that is not the internal one, with
    a non-empty raw output only for malformed JSON, or a value. *)
Lemma analyze2_shape (post : string -> transport) (image_bytes : string) :
  (exists err raw,
     App2.analyze_image_with_ollama post image_bytes = (None, Some err, raw)
     /\ err <> InternalError
     /\ forall c r, raw = Some (String c r) -> err = MalformedJson)
  \/ exists v raw,
       App2.analyze_image_with_ollama post image_bytes
       = (Some v, None, Some raw).
Proof.
  destruct (reply_text (post image_bytes)) as [s|] eqn:T.
  - destruct (ReplyMore.analyze_with_text _ _ _ T) as [_ [-> _]].
    destruct (OutcomeMore.normalize2_cases s) as [-> | [[w [L ->]] | [_ ->]]].
    + left. do 2 eexists. split; [reflexivity|].
      split; [discriminate | intros c r E; discriminate E].
    + right. now do 2 eexists.
    + left. do 2 eexists. split; [reflexivity|].
      split; [discriminate | reflexivity].
  - left. revert T.
    unfold reply_text, App2.analyze_image_with_ollama,
      App2.process_response.
    assert (F : forall e : analysis_error, e <> InternalError ->
      exists err raw,
        (@None pyval, Some e, @None string) = (None, Some err, raw)
        /\ err <> InternalError
        /\ forall c r, raw = Some (String c r) -> err = MalformedJson).
    { intros e He. exists e, None. split; [reflexivity|].
      split; [exact He | intros c r E; discriminate E]. }
    destruct (post image_bytes) as [| | code | | response_data];
      try (intros _; apply F; discriminate).
    + intros _. destruct (code =? 404); apply F; discriminate.
    + destruct response_data as [| b | z | f | t | l | d];
        try (intros _; apply F; discriminate).
      destruct (dict_get_default d "response" (PStr ""));
        try (intros _; apply F; discriminate).
      discriminate.
Qed.

Lemma file_id_nonempty (u : App2.uploaded_file) :
  exists c r, App2.file_id u = String c r.
Proof.
  unfold App2.file_id. destruct (App2.file_name u); simpl; now do 2 eexists.
Qed.

(** The page of a state made of one upload and of an outcome. *)
Lemma display_of_upload (u : App2.uploaded_file) (a : analysis) :
  display_area (state_of_upload u a)
  = match App2.file_value u with
    | EmptyString => page_blank
    | _ =>
        match a with
        | (_, Some err, raw) =>
            page_error err
              match raw with
              | Some ((String _ _) as t) => Some t
              | _ => None
              end
        | (Some data, None, _) =>
            if truthy data then page_results data else page_awaiting
        | (None, None, _) => page_awaiting
        end
    end.
Proof.
  unfold display_area, state_of_upload. cbn [App2.image_bytes
    App2.error_message App2.raw_output App2.analysis_result
    App2.uploaded_file_id].
  destruct (file_id_nonempty u) as [c [r ->]].
  destruct (App2.file_value u); [reflexivity|].
  destruct a as [[[d|] [e|]] raw]; reflexivity.
Qed.

End PagesMore.

(** X14.  What app2.py shows after the run that takes a new upload.  An
    empty file gives a blank display area: the internal error stored for it
    is never shown.  The notice that results are awaited stays exactly when
    the text handed to the parser is a JSON value that counts as false,
    such as an empty object; the result tabs come exactly with a value that
    counts as true.  An error page shows a raw output only for malformed
    JSON. *)
Theorem page_after_new_upload (post : string -> transport)
    (st : App2.session_state) (u : App2.uploaded_file) :
  App2.same_id (App2.file_id u) (App2.uploaded_file_id st) = false ->
  (Pages.display_area
     (fst (App2.rerun (App2.analyze_image_with_ollama post) st (Some u)))
   = Pages.page_blank <-> App2.file_value u = "")
  /\ (Pages.display_area
        (fst (App2.rerun (App2.analyze_image_with_ollama post) st (Some u)))
      = Pages.page_awaiting <->
      App2.file_value u <> ""
      /\ exists s v,
           reply_text (post (App2.file_value u)) = Some s
           /\ Json.loads (App2.json_candidate (App2.strip_fences s)) = Ret v
           /\ Pages.truthy v = false)
  /\ (forall data,
        Pages.display_area
          (fst (App2.rerun (App2.analyze_image_with_ollama post) st (Some u)))
        = Pages.page_results data <->
        App2.file_value u <> ""
        /\ Pages.truthy data = true
        /\ exists s,
             reply_text (post (App2.file_value u)) = Some s
             /\ Json.loads (App2.json_candidate (App2.strip_fences s))
                = Ret data)
  /\ (forall err shown,
        Pages.display_area
          (fst (App2.rerun (App2.analyze_image_with_ollama post) st (Some u)))
        = Pages.page_error err shown ->
        err <> InternalError
        /\ snd (fst (App2.analyze_image_with_ollama post (App2.file_value u)))
           = Some err
        /\ forall raw, shown = Some raw -> err = MalformedJson /\ raw <> "").
Proof.
  intros H. rewrite (SessionMore.rerun_new _ _ _ H). cbn [fst].
  rewrite PagesMore.display_of_upload. unfold analysis_attempt.
  destruct (App2.file_value u) as [|c bytes] eqn:V.
  { split; [tauto|]. split; [|split].
    - split; [discriminate | intros [N _]; congruence].
    - intros data. split; [discriminate | intros [N _]; congruence].
    - intros err shown E; discriminate E. }
  cbn [fst].
  set (b := String c bytes).
  assert (Nb : b <> "") by discriminate.
  pose proof (PagesMore.analyze2_value post b) as Val.
  destruct (PagesMore.analyze2_shape post b)
    as [[err [raw [A [NI R]]]] | [v [raw A]]]; rewrite A in *.
  - split; [split; [discriminate | congruence]|]. split; [|split].
    + split; [discriminate|].
      intros [_ [s [v [T [L _]]]]].
      assert (X : (@None pyval, Some err, raw)
                  = (Some v, None, Some (App2.strip_fences s)))
        by (apply Val; now exists s).
      discriminate X.
    + intros data. split; [discriminate|].
      intros [_ [_ [s [T L]]]].
      assert (X : (@None pyval, Some err, raw)
                  = (Some data, None, Some (App2.strip_fences s)))
        by (apply Val; now exists s).
      discriminate X.
    + intros err' shown E. injection E as <- <-.
      split; [exact NI|]. split; [reflexivity|].
      intros t Et. destruct raw as [[|c1 r1]|]; try discriminate Et.
      injection Et as <-. split; [exact (R _ _ eq_refl) | discriminate].
  - destruct (proj1 (Val v (Some raw)) eq_refl) as [s [T [L _]]].
    assert (U : forall s' v',
      reply_text (post b) = Some s' ->
      Json.loads (App2.json_candidate (App2.strip_fences s')) = Ret v' ->
      v' = v).
    { intros s' v' T' L'. rewrite T in T'. injection T' as <-.
      rewrite L in L'. now injection L'. }
    split; [split; [destruct (Pages.truthy v); discriminate | congruence]|].
    split; [|split].
    + split.
      * intros E. split; [exact Nb|]. exists s, v.
        split; [exact T | split; [exact L|]].
        destruct (Pages.truthy v); [discriminate E | reflexivity].
      * intros [_ [s' [v' [T' [L' F]]]]].
        rewrite (U _ _ T' L') in F. now rewrite F.
    + intros data. split.
      * intros E. destruct (Pages.truthy v) eqn:Tv; [|discriminate E].
        injection E as <-. split; [exact Nb|].
        split; [exact Tv | now exists s].
      * intros [_ [Td [s' [T' L']]]].
        rewrite (U _ _ T' L') in Td. now rewrite Td, (U _ _ T' L').
    + intros err shown E. destruct (Pages.truthy v); discriminate E.
Qed.

Lemma page_after_new_upload_witness :
  Pages.display_area
    (fst (App2.rerun
            (App2.analyze_image_with_ollama
               (fun _ => Replied (PDict [("response", PStr "{}")])))
            App2.initial_state
            (Some {| App2.file_name := "a.png"; App2.file_size := 3;
                     App2.file_value := "abc" |})))
  = Pages.page_awaiting.
Proof.
  apply (proj1 (proj2 (page_after_new_upload
           (fun _ => Replied (PDict [("response", PStr "{}")]))
           App2.initial_state
           {| App2.file_name := "a.png"; App2.file_size := 3;
              App2.file_value := "abc" |} eq_refl))).
  split; [discriminate|].
  exists "{}", (PDict []). repeat split.
Defined.

(** X15.  app.py first shows the image, outside any [try]: when Streamlit
    refuses the bytes the script stops there and sends nothing.  Otherwise
    it sends the bytes, reports an unknown issue exactly when the reply is
    a JSON value that counts as false, shows the parsed result exactly when
    the reply is one that counts as true, and shows a raw response with an
    error exactly when the error is the one for malformed JSON. *)
Theorem app1_page_for_upload (st_image : string -> bool)
    (post : string -> transport) (u : App2.uploaded_file) :
  (st_image (App2.file_value u) = false ->
   Pages.app1_run st_image (App1.analyze_image_with_ollama post) (Some u)
   = (Pages.page1_stopped, []))
  /\ (st_image (App2.file_value u) = true ->
      snd (Pages.app1_run st_image (App1.analyze_image_with_ollama post)
             (Some u))
      = [App2.file_value u]
      /\ (fst (Pages.app1_run st_image (App1.analyze_image_with_ollama post)
                 (Some u))
          = Pages.page1_unknown_issue <->
          exists s v,
            reply_text (post (App2.file_value u)) = Some s
            /\ Json.loads s = Ret v /\ Pages.truthy v = false)
      /\ (forall data,
            fst (Pages.app1_run st_image
                   (App1.analyze_image_with_ollama post) (Some u))
            = Pages.page1_success data <->
            Pages.truthy data = true
            /\ exists s,
                 reply_text (post (App2.file_value u)) = Some s
                 /\ Json.loads s = Ret data)
      /\ (forall err shown,
            fst (Pages.app1_run st_image
                   (App1.analyze_image_with_ollama post) (Some u))
            = Pages.page1_error err shown ->
            (err = MalformedJson <-> exists raw, shown = Some raw))).
Proof.
  unfold Pages.app1_run.
  split; [intros H; now rewrite H|].
  intros H. rewrite H.
  set (b := App2.file_value u).
  pose proof (PagesMore.analyze1_value post b) as Val.
  destruct (reply_text (post b)) as [s|] eqn:T.
  2:{ destruct (ReplyMore.analyze_without_text _ _ T) as [e2 [e1 [_ A]]].
      rewrite A. cbn [fst snd]. split; [reflexivity|].
      split; [split; [discriminate | intros [s [v [E _]]]; discriminate E]|].
      split.
      - intros data.
        split; [discriminate | intros [_ [s [E _]]]; discriminate E].
      - intros err shown E. injection E as <- <-.
        split; [|intros [raw E]; discriminate E].
        intros ->. revert A T.
        unfold App1.analyze_image_with_ollama, reply_text,
          App1.process_response.
        destruct (post b) as [| | code | | rd]; try discriminate.
        destruct rd as [| x | x | x | x | x | d]; try discriminate.
        destruct (dict_get_default d "response" (PStr ""));
          discriminate. }
  destruct (ReplyMore.analyze_with_text _ _ _ T) as [_ [_ A]].
  assert (Err : forall err raw,
    App1.analyze_image_with_ollama post b = (None, Some err, raw) ->
    Pages.page1_error err
      match raw with
      | Some ((String _ _) as t) => Some t
      | _ => None
      end <> Pages.page1_unknown_issue
    /\ ~ (exists s' v, Some s = Some s' /\ Json.loads s' = Ret v
                       /\ Pages.truthy v = false)
    /\ forall data, ~ (Pages.truthy data = true
                       /\ exists s', Some s = Some s'
                                     /\ Json.loads s' = Ret data)).
  { intros err raw E. split; [discriminate|]. split.
    - intros [s' [v [Es [L _]]]].
      assert (X : App1.analyze_image_with_ollama post b
                  = (Some v, None, None)) by (apply Val; now exists s').
      rewrite E in X. discriminate X.
    - intros data [_ [s' [Es L]]].
      assert (X : App1.analyze_image_with_ollama post b
                  = (Some data, None, None)) by (apply Val; now exists s').
      rewrite E in X. discriminate X. }
  rewrite A in Err |- *.
  destruct (OutcomeMore.normalize1_cases s)
    as [N | [[v [L N]] | [c [r [-> [L N]]]]]]; rewrite N in Err |- *;
    cbn [fst snd].
  - destruct (Err _ _ eq_refl) as [_ [E1 E2]].
    split; [reflexivity|].
    split; [split; [discriminate | intros X; destruct (E1 X)]|split].
    + intros data. split; [discriminate | intros X; destruct (E2 _ X)].
    + intros err shown E. injection E as <- <-.
      split; [discriminate | intros [raw E]; discriminate E].
  - assert (U : forall s' v', Some s = Some s' -> Json.loads s' = Ret v' ->
                              v' = v).
    { intros s' v' E L'. injection E as <-. rewrite L in L'.
      now injection L'. }
    split; [reflexivity|]. split; [|split].
    + split.
      * intros E. exists s, v. split; [reflexivity | split; [exact L|]].
        destruct (Pages.truthy v); [discriminate E | reflexivity].
      * intros [s' [v' [E [L' F]]]]. rewrite (U _ _ E L') in F.
        now rewrite F.
    + intros data. split.
      * intros E. destruct (Pages.truthy v) eqn:Tv; [|discriminate E].
        injection E as <-. split; [exact Tv | now exists s].
      * intros [Td [s' [E L']]]. rewrite (U _ _ E L') in Td.
        now rewrite Td, (U _ _ E L').
    + intros err shown E. destruct (Pages.truthy v); discriminate E.
  - split; [reflexivity|].
    split; [split; [discriminate|]|split].
    + intros [s' [v [E [L' _]]]]. injection E as <-. congruence.
    + intros data. split; [discriminate|].
      intros [_ [s' [E L']]]. injection E as <-. congruence.
    + intros err shown E. injection E as <- <-.
      split; [intros _; now eexists | reflexivity].
Qed.


(** An image Streamlit shows, with the reply 0, and an empty file it
    refuses. *)
Lemma app1_page_for_upload_witness :
  Pages.app1_run (fun b => negb (String.eqb b ""))
    (App1.analyze_image_with_ollama
       (fun _ => Replied (PDict [("response", PStr "0")])))
    (Some {| App2.file_name := "a.png"; App2.file_size := 0;
             App2.file_value := "" |})
  = (Pages.page1_stopped, [])
  /\ fst (Pages.app1_run (fun b => negb (String.eqb b ""))
            (App1.analyze_image_with_ollama
               (fun _ => Replied (PDict [("response", PStr "0")])))
            (Some {| App2.file_name := "a.png"; App2.file_size := 3;
                     App2.file_value := "abc" |}))
     = Pages.page1_unknown_issue.
Proof.
  split.
  - apply (proj1 (app1_page_for_upload (fun b => negb (String.eqb b ""))
             (fun _ => Replied (PDict [("response", PStr "0")]))
             {| App2.file_name := "a.png"; App2.file_size := 0;
                App2.file_value := "" |})).
    reflexivity.
  - apply (proj1 (proj2 (proj2 (app1_page_for_upload
             (fun b => negb (String.eqb b ""))
             (fun _ => Replied (PDict [("response", PStr "0")]))
             {| App2.file_name := "a.png"; App2.file_size := 3;
                App2.file_value := "abc" |}) eq_refl))).
    exists "0", (PInt 0). repeat split.
Defined.

(** ** The tabs *)

Module TabsMore.
Import Pages.

(** The block, over the amounts the chart uses. *)
Lemma macros_block_amounts (macros : pyval) :
  macros_block macros
  = (carb_pct <-
       App2.daily_value_pct (macro_amount macros "carbohydrates")
         STD_DAILY_CARBS_G ;;
     prot_pct <-
       App2.daily_value_pct (macro_amount macros "protein")
         STD_DAILY_PROTEIN_G ;;
     fat_pct <-
       App2.daily_value_pct (macro_amount macros "fat") STD_DAILY_FAT_G ;;
     carb_bar <- App2.progress_value carb_pct ;;
     prot_bar <- App2.progress_value prot_pct ;;
     fat_bar <- App2.progress_value fat_pct ;;
     Ret {| shown_amounts := map (macro_amount macros) macro_keys;
            shown_chart :=
              match create_macro_pie_chart macros with
              | Ret chart => chart
              | Raise _ => None
              end;
            shown_bars :=
              [App2.st_text "Carbs:"; App2.st_progress carb_bar carb_pct;
               App2.st_text "Protein:"; App2.st_progress prot_bar prot_pct;
               App2.st_text "Fat:"; App2.st_progress fat_bar fat_pct] |}).
Proof.
  unfold macros_block, App2.number_or_zero.
  destruct (Chart.safe_get_macro macros "carbohydrates") as [c [-> Ec]].
  destruct (Chart.safe_get_macro macros "protein") as [p [-> Ep]].
  destruct (Chart.safe_get_macro macros "fat") as [f [-> Ef]].
  cbn [bind]. rewrite Ec, Ep, Ef.
  rewrite Chart.create_macro_pie_chart_slices. reflexivity.
Qed.

(** The percentage of a number, for one of the three references: a
    float, or an overflow of the division. *)
Lemma pct_outcome (v : pyval) (std : Z) :
  is_number v = true ->
  In std [STD_DAILY_CARBS_G; STD_DAILY_PROTEIN_G; STD_DAILY_FAT_G] ->
  (exists f, App2.daily_value_pct v std = Ret (PFloat f))
  \/ App2.daily_value_pct v std = Raise OverflowError.
Proof.
  intros N S.
  assert (Int : forall x : Z,
    (exists f, (quot <- (if std =? 0 then Raise ZeroDivisionError
                         else
                           let f := PyFloat.div (PyFloat.exact x)
                                      (PyFloat.exact std) in
                           if PyFloat.is_inf f then Raise OverflowError
                           else Ret (PFloat f)) ;;
                py_mul quot (PInt 100)) = Ret (PFloat f))
    \/ (quot <- (if std =? 0 then Raise ZeroDivisionError
                 else
                   let f := PyFloat.div (PyFloat.exact x)
                              (PyFloat.exact std) in
                   if PyFloat.is_inf f then Raise OverflowError
                   else Ret (PFloat f)) ;;
        py_mul quot (PInt 100)) = Raise OverflowError).
  { intros x.
    replace (std =? 0) with false
      by (destruct S as [<- | [<- | [<- | []]]]; reflexivity).
    cbv zeta. destruct (PyFloat.is_inf _); [now right|].
    left. eexists. reflexivity. }
  unfold App2.daily_value_pct.
  replace (0 <? std) with true
    by (destruct S as [<- | [<- | [<- | []]]]; reflexivity).
  destruct v as [| b | z | g | s | l | d]; try discriminate N.
  - apply Int.
  - apply Int.
  - left. unfold py_truediv. cbn [as_int as_float bind].
    destruct S as [<- | [<- | [<- | []]]]; eexists; reflexivity.
Qed.

(** The value of a bar is an integer, unless the percentage is a NaN or
    an infinity. *)
Lemma progress_value_outcome (f : PyFloat.float) :
  match PyFloat.trunc f with
  | Some z => App2.progress_value (PFloat f) = Ret (Z.min z 100)
  | None =>
      App2.progress_value (PFloat f)
      = Raise (if PyFloat.is_nan f then ValueError else OverflowError)
  end.
Proof.
  unfold App2.progress_value, py_int.
  destruct (PyFloat.trunc f); reflexivity.
Qed.

Lemma progress_value_raises (f : PyFloat.float) (x : exn) :
  App2.progress_value (PFloat f) = Raise x ->
  x = ValueError \/ x = OverflowError.
Proof.
  pose proof (progress_value_outcome f) as P.
  destruct (PyFloat.trunc f); rewrite P; [discriminate|].
  intros E; injection E as <-. destruct (PyFloat.is_nan f); tauto.
Qed.

(** A NaN or an infinity stays one through the percentage. *)
Lemma pct_of_odd_float (f : PyFloat.float) (std : Z) :
  In std [STD_DAILY_CARBS_G; STD_DAILY_PROTEIN_G; STD_DAILY_FAT_G] ->
  PyFloat.is_nan f || PyFloat.is_inf f = true ->
  exists g,
    App2.daily_value_pct (PFloat f) std = Ret (PFloat g)
    /\ PyFloat.trunc g = None.
Proof.
  intros S O.
  destruct f as [s | s | | s m e]; try discriminate O;
    destruct S as [<- | [<- | [<- | []]]];
    try destruct s; eexists; split; reflexivity.
Qed.

(** The percentage the code computes is the one specified, unless the
    division of two integers overflows. *)
Lemma pct_spec (v : pyval) (std : Z) :
  is_number v = true ->
  In std daily_references ->
  App2.daily_value_pct v std
  = match as_int v with
    | Some _ =>
        if PyFloat.is_inf (spec_quotient v std) then Raise OverflowError
        else Ret (PFloat (spec_percentage v std))
    | None => Ret (PFloat (spec_percentage v std))
    end.
Proof.
  intros N S. unfold App2.daily_value_pct, spec_percentage.
  replace (0 <? std) with true
    by (destruct S as [<- | [<- | [<- | []]]]; reflexivity).
  assert (Z0 : (std =? 0) = false)
    by (destruct S as [<- | [<- | [<- | []]]]; reflexivity).
  destruct v as [| b | z | g | s | l | d]; try discriminate N.
  - unfold py_truediv. cbn [as_int spec_quotient]. rewrite Z0. cbv zeta.
    destruct (PyFloat.is_inf _); reflexivity.
  - unfold py_truediv. cbn [as_int spec_quotient]. rewrite Z0. cbv zeta.
    destruct (PyFloat.is_inf _); reflexivity.
  - unfold py_truediv. cbn [as_int as_float bind spec_quotient].
    destruct S as [<- | [<- | [<- | []]]]; reflexivity.
Qed.

(** A percentage that is finite comes from a quotient that is. *)
Lemma finite_percentage_quotient (v : pyval) (std : Z) (t : Z) :
  PyFloat.trunc (spec_percentage v std) = Some t ->
  PyFloat.is_inf (spec_quotient v std) = false.
Proof.
  unfold spec_percentage.
  destruct (spec_quotient v std) as [s | s | | s m e]; try reflexivity.
  destruct s; intros H; vm_compute in H; discriminate H.
Qed.

Lemma pct_of_finite (v : pyval) (std : Z) (t : Z) :
  is_number v = true ->
  In std daily_references ->
  PyFloat.trunc (spec_percentage v std) = Some t ->
  App2.daily_value_pct v std = Ret (PFloat (spec_percentage v std))
  /\ App2.progress_value (PFloat (spec_percentage v std))
     = Ret (Z.min t 100).
Proof.
  intros N S T. rewrite (pct_spec _ _ N S).
  rewrite (finite_percentage_quotient _ _ _ T).
  split; [destruct (as_int v); reflexivity|].
  pose proof (progress_value_outcome (spec_percentage v std)) as P.
  now rewrite T in P.
Qed.

(** A percentage that is not finite makes its stage raise: the division,
    or the conversion to an integer. *)
Lemma pct_of_odd (v : pyval) (std : Z) :
  is_number v = true ->
  In std daily_references ->
  PyFloat.trunc (spec_percentage v std) = None ->
  App2.daily_value_pct v std = Raise OverflowError
  \/ exists g x,
       App2.daily_value_pct v std = Ret (PFloat g)
       /\ App2.progress_value (PFloat g) = Raise x.
Proof.
  intros N S T. rewrite (pct_spec _ _ N S).
  assert (R : exists g x,
    Ret (A := pyval) (PFloat (spec_percentage v std)) = Ret (PFloat g)
    /\ App2.progress_value (PFloat g) = Raise x).
  { pose proof (progress_value_outcome (spec_percentage v std)) as P.
    rewrite T in P. do 2 eexists. split; [reflexivity | exact P]. }
  destruct (as_int v); [|now right].
  destruct (PyFloat.is_inf _); [now left | now right].
Qed.

Lemma not_negative_quotient (v : pyval) (std : Z) :
  nonneg_number v = true -> 0 < std -> not_negative (spec_quotient v std).
Proof.
  intros N S.
  destruct v as [| b | z | g | s | l | d]; try discriminate N;
    cbn [spec_quotient].
  - apply Percent.div_not_negative;
      [apply Percent.sign_clear_not_negative|];
      apply Percent.exact_sign_clear; [destruct b|]; lia.
  - apply Z.leb_le in N.
    apply Percent.div_not_negative;
      [apply Percent.sign_clear_not_negative|];
      apply Percent.exact_sign_clear; lia.
  - apply Percent.div_not_negative;
      [|apply Percent.of_Z_sign_clear; lia].
    destruct g as [s | [|] | | [|] m e]; try discriminate N; exact I.
Qed.

Lemma spec_bar_bounds (v : pyval) (std : Z) (t : Z) (shown : pyval) :
  spec_bar v std = Some (t, shown) ->
  shown = PFloat (spec_percentage v std)
  /\ t <= 100
  /\ (nonneg_number v = true -> 0 < std -> 0 <= t).
Proof.
  unfold spec_bar.
  destruct (PyFloat.trunc (spec_percentage v std)) as [t0|] eqn:T;
    [|discriminate].
  intros E; injection E as <- <-.
  split; [reflexivity|]. split; [lia|].
  intros N S.
  assert (0 <= t0); [|lia].
  apply (Percent.trunc_not_negative (spec_percentage v std)); [|exact T].
  apply Percent.mul_not_negative;
    [now apply not_negative_quotient | apply Percent.of_Z_sign_clear; lia].
Qed.

Lemma upto_in (n z : Z) : 0 <= z <= n -> In z (upto n).
Proof.
  intros H. unfold upto. rewrite <- (Z2Nat.id z) by lia.
  apply in_map, in_seq. lia.
Qed.

(** Every whole number of grams up to ten kilograms has its three bars. *)
Lemma spec_bar_of_grams (z reference : Z) :
  0 <= z <= 10000 ->
  In reference daily_references ->
  exists t,
    spec_bar (PInt z) reference
    = Some (t, PFloat (spec_percentage (PInt z) reference))
    /\ 0 <= t <= 100.
Proof.
  intros Hz Hr.
  assert (C : forallb
    (fun z =>
       forallb
         (fun r =>
            match PyFloat.trunc (spec_percentage (PInt z) r) with
            | Some t => (0 <=? Z.min t 100) && (Z.min t 100 <=? 100)
            | None => false
            end) daily_references) (upto 10000) = true)
    by (vm_compute; reflexivity).
  rewrite forallb_forall in C.
  specialize (C z (upto_in 10000 z Hz)).
  rewrite forallb_forall in C. specialize (C reference Hr).
  unfold spec_bar.
  destruct (PyFloat.trunc (spec_percentage (PInt z) reference)) as [t|];
    [|discriminate C].
  apply andb_prop in C as [C1 C2].
  apply Z.leb_le in C1, C2. now exists (Z.min t 100).
Qed.

Lemma bars_by_amounts (macros : pyval) :
  bars_shown macros
  = (carb_pct <-
       App2.daily_value_pct (macro_amount macros "carbohydrates")
         STD_DAILY_CARBS_G ;;
     prot_pct <-
       App2.daily_value_pct (macro_amount macros "protein")
         STD_DAILY_PROTEIN_G ;;
     fat_pct <-
       App2.daily_value_pct (macro_amount macros "fat") STD_DAILY_FAT_G ;;
     carb_bar <- App2.progress_value carb_pct ;;
     prot_bar <- App2.progress_value prot_pct ;;
     fat_bar <- App2.progress_value fat_pct ;;
     Ret [App2.st_text "Carbs:"; App2.st_progress carb_bar carb_pct;
          App2.st_text "Protein:"; App2.st_progress prot_bar prot_pct;
          App2.st_text "Fat:"; App2.st_progress fat_bar fat_pct]).
Proof.
  unfold bars_shown. rewrite macros_block_amounts.
  destruct (App2.daily_value_pct _ STD_DAILY_CARBS_G); [|reflexivity].
  destruct (App2.daily_value_pct _ STD_DAILY_PROTEIN_G); [|reflexivity].
  destruct (App2.daily_value_pct _ STD_DAILY_FAT_G); [|reflexivity].
  cbn [bind].
  destruct (App2.progress_value _); [|reflexivity].
  destruct (App2.progress_value _); [|reflexivity].
  destruct (App2.progress_value _); reflexivity.
Qed.

Lemma amount_number (macros : pyval) (k : string) :
  is_number (macro_amount macros k) = true.
Proof.
  unfold macro_amount.
  destruct (is_number (coerced (field_of macros k))) eqn:N;
    [exact N | reflexivity].
Qed.

Lemma spec_bar_some (v : pyval) (std : Z) (b : Z) (shown : pyval) :
  spec_bar v std = Some (b, shown) ->
  exists t, PyFloat.trunc (spec_percentage v std) = Some t
            /\ b = Z.min t 100 /\ shown = PFloat (spec_percentage v std).
Proof.
  unfold spec_bar. destruct (PyFloat.trunc _) as [t|]; [|discriminate].
  intros E; injection E as <- <-. now exists t.
Qed.

Lemma spec_bar_none (v : pyval) (std : Z) :
  spec_bar v std = None -> PyFloat.trunc (spec_percentage v std) = None.
Proof.
  unfold spec_bar. now destruct (PyFloat.trunc _).
Qed.

End TabsMore.

(** C4, as amended.  The nutrients block pairs the carbohydrate, protein
    and fat amounts with the references 275, 50 and 78.  For each it
    computes the float [amount / reference * 100], gives the progress bar
    [min(int(percentage), 100)], the percentage cut to an integer and
    capped at 100 from above only, and shows the percentage itself as the
    text.  The bars are drawn exactly when the three percentages are
    finite; otherwise the block raises [ValueError] or [OverflowError].
    The value given to a bar is at most 100, and at least 0 when the amount
    is not below zero; every whole number of grams from 0 to 10000 has its
    bar.  The percentage is 0 for 0, 100.0 for 275 g of carbohydrate and
    200.0 for 550 g, for which the bar is given 100. *)
Theorem daily_value_and_progress (macros : pyval) :
  (STD_DAILY_CARBS_G = 275 /\ STD_DAILY_PROTEIN_G = 50
   /\ STD_DAILY_FAT_G = 78)
  /\ (forall (bc bp bf : Z) (tc tp tf : pyval),
        spec_bar (macro_amount macros "carbohydrates") STD_DAILY_CARBS_G
        = Some (bc, tc) ->
        spec_bar (macro_amount macros "protein") STD_DAILY_PROTEIN_G
        = Some (bp, tp) ->
        spec_bar (macro_amount macros "fat") STD_DAILY_FAT_G
        = Some (bf, tf) ->
        bars_shown macros
        = Ret [App2.st_text "Carbs:"; App2.st_progress bc tc;
               App2.st_text "Protein:"; App2.st_progress bp tp;
               App2.st_text "Fat:"; App2.st_progress bf tf])
  /\ (spec_bar (macro_amount macros "carbohydrates") STD_DAILY_CARBS_G = None
      \/ spec_bar (macro_amount macros "protein") STD_DAILY_PROTEIN_G = None
      \/ spec_bar (macro_amount macros "fat") STD_DAILY_FAT_G = None ->
      exists x, bars_shown macros = Raise x
                /\ (x = ValueError \/ x = OverflowError))
  /\ (forall (value : pyval) (reference t : Z) (shown : pyval),
        spec_bar value reference = Some (t, shown) ->
        shown = PFloat (spec_percentage value reference)
        /\ t <= 100
        /\ (nonneg_number value = true -> 0 < reference -> 0 <= t))
  /\ (forall z reference : Z,
        0 <= z <= 10000 ->
        In reference daily_references ->
        exists t,
          spec_bar (PInt z) reference
          = Some (t, PFloat (spec_percentage (PInt z) reference))
          /\ 0 <= t <= 100)
  /\ (forall reference : Z,
        In reference daily_references ->
        spec_percentage (PInt 0) reference = S754_zero false)
  /\ spec_percentage (PInt 275) STD_DAILY_CARBS_G = PyFloat.of_Z 100
  /\ spec_percentage (PInt 550) STD_DAILY_CARBS_G = PyFloat.of_Z 200
  /\ bars_shown (PDict [("carbohydrates", PInt 550)])
     = Ret [App2.st_text "Carbs:";
            App2.st_progress 100 (PFloat (PyFloat.of_Z 200));
            App2.st_text "Protein:";
            App2.st_progress 0 (PFloat (S754_zero false));
            App2.st_text "Fat:";
            App2.st_progress 0 (PFloat (S754_zero false))].
Proof.
  assert (R1 : In STD_DAILY_CARBS_G daily_references) by (simpl; tauto).
  assert (R2 : In STD_DAILY_PROTEIN_G daily_references) by (simpl; tauto).
  assert (R3 : In STD_DAILY_FAT_G daily_references) by (simpl; tauto).
  pose proof (TabsMore.amount_number macros "carbohydrates") as N1.
  pose proof (TabsMore.amount_number macros "protein") as N2.
  pose proof (TabsMore.amount_number macros "fat") as N3.
  split; [repeat split|].
  split.
  { intros bc bp bf tc tp tf B1 B2 B3.
    apply TabsMore.spec_bar_some in B1 as [t1 [T1 [-> ->]]].
    apply TabsMore.spec_bar_some in B2 as [t2 [T2 [-> ->]]].
    apply TabsMore.spec_bar_some in B3 as [t3 [T3 [-> ->]]].
    destruct (TabsMore.pct_of_finite _ _ _ N1 R1 T1) as [P1 V1].
    destruct (TabsMore.pct_of_finite _ _ _ N2 R2 T2) as [P2 V2].
    destruct (TabsMore.pct_of_finite _ _ _ N3 R3 T3) as [P3 V3].
    rewrite TabsMore.bars_by_amounts, P1, P2, P3. cbn [bind].
    rewrite V1, V2, V3. reflexivity. }
  split.
  { intros H. rewrite TabsMore.bars_by_amounts.
    pose proof (TabsMore.pct_outcome _ _ N1 R1) as O1.
    pose proof (TabsMore.pct_outcome _ _ N2 R2) as O2.
    pose proof (TabsMore.pct_outcome _ _ N3 R3) as O3.
    assert (Over : exists x : exn,
      Raise (A := list App2.st_call) OverflowError = Raise x
      /\ (x = ValueError \/ x = OverflowError))
      by (eexists; split; [reflexivity | now right]).
    assert (Bar : forall g x,
      App2.progress_value (PFloat g) = Raise x ->
      forall k : Z -> result (list App2.st_call),
      exists y, bind (App2.progress_value (PFloat g)) k = Raise y
                /\ (y = ValueError \/ y = OverflowError)).
    { intros g x E k. rewrite E. exists x.
      split; [reflexivity | exact (TabsMore.progress_value_raises _ _ E)]. }
    assert (Step : forall g (k : Z -> result (list App2.st_call)),
      (forall b, exists y, k b = Raise y
                           /\ (y = ValueError \/ y = OverflowError)) ->
      exists y, bind (App2.progress_value (PFloat g)) k = Raise y
                /\ (y = ValueError \/ y = OverflowError)).
    { intros g k K.
      destruct (App2.progress_value (PFloat g)) as [b|x] eqn:E;
        [apply K|].
      exists x. split; [reflexivity|].
      exact (TabsMore.progress_value_raises _ _ E). }
    destruct H as [H | [H | H]]; apply TabsMore.spec_bar_none in H.
    - destruct (TabsMore.pct_of_odd _ _ N1 R1 H) as [-> | [g [x [-> E]]]];
        [exact Over|]. cbn [bind].
      destruct O2 as [[f2 ->] | ->]; [|exact Over]. cbn [bind].
      destruct O3 as [[f3 ->] | ->]; [|exact Over]. cbn [bind].
      exact (Bar _ _ E _).
    - destruct O1 as [[f1 ->] | ->]; [|exact Over]. cbn [bind].
      destruct (TabsMore.pct_of_odd _ _ N2 R2 H) as [-> | [g [x [-> E]]]];
        [exact Over|]. cbn [bind].
      destruct O3 as [[f3 ->] | ->]; [|exact Over]. cbn [bind].
      apply Step. intros b. exact (Bar _ _ E _).
    - destruct O1 as [[f1 ->] | ->]; [|exact Over]. cbn [bind].
      destruct O2 as [[f2 ->] | ->]; [|exact Over]. cbn [bind].
      destruct (TabsMore.pct_of_odd _ _ N3 R3 H) as [-> | [g [x [-> E]]]];
        [exact Over|]. cbn [bind].
      apply Step. intros b. apply Step. intros b'. exact (Bar _ _ E _). }
  split; [exact TabsMore.spec_bar_bounds|].
  split; [exact TabsMore.spec_bar_of_grams|].
  split.
  { intros reference [<- | [<- | [<- | []]]]; reflexivity. }
  split; [reflexivity|]. split; reflexivity.
Qed.

(** A dish with 80 g of carbohydrate, 20 g of protein and 30 g of fat: the
    bars are given 29, 40 and 38. *)
Lemma daily_value_and_progress_witness :
  bars_shown
    (PDict [("carbohydrates", PInt 80); ("protein", PInt 20);
            ("fat", PInt 30)])
  = Ret [App2.st_text "Carbs:";
         App2.st_progress 29 (PFloat (spec_percentage (PInt 80) 275));
         App2.st_text "Protein:";
         App2.st_progress 40 (PFloat (spec_percentage (PInt 20) 50));
         App2.st_text "Fat:";
         App2.st_progress 38 (PFloat (spec_percentage (PInt 30) 78))].
Proof.
  apply (proj1 (proj2 (daily_value_and_progress
           (PDict [("carbohydrates", PInt 80); ("protein", PInt 20);
                   ("fat", PInt 30)])))); reflexivity.
Defined.

(** C4 as stated fails: nothing clamps the value from below, and an
    amount of -275 g of carbohydrate gives the progress bar -100, outside
    0..100. *)
Lemma progress_value_below_zero :
  bars_shown (PDict [("carbohydrates", PInt (-275))])
  = Ret [App2.st_text "Carbs:";
         App2.st_progress (-100) (PFloat (PyFloat.of_Z (-100)));
         App2.st_text "Protein:";
         App2.st_progress 0 (PFloat (S754_zero false));
         App2.st_text "Fat:";
         App2.st_progress 0 (PFloat (S754_zero false))]
  /\ ~ (0 <= -100 <= 100).
Proof.
  split; [reflexivity | lia].
Qed.

(** X16.  The summary tab shows, for a record that is a dict, the value
    stored under each key after the accessor's coercion, and [None] for a
    key that is missing: the text [N/A] and the default notes are shown only
    for a record that is no dict.  The notes box is shown when the notes
    count as true. *)
Theorem summary_tab_shows_stored_values (data : pyval) :
  exists view,
    Pages.summary_tab data = Ret view
    /\ (forall d, data = PDict d ->
          Pages.shown_food_name view = coerced (dict_get d "food_name")
          /\ Pages.shown_cuisine_type view
             = coerced (dict_get d "cuisine_type")
          /\ Pages.shown_serving_size view
             = coerced (dict_get d "estimated_serving_size_g")
          /\ Pages.shown_confidence view
             = coerced (dict_get d "confidence_level")
          /\ Pages.shown_notes view
             = (if Pages.truthy (coerced (dict_get d "notes"))
                then Some (coerced (dict_get d "notes")) else None)
          /\ (forall k, dict_find d k = None -> coerced (dict_get d k) = PNone))
    /\ (is_dict data = false ->
        view = {| Pages.shown_food_name := PStr "N/A";
                  Pages.shown_cuisine_type := PStr "N/A";
                  Pages.shown_serving_size := PStr "N/A";
                  Pages.shown_confidence := PStr "N/A";
                  Pages.shown_notes :=
                    Some (PStr "No additional notes provided.") |}).
Proof.
  unfold Pages.summary_tab. rewrite !Details.safe_get_field. cbn [bind].
  eexists. split; [reflexivity|]. split.
  - intros d ->. cbn [Pages.shown_food_name Pages.shown_cuisine_type
      Pages.shown_serving_size Pages.shown_confidence Pages.shown_notes].
    repeat split.
    intros k F. unfold dict_get, dict_get_default. now rewrite F.
  - intros D. destruct data; try discriminate D; reflexivity.
Qed.

(** X17.  The nutrients tab replaces the macronutrient block by its
    warning exactly when the record is a dict in which the macronutrients
    are missing or are no dict; a record that is no dict gets the block for
    an empty dict.  When none of the three amounts is a number after
    coercion, the block shows three zeros, no chart and three empty bars. *)
Theorem macros_block_without_amounts (data macros : pyval) :
  Pages.macros_section data
  = Ret match data with
        | PDict d =>
            match dict_get d "estimated_macronutrients_g" with
            | PDict m => Some (PDict m)
            | _ => None
            end
        | _ => Some (PDict [])
        end
  /\ (forallb (fun k => negb (is_number (coerced (field_of macros k))))
        macro_keys = true ->
      Pages.macros_block macros
      = Ret {| Pages.shown_amounts := [PInt 0; PInt 0; PInt 0];
               Pages.shown_chart := None;
               Pages.shown_bars :=
                 [App2.st_text "Carbs:";
                  App2.st_progress 0 (PFloat (S754_zero false));
                  App2.st_text "Protein:";
                  App2.st_progress 0 (PFloat (S754_zero false));
                  App2.st_text "Fat:";
                  App2.st_progress 0 (PFloat (S754_zero false))] |}).
Proof.
  split.
  - unfold Pages.macros_section. rewrite Details.safe_get_field.
    cbn [bind]. destruct data as [| b | z | f | s | l | d]; try reflexivity.
    destruct (dict_get d "estimated_macronutrients_g")
      as [| b | z | f | s | l | m] eqn:E; try reflexivity.
    unfold coerced.
    destruct (int_of_str s); [reflexivity|].
    destruct (float_of_str s); reflexivity.
  - unfold macro_keys. cbn [forallb]. intros H.
    apply andb_prop in H as [H1 H]. apply andb_prop in H as [H2 H].
    apply andb_prop in H as [H3 _].
    apply negb_true_iff in H1, H2, H3.
    rewrite TabsMore.macros_block_amounts.
    rewrite Chart.create_macro_pie_chart_slices.
    unfold slices, macro_keys, macro_labels. cbn [map combine].
    unfold macro_amount. rewrite H1, H2, H3. reflexivity.
Qed.

Lemma macros_block_without_amounts_witness :
  Pages.macros_block (PDict [("protein", PStr "a lot")])
  = Ret {| Pages.shown_amounts := [PInt 0; PInt 0; PInt 0];
           Pages.shown_chart := None;
           Pages.shown_bars :=
             [App2.st_text "Carbs:";
              App2.st_progress 0 (PFloat (S754_zero false));
              App2.st_text "Protein:";
              App2.st_progress 0 (PFloat (S754_zero false));
              App2.st_text "Fat:";
              App2.st_progress 0 (PFloat (S754_zero false))] |}.
Proof.
  apply (proj2 (macros_block_without_amounts PNone
                  (PDict [("protein", PStr "a lot")]))).
  reflexivity.
Defined.

(** X18.  The ingredient block lists the items of a non-empty list, in
    their order, and nothing else: a text, even one that names
    ingredients, a number, a dict, an empty list, a missing or null value
    all give the message that none is listed. *)
Theorem ingredients_rendered (data : pyval) :
  (forall (item : pyval) (rest : list pyval),
     field_of data "detailed_ingredients" = PList (item :: rest) ->
     Pages.render_ingredients data
     = Ret [App2.st_markdown "**Detailed Ingredients (Estimated):**";
            App2.st_markdown_bullets (item :: rest)])
  /\ ((forall (item : pyval) (rest : list pyval),
         field_of data "detailed_ingredients" <> PList (item :: rest)) ->
      Pages.render_ingredients data
      = Ret [App2.st_markdown "**Detailed Ingredients (Estimated):**";
             App2.st_write (PStr Pages.no_ingredients)]).
Proof.
  unfold Pages.render_ingredients. rewrite Details.safe_get_field.
  cbn [bind]. split.
  - intros item rest F. destruct data; try discriminate F.
    simpl in F. rewrite F. reflexivity.
  - intros N. destruct data as [| b | z | f | s | l | d]; try reflexivity.
    simpl in N.
    destruct (dict_get d "detailed_ingredients")
      as [| b | z | f | s | [|i r] | m] eqn:E; try reflexivity.
    + unfold coerced. destruct (int_of_str s); [reflexivity|].
      destruct (float_of_str s); reflexivity.
    + destruct (N i r eq_refl).
Qed.

Lemma ingredients_rendered_witness :
  Pages.render_ingredients
    (PDict [("detailed_ingredients", PList [PStr "rice"; PStr "beans"])])
  = Ret [App2.st_markdown "**Detailed Ingredients (Estimated):**";
         App2.st_markdown_bullets [PStr "rice"; PStr "beans"]]
  /\ Pages.render_ingredients
       (PDict [("detailed_ingredients", PStr "rice, beans")])
     = Ret [App2.st_markdown "**Detailed Ingredients (Estimated):**";
            App2.st_write (PStr Pages.no_ingredients)].
Proof.
  split.
  - apply (proj1 (ingredients_rendered
             (PDict [("detailed_ingredients",
                      PList [PStr "rice"; PStr "beans"])]))).
    reflexivity.
  - apply (proj2 (ingredients_rendered
             (PDict [("detailed_ingredients", PStr "rice, beans")]))).
    intros item rest E. discriminate E.
Defined.

(** X19.  The computations of the macronutrient block raise nothing but
    [ValueError] and [OverflowError], and they do raise when one of the
    three amounts is, after coercion, a NaN or an infinity: the JSON
    literals [NaN] and [Infinity], and texts such as [nan] and [inf], end
    the tab with an exception. *)
Theorem macros_block_failures (macros : pyval) :
  (forall x, Pages.macros_block macros = Raise x ->
             x = ValueError \/ x = OverflowError)
  /\ (forall k f,
        In k macro_keys ->
        coerced (field_of macros k) = PFloat f ->
        PyFloat.is_nan f || PyFloat.is_inf f = true ->
        exists x, Pages.macros_block macros = Raise x).
Proof.
  rewrite TabsMore.macros_block_amounts.
  pose proof (TabsMore.pct_outcome (macro_amount macros "carbohydrates")
                STD_DAILY_CARBS_G (ChartMore.amount_is_number _ _)
                (or_introl eq_refl)) as P1.
  pose proof (TabsMore.pct_outcome (macro_amount macros "protein")
                STD_DAILY_PROTEIN_G (ChartMore.amount_is_number _ _)
                (or_intror (or_introl eq_refl))) as P2.
  pose proof (TabsMore.pct_outcome (macro_amount macros "fat")
                STD_DAILY_FAT_G (ChartMore.amount_is_number _ _)
                (or_intror (or_intror (or_introl eq_refl)))) as P3.
  split.
  - intros x.
    destruct P1 as [[f1 ->] | ->]; cbn [bind];
      [|intros E; injection E as <-; now right].
    destruct P2 as [[f2 ->] | ->]; cbn [bind];
      [|intros E; injection E as <-; now right].
    destruct P3 as [[f3 ->] | ->]; cbn [bind];
      [|intros E; injection E as <-; now right].
    destruct (App2.progress_value (PFloat f1)) as [b1|x1] eqn:B1;
      cbn [bind];
      [|intros E; injection E as <-;
        exact (TabsMore.progress_value_raises _ _ B1)].
    destruct (App2.progress_value (PFloat f2)) as [b2|x2] eqn:B2;
      cbn [bind];
      [|intros E; injection E as <-;
        exact (TabsMore.progress_value_raises _ _ B2)].
    destruct (App2.progress_value (PFloat f3)) as [b3|x3] eqn:B3;
      cbn [bind];
      [discriminate
      |intros E; injection E as <-;
       exact (TabsMore.progress_value_raises _ _ B3)].
  - intros k f K C O.
    assert (A : macro_amount macros k = PFloat f)
      by (unfold macro_amount; now rewrite C).
    assert (Odd : forall std,
      In std [STD_DAILY_CARBS_G; STD_DAILY_PROTEIN_G; STD_DAILY_FAT_G] ->
      exists g, App2.daily_value_pct (macro_amount macros k) std
                = Ret (PFloat g)
                /\ exists x, App2.progress_value (PFloat g) = Raise x).
    { intros std S. rewrite A.
      destruct (TabsMore.pct_of_odd_float f std S O) as [g [-> T]].
      exists g. split; [reflexivity|].
      pose proof (TabsMore.progress_value_outcome g) as P.
      rewrite T in P. eexists. exact P. }
    unfold macro_keys in K.
    destruct K as [<- | [<- | [<- | []]]].
    + destruct (Odd STD_DAILY_CARBS_G) as [g [-> [x B]]]; [simpl; tauto|].
      cbn [bind].
      destruct P2 as [[f2 ->] | ->]; cbn [bind];
        [|now eexists].
      destruct P3 as [[f3 ->] | ->]; cbn [bind];
        [|now eexists].
      rewrite B. now eexists.
    + destruct (Odd STD_DAILY_PROTEIN_G) as [g [-> [x B]]]; [simpl; tauto|].
      destruct P1 as [[f1 ->] | ->]; cbn [bind];
        [|now eexists].
      destruct P3 as [[f3 ->] | ->]; cbn [bind];
        [|now eexists].
      destruct (App2.progress_value (PFloat f1)); cbn [bind];
        [|now eexists].
      rewrite B. now eexists.
    + destruct (Odd STD_DAILY_FAT_G) as [g [-> [x B]]]; [simpl; tauto|].
      destruct P1 as [[f1 ->] | ->]; cbn [bind];
        [|now eexists].
      destruct P2 as [[f2 ->] | ->]; cbn [bind];
        [|now eexists].
      destruct (App2.progress_value (PFloat f1)); cbn [bind];
        [|now eexists].
      destruct (App2.progress_value (PFloat f2)); cbn [bind];
        [|now eexists].
      rewrite B. now eexists.
Qed.

Lemma macros_block_failures_witness :
  exists x, Pages.macros_block (PDict [("protein", PStr "nan")]) = Raise x.
Proof.
  apply (proj2 (macros_block_failures (PDict [("protein", PStr "nan")]))
           "protein" S754_nan); [simpl; tauto | reflexivity | reflexivity].
Defined.
